(** * StudyMate AI: the study page's parsers, pipeline and quiz grading

    A shallow embedding of [src/pages/study.py]: the three text parsers
    ([parse_projects], [parse_videos], [parse_quiz]), the agent pipeline
    ([run_pipeline]) with the "Generate study pack" handler of [show], the
    handlers of the Quizzes tab (choosing an option, submitting, retaking,
    generating the roadmap), [format_links_as_clickable] and
    [init_session_state].

    Conventions of the embedding.
    - A Python [str] is a [string]; its characters are the code points
      0..255, which covers every marker the parsers look for.
    - A Python exception is a value of [Py.exn]; code that can raise returns
      [Py.result A], and [let? x := m in k] propagates the exception.
    - A Python [float] is a primitive binary64 [float]; an [int] is a [Z].
    - The handlers of the Quizzes tab are runs of the page from its early
      return (line 471) on: a run draws the tabs down to the button that was
      pressed, and what Streamlit raises on the way ([st.progress] on a
      value outside [0, 1], [st.button] on a key used twice) stops it. A
      run returns [page A]. The widgets above line 471 are the inputs of
      the "Generate study pack" handler. *)

From Stdlib Require Import ZArith Ascii Bool Lia.
From Stdlib Require Import Floats.PrimFloat Floats.SpecFloat Floats.FloatOps.
From Stdlib Require Import Numbers.Cyclic.Int63.Uint63.
From stdpp Require Import base option list sorting strings gmap pretty.

Local Open Scope Z_scope.

(** ** Python primitives *)

Module Py.

(** Exceptions the modelled code can meet. [AgentError step] stands for
    whatever an agent call of the pipeline raises. *)
Inductive exn : Type :=
| IndexError
| ValueError
| AgentError (step : string).

Definition result (A : Type) : Type := (exn + A)%type.

Definition ok {A : Type} (a : A) : result A := inr a.
Definition raise {A : Type} (e : exn) : result A := inl e.

Definition bind {A B : Type} (m : result A) (k : A -> result B) : result B :=
  match m with
  | inl e => inl e
  | inr a => k a
  end.

Notation "'let?' x := m 'in' k" := (bind m (fun x => k))
  (at level 10, x name, m at level 100, k at level 200).

Notation "'let?' ' pat := m 'in' k" :=
  (bind m (fun x => match x with pat => k end))
  (at level 10, pat pattern, m at level 100, k at level 200).

(** [l[i]] for a non-negative literal index. *)
Definition index {A : Type} (l : list A) (i : nat) : result A :=
  match l !! i with
  | Some a => ok a
  | None => raise IndexError
  end.

(** [str.isspace] on one character, which is also what [\s] of a [str]
    pattern and [str.strip] test. *)
Definition is_space (c : ascii) : bool :=
  let n := nat_of_ascii c in
  (Nat.leb 9 n && Nat.leb n 13) || (Nat.leb 28 n && Nat.leb n 32)
  || Nat.eqb n 133 || Nat.eqb n 160.

(** [\d] of a [str] pattern. *)
Definition is_digit (c : ascii) : bool :=
  let n := nat_of_ascii c in
  Nat.leb 48 n && Nat.leb n 57.

Fixpoint drop_chars (n : nat) (s : string) : string :=
  match n, s with
  | S k, String _ s' => drop_chars k s'
  | _, _ => s
  end.

(** [s.startswith(p)] *)
Fixpoint startswith (s p : string) : bool :=
  match p, s with
  | EmptyString, _ => true
  | String a p', String b s' => Ascii.eqb a b && startswith s' p'
  | String _ _, EmptyString => false
  end.

(** [sub in s] *)
Fixpoint str_in (sub s : string) : bool :=
  startswith s sub ||
  match s with
  | EmptyString => false
  | String _ s' => str_in sub s'
  end.

Fixpoint lstrip (s : string) : string :=
  match s with
  | EmptyString => EmptyString
  | String c s' => if is_space c then lstrip s' else s
  end.

Fixpoint rstrip (s : string) : string :=
  match s with
  | EmptyString => EmptyString
  | String c s' =>
      match rstrip s' with
      | EmptyString => if is_space c then EmptyString else String c EmptyString
      | r => String c r
      end
  end.

(** [s.strip()] *)
Definition strip (s : string) : string := rstrip (lstrip s).

(** Splitting at the leftmost, non-overlapping occurrences of a separator.
    [sep s] tells whether a separator starts at the head of [s] and how many
    characters it takes; [skip] counts the characters of the separator still
    to be passed over. The head of the result is the piece being read. *)
Fixpoint split_on (sep : string -> option nat) (skip : nat) (s : string)
  : list string :=
  match s with
  | EmptyString => [EmptyString]
  | String c s' =>
      match skip with
      | S k => split_on sep k s'
      | O =>
          match sep s with
          | Some n => EmptyString :: split_on sep (Nat.pred n) s'
          | None =>
              match split_on sep 0 s' with
              | piece :: rest => String c piece :: rest
              | [] => [String c EmptyString]
              end
          end
      end
  end.

Definition literal (sep : string) (s : string) : option nat :=
  if startswith s sep then Some (String.length sep) else None.

(** [s.split(sep)] for a non-empty [sep]. *)
Definition split (s sep : string) : list string :=
  split_on (literal sep) 0 s.

(** [s.replace(old, new)] for a non-empty [old]. *)
Fixpoint replace_go (old new : string) (skip : nat) (s : string) : string :=
  match s with
  | EmptyString => EmptyString
  | String c s' =>
      match skip with
      | S k => replace_go old new k s'
      | O =>
          if startswith s old
          then new +:+ replace_go old new (Nat.pred (String.length old)) s'
          else String c (replace_go old new 0 s')
      end
  end.

Definition replace (s old new : string) : string := replace_go old new 0 s.

(** The value of a string of decimal digits, most significant first. *)
Fixpoint digits_value (acc : Z) (s : string) : option Z :=
  match s with
  | EmptyString => Some acc
  | String c s' =>
      if is_digit c
      then digits_value (10 * acc + Z.of_nat (nat_of_ascii c - 48)) s'
      else None
  end.

(** CPython's default [sys.int_max_str_digits]: [int(s)] raises
    [ValueError] when [s] has more decimal digits than this. *)
Definition int_max_str_digits : nat := 4300.

(** [int(s)] on the strings the parsers pass to it (what [\d+] captured). *)
Definition int (s : string) : result Z :=
  if Nat.ltb int_max_str_digits (String.length s) then raise ValueError
  else
    match s with
    | EmptyString => raise ValueError
    | _ => match digits_value 0 s with
           | Some z => ok z
           | None => raise ValueError
           end
    end.

End Py.

Import Py.

(** ** Regular expressions of the parsers

    The three patterns of the source are sequences of literals, greedy
    repetitions of a character class, lazy [.*?] (with [re.DOTALL]), one
    character of a class and a lookahead. [match_atoms] is the backtracking
    search of [re]: alternatives are tried in the order [re] tries them and
    the first success is returned, with the text of the capture groups and
    the number of characters matched. *)

Module Re.

Inductive atom : Type :=
| Lit (l : string)
| Star (cap : bool) (p : ascii -> bool)     (* greedy [p*] *)
| Plus (cap : bool) (p : ascii -> bool)     (* greedy [p+] *)
| Lazy (cap : bool)                         (* [.*?], DOTALL *)
| One (cap : bool) (p : ascii -> bool)
| Ahead (q : string -> bool).               (* [(?=...)] *)

Definition matched : Type := (list string * nat)%type.

Definition with_group (cap : bool) (w : string) (n : nat) (m : matched)
  : matched :=
  ((if cap then w :: m.1 else m.1), (n + m.2)%nat).

(** Greedy repetition: take one more character when possible, and give it
    back when the rest of the pattern fails. *)
Fixpoint greedy (p : ascii -> bool) (k : string -> option matched)
    (s : string) : option (string * matched) :=
  match s with
  | String c s' =>
      if p c then
        match greedy p k s' with
        | Some (w, m) => Some (String c w, m)
        | None => option_map (pair EmptyString) (k s)
        end
      else option_map (pair EmptyString) (k s)
  | EmptyString => option_map (pair EmptyString) (k s)
  end.

(** Lazy repetition of any character: try the rest of the pattern first,
    and take one more character when it fails. *)
Fixpoint lazy_any (k : string -> option matched) (s : string)
  : option (string * matched) :=
  match k s with
  | Some m => Some (EmptyString, m)
  | None =>
      match s with
      | String c s' =>
          match lazy_any k s' with
          | Some (w, m) => Some (String c w, m)
          | None => None
          end
      | EmptyString => None
      end
  end.

Definition close_group (cap : bool) (r : option (string * matched))
  : option matched :=
  match r with
  | Some (w, m) => Some (with_group cap w (String.length w) m)
  | None => None
  end.

Fixpoint match_atoms (r : list atom) (s : string) : option matched :=
  match r with
  | [] => Some ([], 0%nat)
  | Lit l :: r' =>
      if startswith s l
      then option_map (with_group false EmptyString (String.length l))
             (match_atoms r' (drop_chars (String.length l) s))
      else None
  | Star cap p :: r' => close_group cap (greedy p (match_atoms r') s)
  | Plus cap p :: r' =>
      match s with
      | String c s' =>
          if p c then
            match greedy p (match_atoms r') s' with
            | Some (w, m) =>
                Some (with_group cap (String c w) (S (String.length w)) m)
            | None => None
            end
          else None
      | EmptyString => None
      end
  | Lazy cap :: r' => close_group cap (lazy_any (match_atoms r') s)
  | One cap p :: r' =>
      match s with
      | String c s' =>
          if p c
          then option_map (with_group cap (String c EmptyString) 1)
                 (match_atoms r' s')
          else None
      | EmptyString => None
      end
  | Ahead q :: r' => if q s then match_atoms r' s else None
  end.

(** [re.split(r, s)] for a pattern without capture groups. *)
Definition split (r : list atom) (s : string) : list string :=
  split_on (fun t => option_map snd (match_atoms r t)) 0 s.

(** The matches of [re.findall(r, s)], left to right and non-overlapping,
    each with the offset it starts at. [pos] is the offset of the head of
    [s]; [skip] counts the characters of the last match still to pass. *)
Fixpoint scan (r : list atom) (pos skip : nat) (s : string)
  : list (nat * list string) :=
  match skip with
  | S k =>
      match s with
      | String _ s' => scan r (S pos) k s'
      | EmptyString => []
      end
  | O =>
      match match_atoms r s with
      | Some (groups, n) =>
          (pos, groups) ::
          match s with
          | String _ s' => scan r (S pos) (Nat.pred n) s'
          | EmptyString => []
          end
      | None =>
          match s with
          | String _ s' => scan r (S pos) 0 s'
          | EmptyString => []
          end
      end
  end.

Definition findall (r : list atom) (s : string) : list (list string) :=
  (scan r 0 0 s).*2.

End Re.

(** ** The text parsers *)

Definition nl : string := String "010"%char EmptyString.

(** [r'\[\d+\]'], the marker that starts an entry. *)
Definition index_marker : list Re.atom :=
  [Re.Lit "["; Re.Plus false is_digit; Re.Lit "]"].

Module Project.
Record t : Type := mk
  { title : string;
    repo_name : string;
    creator : string;
    url : string;
    description : string }.
End Project.

Module Video.
Record t : Type := mk
  { title : string;
    url : string;
    video_id : string }.
End Video.

Record projects_dict : Type :=
  { github : list Project.t;
    docker : list Project.t }.

(** The loop [for line in lines[1:]] of [parse_projects], threading the
    two variables it assigns. *)
Fixpoint url_and_note (lines : list string) (url description : string)
  : string * string :=
  match lines with
  | [] => (url, description)
  | line :: rest =>
      if startswith line "URL:"
      then url_and_note rest (strip (replace line "URL:" "")) description
      else if startswith line "Note:"
      then url_and_note rest url (strip (replace line "Note:" ""))
      else url_and_note rest url description
  end.

(** [repo_name] and [creator] of an entry. *)
Definition repo_and_creator (title url : string) : result (string * string) :=
  if str_in "github.com" url then
    let parts := split url "github.com/" in
    if Nat.ltb 1 (length parts) then
      let? p1 := index parts 1 in
      let path_parts := split p1 "/" in
      if Nat.leb 2 (length path_parts) then
        let? creator := index path_parts 0 in
        let? repo_name := index path_parts 1 in
        ok (repo_name, creator)
      else ok (title, "Unknown")
    else ok (title, "Unknown")
  else ok (title, "Unknown").

(** The record an entry yields, when it has the two lines it needs. *)
Definition project_of_entry (entry : string) : result (option Project.t) :=
  let lines := split (strip entry) nl in
  if Nat.leb 2 (length lines) then
    let? line0 := index lines 0 in
    let title := strip line0 in
    let '(url, description) := url_and_note (tail lines) "" "" in
    let? '(repo_name, creator) := repo_and_creator title url in
    ok (Some (Project.mk title repo_name creator url description))
  else ok None.

(** The loop [for entry in entries[1:]]: what it appends to
    [github_projects] and to [docker_projects]. *)
Fixpoint entries_loop (is_github is_docker : bool) (entries : list string)
  : result (list Project.t * list Project.t) :=
  match entries with
  | [] => ok ([], [])
  | entry :: rest =>
      let? found := project_of_entry entry in
      let? '(gh, dk) := entries_loop is_github is_docker rest in
      match found with
      | Some project_data =>
          if is_github || str_in "github.com" (Project.url project_data)
          then ok (project_data :: gh, dk)
          else if is_docker || str_in "hub.docker.com" (Project.url project_data)
          then ok (gh, project_data :: dk)
          else ok (gh, dk)
      | None => ok (gh, dk)
      end
  end.

Definition section_is_github (section : string) : bool :=
  str_in "GitHub" section || str_in "github.com" section.

Definition section_is_docker (section : string) : bool :=
  str_in "DockerHub" section || str_in "hub.docker.com" section
  || str_in "Docker" section.

Definition section_entries (section : string) : list string :=
  tail (Re.split index_marker section).

(** The loop [for section in sections]. *)
Fixpoint sections_loop (sections : list string)
  : result (list Project.t * list Project.t) :=
  match sections with
  | [] => ok ([], [])
  | section :: rest =>
      let? '(gh, dk) :=
        entries_loop (section_is_github section) (section_is_docker section)
          (section_entries section) in
      let? '(gh', dk') := sections_loop rest in
      ok (gh ++ gh', dk ++ dk')
  end.

Definition separator : string := "---------------------".

Definition parse_projects (projects_text : string) : result projects_dict :=
  let sections := split projects_text separator in
  let? '(github_projects, docker_projects) := sections_loop sections in
  ok {| github := github_projects; docker := docker_projects |}.

(** The [video_id] of a URL. *)
Definition video_id_of (url : string) : result string :=
  if str_in "youtube.com/watch?v=" url then
    let? after := index (split url "watch?v=") 1 in
    index (split after "&") 0
  else if str_in "youtu.be/" url then
    let? after := index (split url "youtu.be/") 1 in
    index (split after "?") 0
  else ok "".

Definition video_of_entry (entry : string) : result (option Video.t) :=
  let lines := split (strip entry) nl in
  if Nat.leb 2 (length lines) then
    let? line0 := index lines 0 in
    let title := strip line0 in
    let? url :=
      if Nat.ltb 1 (length lines)
      then (let? line1 := index lines 1 in ok (strip line1))
      else ok "" in
    let? video_id := video_id_of url in
    ok (Some (Video.mk title url video_id))
  else ok None.

(** The loop [for entry in entries[1:]] of [parse_videos]. *)
Fixpoint videos_loop (entries : list string) : result (list Video.t) :=
  match entries with
  | [] => ok []
  | entry :: rest =>
      let? found := video_of_entry entry in
      let? videos := videos_loop rest in
      ok (match found with Some v => v :: videos | None => videos end)
  end.

Definition parse_videos (videos_text : string) : result (list Video.t) :=
  let entries := Re.split index_marker videos_text in
  videos_loop (tail entries).

(** [r'Q(\d+):\s*(.*?)\nA\)(.*?)\nB\)(.*?)\nC\)(.*?)\nD\)(.*?)\nCorrect answer:\s*([A-D])'] *)
Definition is_A_to_D (c : ascii) : bool :=
  let n := nat_of_ascii c in
  Nat.leb 65 n && Nat.leb n 68.

Definition question_pattern : list Re.atom :=
  [Re.Lit "Q"; Re.Plus true is_digit; Re.Lit ":"; Re.Star false is_space;
   Re.Lazy true; Re.Lit (nl +:+ "A)");
   Re.Lazy true; Re.Lit (nl +:+ "B)");
   Re.Lazy true; Re.Lit (nl +:+ "C)");
   Re.Lazy true; Re.Lit (nl +:+ "D)");
   Re.Lazy true; Re.Lit (nl +:+ "Correct answer:"); Re.Star false is_space;
   Re.One true is_A_to_D].

(** The lookahead [(?=E\d+:|$)]; without [re.MULTILINE], [$] holds at the
    end of the text and before a newline that ends it. *)
Definition next_exercise_or_end (s : string) : bool :=
  match Re.match_atoms [Re.Lit "E"; Re.Plus false is_digit; Re.Lit ":"] s with
  | Some _ => true
  | None => String.eqb s EmptyString || String.eqb s nl
  end.

(** [r'E(\d+):\s*(.*?)(?=E\d+:|$)'] *)
Definition exercise_pattern : list Re.atom :=
  [Re.Lit "E"; Re.Plus true is_digit; Re.Lit ":"; Re.Star false is_space;
   Re.Lazy true; Re.Ahead next_exercise_or_end].

Module Question.
Record t : Type := mk
  { number : Z;
    question : string;
    options : list (string * string);
    correct : string }.
End Question.

Module Exercise.
Record t : Type := mk
  { number : Z;
    text : string }.
End Exercise.

Record quiz_data : Type :=
  { questions : list Question.t;
    exercises : list Exercise.t }.

(** The body of [for match in matches], which unpacks the seven groups. *)
Definition question_of_match (groups : list string) : result Question.t :=
  match groups with
  | [q_num; question; opt_a; opt_b; opt_c; opt_d; correct] =>
      let? number := Py.int q_num in
      ok (Question.mk number (strip question)
            [("A", strip opt_a); ("B", strip opt_b);
             ("C", strip opt_c); ("D", strip opt_d)]
            (strip correct))
  | _ => raise ValueError
  end.

(** The body of [for match in ex_matches]. *)
Definition exercise_of_match (groups : list string) : result Exercise.t :=
  match groups with
  | [e_num; exercise] =>
      let? number := Py.int e_num in
      ok (Exercise.mk number (strip exercise))
  | _ => raise ValueError
  end.

(** A [for] loop that appends [f x] for every [x], stopping at the first
    exception. *)
Fixpoint for_each {A B : Type} (f : A -> result B) (l : list A)
  : result (list B) :=
  match l with
  | [] => ok []
  | x :: rest =>
      let? y := f x in
      let? ys := for_each f rest in
      ok (y :: ys)
  end.

Definition quiz_section_of (quiz_text : string) : result string :=
  let parts := split quiz_text "[EXERCISES]" in
  let? part0 := index parts 0 in
  ok (strip (replace part0 "[QUIZ]" "")).

Definition exercises_section_of (quiz_text : string) : result string :=
  let parts := split quiz_text "[EXERCISES]" in
  if Nat.ltb 1 (length parts)
  then (let? part1 := index parts 1 in ok (strip part1))
  else ok "".

Definition parse_quiz (quiz_text : string) : result quiz_data :=
  let? quiz_section := quiz_section_of quiz_text in
  let? exercises_section := exercises_section_of quiz_text in
  let matches := Re.findall question_pattern quiz_section in
  let? questions := for_each question_of_match matches in
  let ex_matches := Re.findall exercise_pattern exercises_section in
  let? exercises := for_each exercise_of_match ex_matches in
  ok {| questions := questions; exercises := exercises |}.

(** ** Python numbers of the quiz score

    [quiz_score] starts as the [int] 0 and becomes a [float] once a
    question's weight is added to it. *)

Module PyNum.

Inductive t : Type :=
| Int (z : Z)
| Float (f : float).

(** [float(z)], exact below [2^53]. *)
Definition float_of_Z (z : Z) : float :=
  if z <? 0
  then PrimFloat.opp (PrimFloat.of_uint63 (Uint63.of_Z (- z)))
  else PrimFloat.of_uint63 (Uint63.of_Z z).

Definition to_float (x : t) : float :=
  match x with
  | Int z => float_of_Z z
  | Float f => f
  end.

(** [a / b] on two [int]s, for a non-zero [b]: the quotient rounded once,
    which is the division of the two conversions below [2^53]. *)
Definition true_div (a b : Z) : t :=
  Float (PrimFloat.div (float_of_Z a) (float_of_Z b)).

(** [x + y] *)
Definition add (x y : t) : t :=
  match x, y with
  | Int a, Int b => Int (a + b)
  | _, _ => Float (PrimFloat.add (to_float x) (to_float y))
  end.

(** [x == y] *)
Definition eqb (x y : t) : bool :=
  match x, y with
  | Int a, Int b => Z.eqb a b
  | _, _ => PrimFloat.eqb (to_float x) (to_float y)
  end.

(** The integer nearest to [n / d], ties to even, for [0 <= n] and
    [0 < d]. *)
Definition nearest_even (n d : Z) : Z :=
  let q := n / d in
  let r := n mod d in
  if 2 * r <? d then q
  else if d <? 2 * r then q + 1
  else if Z.even q then q else q + 1.

(** [round(f, 1)] on a [float]: the decimal with one digit nearest to the
    exact value of [f] (ties to even), converted back to a [float]. *)
Definition round1_float (f : float) : float :=
  match Prim2SF f with
  | S754_finite sign m e =>
      if 0 <=? e then f
      else
        let tenths := nearest_even (10 * Z.pos m) (2 ^ (- e)) in
        let r := PrimFloat.div (float_of_Z tenths) (float_of_Z 10) in
        if sign then PrimFloat.opp r else r
  | _ => f
  end.

(** [round(x, 1)]: an [int] is returned as it is. *)
Definition round1 (x : t) : t :=
  match x with
  | Int z => Int z
  | Float f => Float (round1_float f)
  end.

End PyNum.

(** ** The agent pipeline

    The agents live outside the modelled file: they are taken as a record of
    functions, each returning its text or raising. A run threads the list of
    the agents it has called so far. *)

Module Run.

Definition t (A : Type) : Type := list string -> list string * result A.

Definition ret {A : Type} (a : A) : t A := fun log => (log, ok a).

Definition bind {A B : Type} (m : t A) (k : A -> t B) : t B :=
  fun log =>
    match m log with
    | (log', inl e) => (log', inl e)
    | (log', inr a) => k a log'
    end.

(** One agent call, recorded under the agent's name. *)
Definition call {A : Type} (name : string) (r : result A) : t A :=
  fun log => (log ++ [name], r).

Notation "'let!' x := m 'in' k" := (bind m (fun x => k))
  (at level 10, x name, m at level 100, k at level 200).

Notation "'let!' ' pat := m 'in' k" :=
  (bind m (fun x => match x with pat => k end))
  (at level 10, pat pattern, m at level 100, k at level 200).

End Run.

Import Run.

Module Output.
Record t : Type := mk
  { a1_output : string;
    a2_output : string;
    a3_output : string;
    summary : string;
    videos : string;
    projects : string;
    quizzes : string;
    exams : string }.
End Output.

Record agents (LLM File : Type) : Type :=
  { get_llm : string -> result LLM;
    a1_everything : string -> string -> result string;
    a2_cleaner : LLM -> string -> string -> result string;
    a3_adapter : File -> result string;
    a4_summarizer : LLM -> string -> bool -> result string;
    a5_collector_videos : string -> string -> result string;
    a6_relations_projects : string -> string -> result string;
    a7_ai_companion_quiz : LLM -> string -> result string;
    a8_examiner : string -> string -> result string }.

Arguments get_llm {LLM File}.
Arguments a1_everything {LLM File}.
Arguments a2_cleaner {LLM File}.
Arguments a3_adapter {LLM File}.
Arguments a4_summarizer {LLM File}.
Arguments a5_collector_videos {LLM File}.
Arguments a6_relations_projects {LLM File}.
Arguments a7_ai_companion_quiz {LLM File}.
Arguments a8_examiner {LLM File}.

(** [name in help_types] *)
Definition selected (name : string) (help_types : list string) : bool :=
  bool_decide (name ∈ help_types).

Section Pipeline.

Context {LLM File : Type}.
Variable ag : agents LLM File.

(** The branch on [uploaded_file]: [(a1_output, a2_output, a3_output,
    context_text)]. *)
Definition ingest (llm : LLM) (subject chapter : string)
    (uploaded_file : option File)
  : Run.t (string * string * string * string) :=
  match uploaded_file with
  | Some file =>
      let! a3_output := call "a3_adapter" (a3_adapter ag file) in
      ret ("", "", a3_output, a3_output)
  | None =>
      let! a1_output :=
        call "a1_everything" (a1_everything ag subject chapter) in
      let! a2_output :=
        call "a2_cleaner" (a2_cleaner ag llm subject a1_output) in
      ret (a1_output, a2_output, "", a2_output)
  end.

(** [if name in help_types: field = agent(...)], the field being [""]
    before. *)
Definition when_selected (name : string) (help_types : list string)
    (agent : string) (r : result string) : Run.t string :=
  if selected name help_types then call agent r else ret "".

Definition run_pipeline (subject chapter : string) (help_types : list string)
    (guide_mode : bool) (uploaded_file : option File) (engine_code : string)
  : Run.t Output.t :=
  let! llm := call "get_llm" (get_llm ag engine_code) in
  let! '(a1_output, a2_output, a3_output, context_text) :=
    ingest llm subject chapter uploaded_file in
  let! summary :=
    call "a4_summarizer" (a4_summarizer ag llm context_text guide_mode) in
  let! videos :=
    when_selected "Videos" help_types
      "a5_collector_videos" (a5_collector_videos ag subject chapter) in
  let! projects :=
    when_selected "Related Projects" help_types
      "a6_relations_projects" (a6_relations_projects ag subject chapter) in
  let! quizzes :=
    when_selected "Quizzes/Exercises" help_types
      "a7_ai_companion_quiz" (a7_ai_companion_quiz ag llm summary) in
  let! exams :=
    when_selected "Exams" help_types
      "a8_examiner" (a8_examiner ag subject chapter) in
  ret (Output.mk a1_output a2_output a3_output summary
         videos projects quizzes exams).

End Pipeline.

(** ** Session state and the handlers of [show] *)

Record history_entry : Type :=
  { timestamp : string;
    h_subject : string;
    h_chapter : string;
    h_engine : string;
    h_help_types : list string }.

Module Session.
Record t : Type := mk
  { mas_output : option Output.t;
    summary : string;
    videos : string;
    projects : string;
    quizzes : string;
    exams : string;
    roadmap : string;
    engine_code : string;
    help_types : list string;
    study_history : list history_entry;
    quiz_score : PyNum.t;
    quiz_answers : gmap string string;
    quiz_submitted : bool;
    selected_subject : string;
    selected_chapter : string }.
End Session.

(** What the handler shows: [st.error(...)] or [st.success(...)]. *)
Inductive notice : Type :=
| MissingFields
| MissingKey
| Failed (e : exn)
| Generated.

(** [check_api_key], over the environment [os.getenv] reads. *)
Definition check_api_key (getenv : string -> option string) (env_var : string)
  : bool :=
  match getenv env_var with
  | Some value => negb (String.eqb value "")
  | None => false
  end.

Section Generate.

Context {LLM File : Type}.
Variable ag : agents LLM File.
Variable getenv : string -> option string.
Variable now : string.

(** The body of [if st.button("Generate study pack")]. *)
Definition generate_study_pack (subject chapter : string)
    (help_types : list string) (guide_mode : bool)
    (uploaded_file : option File)
    (engine_label engine_code engine_env_var : string)
    (state : Session.t) : Session.t * notice :=
  if String.eqb (strip subject) "" || String.eqb (strip chapter) ""
  then (state, MissingFields)
  else if negb (check_api_key getenv engine_env_var)
  then (state, MissingKey)
  else
    match (run_pipeline ag subject chapter help_types guide_mode
             uploaded_file engine_code []).2 with
    | inr output =>
        let entry :=
          {| timestamp := now; h_subject := subject; h_chapter := chapter;
             h_engine := engine_label; h_help_types := help_types |} in
        ({| Session.mas_output := Some output;
            Session.summary := Output.summary output;
            Session.videos := Output.videos output;
            Session.projects := Output.projects output;
            Session.quizzes := Output.quizzes output;
            Session.exams := Output.exams output;
            Session.roadmap := "";
            Session.engine_code := Session.engine_code state;
            Session.help_types := Session.help_types state;
            Session.study_history := Session.study_history state ++ [entry];
            Session.quiz_score := PyNum.Int 0;
            Session.quiz_answers := ∅;
            Session.quiz_submitted := false;
            Session.selected_subject := Session.selected_subject state;
            Session.selected_chapter := Session.selected_chapter state |},
         Generated)
    | inl e => (state, Failed e)
    end.

End Generate.

(** ** The page below the early return: the tabs

    A run of [show] returns at line 473 while the session holds no study
    pack. Otherwise it draws the tabs, in order: the Videos and the Projects
    tab call their parsers, and the Quizzes tab parses the quiz, draws the
    progress bar and, while the quiz is not submitted, one button for every
    option of every question. The buttons "Submit Answers", "Retake Quiz"
    and "Generate Roadmap" come after these. *)

Definition max_score : Z := 20.

Definition points_per_question (total_questions : nat) : PyNum.t :=
  if Nat.ltb 0 total_questions
  then PyNum.true_div max_score (Z.of_nat total_questions)
  else PyNum.Int 0.

(** [f"q_{question['number']}"] *)
Definition question_key (q : Question.t) : string :=
  "q_" +:+ pretty (Question.number q).

(** [quiz_answers.get(question_key) == question["correct"]] *)
Definition answered_correctly (answers : gmap string string)
    (q : Question.t) : bool :=
  bool_decide (answers !! question_key q = Some (Question.correct q)).

(** The loop [for question in quiz_data["questions"]], from the score
    reached so far. *)
Fixpoint score_loop (answers : gmap string string) (points : PyNum.t)
    (questions : list Question.t) (score : PyNum.t) : PyNum.t :=
  match questions with
  | [] => score
  | q :: rest =>
      score_loop answers points rest
        (if answered_correctly answers q then PyNum.add score points
         else score)
  end.

Definition submitted_score (quiz : quiz_data) (answers : gmap string string)
  : PyNum.t :=
  let total_questions := length (questions quiz) in
  PyNum.round1
    (score_loop answers (points_per_question total_questions)
       (questions quiz) (PyNum.Int 0)).

(** What stops a run of the page: an exception of the modelled Python code,
    or one of the two that Streamlit raises on the calls of the Quizzes tab:
    [StreamlitDuplicateElementKey] of [st.button] and
    [StreamlitAPIException] of [st.progress]. *)
Inductive page_exn : Type :=
| Python (e : exn)
| DuplicateElementKey (key : string)
| ProgressValue (value : float).

Definition page (A : Type) : Type := (page_exn + A)%type.

Definition drawn_ok {A : Type} (a : A) : page A := inr a.

Definition python {A : Type} (r : result A) : page A :=
  match r with
  | inl e => inl (Python e)
  | inr a => inr a
  end.

Definition page_bind {A B : Type} (m : page A) (k : A -> page B) : page B :=
  match m with
  | inl e => inl e
  | inr a => k a
  end.

Notation "'let+' x := m 'in' k" := (page_bind m (fun x => k))
  (at level 10, x name, m at level 100, k at level 200).

(** [1e-9], the two tolerances [st.progress] passes to [math.isclose]. *)
Definition tolerance : float := 0x1.12e0be826d695p-30%float.

(** [math.isclose(a, b, rel_tol=1e-9, abs_tol=1e-9)] *)
Definition isclose (a b : float) : bool :=
  if PrimFloat.eqb a b then true
  else if PrimFloat.is_infinity a || PrimFloat.is_infinity b then false
  else
    let diff := PrimFloat.abs (PrimFloat.sub b a) in
    PrimFloat.leb diff (PrimFloat.abs (PrimFloat.mul tolerance b))
    || PrimFloat.leb diff (PrimFloat.abs (PrimFloat.mul tolerance a))
    || PrimFloat.leb diff tolerance.

(** [st.progress(value)] for a [float]: a value between 0.0 and 1.0, or
    close to one of the two, is accepted; any other raises. *)
Definition progress (value : float) : page unit :=
  if (PrimFloat.leb 0 value && PrimFloat.leb value 1)
     || isclose value 0 || isclose value 1
  then drawn_ok tt
  else inl (ProgressValue value).

(** [st.session_state.quiz_score / max_score], what the progress bar is
    given. *)
Definition progress_value (quiz_score : PyNum.t) : float :=
  PrimFloat.div (PyNum.to_float quiz_score) (PyNum.float_of_Z max_score).

(** [f"btn_{question_key}_{option_key}"] *)
Definition button_key (q : Question.t) (option_key : string) : string :=
  "btn_" +:+ question_key q +:+ "_" +:+ option_key.

(** What the loop over the option buttons ends with: the press of one of
    them, whose handler ends the run with [st.rerun()], or no press, with
    the keys the buttons drawn in this run have [taken]. *)
Inductive drawn : Type :=
| Pressed (q : Question.t) (option_key : string)
| NotPressed (taken : list string).

(** [for option_key, option_text in question["options"].items()], while
    the quiz is not submitted: [st.button(option_text, key=...)] raises on
    a key that a button of this run has taken, and returns [True] for the
    button that was pressed. *)
Fixpoint option_buttons (pressed : option string) (q : Question.t)
    (options : list (string * string)) (taken : list string) : page drawn :=
  match options with
  | [] => drawn_ok (NotPressed taken)
  | (option_key, option_text) :: rest =>
      let key := button_key q option_key in
      if bool_decide (key ∈ taken) then inl (DuplicateElementKey key)
      else if bool_decide (pressed = Some key)
      then drawn_ok (Pressed q option_key)
      else option_buttons pressed q rest (key :: taken)
  end.

(** [for q_idx, question in enumerate(quiz_data["questions"])] *)
Fixpoint question_buttons (pressed : option string)
    (questions : list Question.t) (taken : list string) : page drawn :=
  match questions with
  | [] => drawn_ok (NotPressed taken)
  | q :: rest =>
      let+ found := option_buttons pressed q (Question.options q) taken in
      match found with
      | Pressed q' option_key => drawn_ok (Pressed q' option_key)
      | NotPressed taken' => question_buttons pressed rest taken'
      end
  end.

(** The run from line 471 down to the option buttons, given the key of the
    option button that was pressed, if one was. [None] stands for a page
    without a quiz: the early return, or an empty quizzes text. *)
Definition quizzes_tab (pressed : option string) (state : Session.t)
  : page (option (quiz_data * drawn)) :=
  match Session.mas_output state with
  | None => drawn_ok None
  | Some _ =>
      let+ videos :=
        python (if String.eqb (Session.videos state) "" then ok []
                else parse_videos (Session.videos state)) in
      let+ projects_dict :=
        python (if String.eqb (Session.projects state) ""
                then ok {| github := []; docker := [] |}
                else parse_projects (Session.projects state)) in
      if String.eqb (Session.quizzes state) "" then drawn_ok None
      else
        let+ quiz := python (parse_quiz (Session.quizzes state)) in
        let+ bar := progress (progress_value (Session.quiz_score state)) in
        if Session.quiz_submitted state
        then drawn_ok (Some (quiz, NotPressed []))
        else
          let+ buttons := question_buttons pressed (questions quiz) [] in
          drawn_ok (Some (quiz, buttons))
  end.

(** The run in which "Submit Answers" is pressed. The button is drawn
    after the option buttons, and only while the quiz is not submitted. *)
Definition submit_answers (state : Session.t) : page Session.t :=
  let+ tab := quizzes_tab None state in
  match tab with
  | None => drawn_ok state
  | Some (quiz, _) =>
      if Session.quiz_submitted state then drawn_ok state
      else
        drawn_ok
          {| Session.mas_output := Session.mas_output state;
             Session.summary := Session.summary state;
             Session.videos := Session.videos state;
             Session.projects := Session.projects state;
             Session.quizzes := Session.quizzes state;
             Session.exams := Session.exams state;
             Session.roadmap := Session.roadmap state;
             Session.engine_code := Session.engine_code state;
             Session.help_types := Session.help_types state;
             Session.study_history := Session.study_history state;
             Session.quiz_score :=
               submitted_score quiz (Session.quiz_answers state);
             Session.quiz_answers := Session.quiz_answers state;
             Session.quiz_submitted := true;
             Session.selected_subject := Session.selected_subject state;
             Session.selected_chapter := Session.selected_chapter state |}
  end.

(** ** Statements about the parsers

    The definitions below are not part of the program: they say what the
    parsers are expected to return, and name the inputs the examples use. *)

(** What an entry of the videos text gives: the first and the second line of
    the trimmed entry, each trimmed, when there are two lines. *)
Definition title_and_url (entry : string) : option (string * string) :=
  let lines := split (strip entry) nl in
  if Nat.leb 2 (length lines)
  then Some (strip (nth 0 lines EmptyString), strip (nth 1 lines EmptyString))
  else None.

Definition shown (v : Video.t) : string * string :=
  (Video.title v, Video.url v).

(** Where an entry found in a section is filed. *)
Definition filed (is_github is_docker : bool) (p : Project.t)
    (gh dk : list Project.t) : Prop :=
  if is_github || str_in "github.com" (Project.url p) then p ∈ gh
  else if is_docker || str_in "hub.docker.com" (Project.url p) then p ∈ dk
  else True.

(** The [video_id] of a URL, as the specification words it: what follows
    ["watch?v="] up to the next ["&"] in a URL with
    ["youtube.com/watch?v="], else what follows ["youtu.be/"] up to the next
    ["?"] in a URL with ["youtu.be/"], else the empty string. *)
Definition id_in_url (url : string) : string :=
  if str_in "youtube.com/watch?v=" url
  then nth 0 (split (nth 1 (split url "watch?v=") EmptyString) "&") EmptyString
  else if str_in "youtu.be/" url
  then nth 0 (split (nth 1 (split url "youtu.be/") EmptyString) "?") EmptyString
  else EmptyString.

(** The record of an entry of the videos text. *)
Definition video_record (entry : string) : option Video.t :=
  match title_and_url entry with
  | Some (title, url) => Some (Video.mk title url (id_in_url url))
  | None => None
  end.

(** A videos text with the two URLs of the examples. *)
Definition two_videos : string :=
  "Videos" +:+ nl +:+
  "[1]" +:+ nl +:+ "Limits, part one" +:+ nl +:+
  "https://youtube.com/watch?v=ABC123&t=5" +:+ nl +:+
  "[2]" +:+ nl +:+ "Limits, part two" +:+ nl +:+
  "https://youtu.be/XYZ789?foo=1".

(** The value of a field of an entry of the projects text: the last of the
    lines that start with [prefix], without the prefix and trimmed; the
    empty string when no line starts with it. *)
Definition field_of (prefix : string) (lines : list string) : string :=
  match last (List.filter (fun line => startswith line prefix) lines) with
  | Some line => strip (replace line prefix "")
  | None => EmptyString
  end.

(** The repository and its owner: the second and the first piece of the
    path after ["github.com/"] when the path has two pieces, else the title
    and ["Unknown"]. *)
Definition names_of (title url : string) : string * string :=
  let path := split (nth 1 (split url "github.com/") EmptyString) "/" in
  if str_in "github.com" url
     && Nat.ltb 1 (length (split url "github.com/"))
     && Nat.leb 2 (length path)
  then (nth 1 path EmptyString, nth 0 path EmptyString)
  else (title, "Unknown").

(** The record of an entry of the projects text, when its trimmed text has
    at least two lines. *)
Definition project_record (entry : string) : option Project.t :=
  let lines := split (strip entry) nl in
  if Nat.leb 2 (length lines) then
    let title := strip (nth 0 lines EmptyString) in
    let url := field_of "URL:" (tail lines) in
    Some (Project.mk title (names_of title url).1 (names_of title url).2
            url (field_of "Note:" (tail lines)))
  else None.

(** The two lists of [parse_projects]. *)
Inductive category : Type :=
| Github
| Docker.

(** The list a record found in [section] belongs to: the GitHub test comes
    first, the Docker test applies only when it fails, and a record that
    passes neither belongs to no list. *)
Definition category_of (section : string) (p : Project.t) : option category :=
  if section_is_github section || str_in "github.com" (Project.url p)
  then Some Github
  else if section_is_docker section
          || str_in "hub.docker.com" (Project.url p)
  then Some Docker
  else None.

Definition is_category (c : category) (found : option category) : bool :=
  match c, found with
  | Github, Some Github | Docker, Some Docker => true
  | _, _ => false
  end.

(** The records of the entries of [section] that belong to [c], in the
    order of the entries. *)
Definition section_records (c : category) (section : string)
  : list Project.t :=
  List.filter (fun p => is_category c (category_of section p))
    (omap project_record (section_entries section)).

(** The records of all sections that belong to [c], section after
    section. *)
Definition records_of (c : category) (sections : list string)
  : list Project.t :=
  flat_map (section_records c) sections.

(** The reading under which the URL of an entry is its second non-empty
    line. *)
Definition title_and_second_non_empty (entry : string)
  : option (string * string) :=
  let lines := split (strip entry) nl in
  let non_empty := filter (fun line => line <> EmptyString) lines in
  if Nat.leb 2 (length lines)
  then Some (strip (nth 0 lines EmptyString),
             strip (nth 1 non_empty EmptyString))
  else None.

(** An entry whose second line is blank. *)
Definition blank_second_line : string :=
  "[1]" +:+ nl +:+ "Limits in ten minutes" +:+ nl +:+ nl +:+
  "https://youtu.be/XYZ789".

(** A section labelled GitHub that lists a DockerHub image. *)
Definition docker_url_under_github : string :=
  "GitHub projects" +:+ nl +:+ "[1]" +:+ nl +:+ "Matrix toolkit" +:+ nl +:+
  "URL: https://hub.docker.com/r/acme/matrix" +:+ nl +:+ "Note: an image".

Definition docker_url_project : Project.t :=
  Project.mk "Matrix toolkit" "Matrix toolkit" "Unknown"
    "https://hub.docker.com/r/acme/matrix" "an image".

(** A section labelled Docker that lists a GitHub repository. *)
Definition github_url_under_docker : string :=
  "Docker images" +:+ nl +:+ "[1]" +:+ nl +:+ "Matrix toolkit" +:+ nl +:+
  "URL: https://github.com/acme/matrix" +:+ nl +:+ "Note: a repository".

Definition github_url_project : Project.t :=
  Project.mk "Matrix toolkit" "matrix" "acme"
    "https://github.com/acme/matrix" "a repository".

(** The numbering the data model asks of the questions of a quiz: positive
    numbers, no number twice, in ascending order. *)
Definition valid_numbering (numbers : list Z) : Prop :=
  Forall (fun n => 0 < n) numbers /\ NoDup numbers /\ Sorted Z.le numbers.

(** One question in the format of the quiz agent. *)
Definition question_block (number letter : string) : string :=
  "Q" +:+ number +:+ ": What is it?" +:+ nl +:+
  "A)one" +:+ nl +:+ "B)two" +:+ nl +:+ "C)three" +:+ nl +:+ "D)four" +:+ nl +:+
  "Correct answer: " +:+ letter +:+ nl.

(** A quiz whose first question is numbered 2 and whose second is
    numbered 1. *)
Definition misnumbered_quiz : string :=
  "[QUIZ]" +:+ nl +:+ question_block "2" "A" +:+ question_block "1" "B".

(** A quiz in which the number 2 is used twice. *)
Definition repeated_number_quiz : string :=
  "[QUIZ]" +:+ nl +:+ question_block "2" "A" +:+ question_block "2" "B" +:+
  question_block "0" "C".

(** The number written in a match of the question or of the exercise
    pattern: its first group. *)
Definition number_of_match (groups : list string) : string :=
  nth 0 groups EmptyString.

Fixpoint repeat_char (c : ascii) (n : nat) : string :=
  match n with
  | O => EmptyString
  | S k => String c (repeat_char c k)
  end.

(** A quiz whose only question has a number of 4301 digits. *)
Definition long_number_quiz : string :=
  "[QUIZ]" +:+ nl +:+ question_block (repeat_char "1" 4301) "A".

(** ** Statements about the pipeline *)

(** Branch exclusivity as the data model words it: with a document the two
    search fields are empty and the extracted text is not; without one it is
    the other way round. *)
Definition branch_exclusive {File : Type} (uploaded_file : option File)
    (output : Output.t) : Prop :=
  match uploaded_file with
  | Some _ =>
      Output.a1_output output = "" /\ Output.a2_output output = "" /\
      Output.a3_output output <> ""
  | None =>
      Output.a3_output output = "" /\
      Output.a1_output output <> "" /\ Output.a2_output output <> ""
  end.

(** Help-type gating as an equivalence: a field is empty exactly when its
    help type was not selected. *)
Definition gated (help_types : list string) (output : Output.t) : Prop :=
  (Output.videos output = "" <-> "Videos" ∉ help_types) /\
  (Output.projects output = "" <-> "Related Projects" ∉ help_types) /\
  (Output.quizzes output = "" <-> "Quizzes/Exercises" ∉ help_types) /\
  (Output.exams output = "" <-> "Exams" ∉ help_types).

(** Agents that answer with fixed texts: [search] from the search agent,
    [videos] from the video collector. *)
Definition fixed_agents (search videos : string) : agents unit unit :=
  {| get_llm := fun _ => ok tt;
     a1_everything := fun _ _ => ok search;
     a2_cleaner := fun _ _ raw => ok raw;
     a3_adapter := fun _ => ok "Chapter 1. Limits.";
     a4_summarizer := fun _ _ _ => ok "Study notes";
     a5_collector_videos := fun _ _ => ok videos;
     a6_relations_projects := fun _ _ => ok "GitHub";
     a7_ai_companion_quiz := fun _ _ => ok "[QUIZ]";
     a8_examiner := fun _ _ => ok "exam.pdf" |}.

(** Agents whose summarizer raises. *)
Definition failing_summarizer : agents unit unit :=
  {| get_llm := fun _ => ok tt;
     a1_everything := fun _ _ => ok "results";
     a2_cleaner := fun _ _ raw => ok raw;
     a3_adapter := fun _ => ok "Chapter 1. Limits.";
     a4_summarizer := fun _ _ _ => raise (AgentError "a4_summarizer");
     a5_collector_videos := fun _ _ => ok "videos";
     a6_relations_projects := fun _ _ => ok "GitHub";
     a7_ai_companion_quiz := fun _ _ => ok "[QUIZ]";
     a8_examiner := fun _ _ => ok "exam.pdf" |}.

(** The quiz of one question, numbered 1, whose correct letter is A. *)
Definition graded_quiz : string :=
  "[QUIZ]" +:+ nl +:+ question_block "1" "A".

(** A session that already holds a study pack, its quiz graded 0 for the
    answer B, and one history entry. *)
Definition used_session : Session.t :=
  {| Session.mas_output :=
       Some (Output.mk "results" "results" "" "Old notes" "" ""
               graded_quiz "");
     Session.summary := "Old notes";
     Session.videos := "";
     Session.projects := "";
     Session.quizzes := graded_quiz;
     Session.exams := "";
     Session.roadmap := "Old roadmap";
     Session.engine_code := "deepseek";
     Session.help_types := ["Summarize (Default)"; "Quizzes/Exercises"];
     Session.study_history :=
       [{| timestamp := "2025-01-01 10:00:00"; h_subject := "Physics";
           h_chapter := "Optics"; h_engine := "Deepseek 3.1";
           h_help_types := ["Summarize (Default)"] |}];
     Session.quiz_score := PyNum.Int 0;
     Session.quiz_answers := {[ "q_1" := "B" ]};
     Session.quiz_submitted := true;
     Session.selected_subject := "Physics";
     Session.selected_chapter := "" |}.

Definition key_present (env_var : string) : option string := Some "sk-1".

(** ** Statements about the quiz score *)

(** The number of questions answered with their correct letter. *)
Definition correct_answers (quiz : quiz_data) (answers : gmap string string)
  : nat :=
  length (List.filter (answered_correctly answers) (questions quiz)).

(** The weight of a question added [n] times to the [int] 0, one addition
    after the other. *)
Definition summed (points : PyNum.t) (n : nat) : PyNum.t :=
  Nat.iter n (fun score => PyNum.add score points) (PyNum.Int 0).

(** The closed form [round(N * 20 / T, 1)]. *)
Definition closed_form (n t : nat) : PyNum.t :=
  PyNum.round1 (PyNum.true_div (Z.of_nat n * 20) (Z.of_nat t)).

(** The sum and the closed form agree for every quiz of at most [bound]
    questions. *)
Definition agree_up_to (bound : nat) : bool :=
  forallb
    (fun t =>
       forallb
         (fun n =>
            PyNum.eqb (PyNum.round1 (summed (points_per_question t) n))
              (closed_form n t))
         (seq 0 (S t)))
    (seq 1 bound).

(** The questions numbered [first], [first + 1], ..., all with the correct
    letter A. *)
Fixpoint numbered_blocks (first count : nat) : string :=
  match count with
  | O => EmptyString
  | S k => question_block (pretty first) "A" +:+ numbered_blocks (S first) k
  end.

Definition quiz_of_48 : string :=
  "[QUIZ]" +:+ nl +:+ numbered_blocks 1 48.

(** Questions 1 to 9 answered A, the others not answered. *)
Definition nine_answers : gmap string string :=
  list_to_map
    [("q_1", "A"); ("q_2", "A"); ("q_3", "A"); ("q_4", "A"); ("q_5", "A");
     ("q_6", "A"); ("q_7", "A"); ("q_8", "A"); ("q_9", "A")].

(** A session that holds a study pack with a quiz text, and answers, not
    yet submitted. *)
Definition session_with (quizzes : string) (answers : gmap string string)
  : Session.t :=
  {| Session.mas_output :=
       Some (Output.mk "results" "results" "" "Study notes" "" "" quizzes "");
     Session.summary := "Study notes";
     Session.videos := "";
     Session.projects := "";
     Session.quizzes := quizzes;
     Session.exams := "";
     Session.roadmap := "";
     Session.engine_code := "deepseek";
     Session.help_types := ["Summarize (Default)"; "Quizzes/Exercises"];
     Session.study_history := [];
     Session.quiz_score := PyNum.Int 0;
     Session.quiz_answers := answers;
     Session.quiz_submitted := false;
     Session.selected_subject := "Mathematics";
     Session.selected_chapter := "" |}.

Definition two_questions : string :=
  "[QUIZ]" +:+ nl +:+ numbered_blocks 1 2.

(** What [parse_quiz] returns for [two_questions]. *)
Definition two_questions_parsed : quiz_data :=
  {| questions :=
       [Question.mk 1 "What is it?"
          [("A", "one"); ("B", "two"); ("C", "three"); ("D", "four")] "A";
        Question.mk 2 "What is it?"
          [("A", "one"); ("B", "two"); ("C", "three"); ("D", "four")] "A"];
     exercises := [] |}.

(** Questions 1 and 2 answered A, and nothing else. *)
Definition two_answers : gmap string string :=
  list_to_map [("q_1", "A"); ("q_2", "A")].

(** A session whose quiz [two_questions] was answered with [two_answers]
    and graded 20. *)
Definition graded_session : Session.t :=
  {| Session.mas_output :=
       Some (Output.mk "results" "results" "" "Study notes" "" ""
               two_questions "");
     Session.summary := "Study notes";
     Session.videos := "";
     Session.projects := "";
     Session.quizzes := two_questions;
     Session.exams := "";
     Session.roadmap := "";
     Session.engine_code := "deepseek";
     Session.help_types := ["Summarize (Default)"; "Quizzes/Exercises"];
     Session.study_history := [];
     Session.quiz_score := PyNum.Float 20%float;
     Session.quiz_answers := two_answers;
     Session.quiz_submitted := true;
     Session.selected_subject := "Mathematics";
     Session.selected_chapter := "" |}.

(** ** Statements about the matches of a pattern *)

(** Every character of [s] is in the class [p]. *)
Fixpoint string_all (p : ascii -> bool) (s : string) : bool :=
  match s with
  | EmptyString => true
  | String c s' => p c && string_all p s'
  end.

(** Whether an atom is a capture group. *)
Definition captures (a : Re.atom) : bool :=
  match a with
  | Re.Star cap _ | Re.Plus cap _ | Re.Lazy cap | Re.One cap _ => cap
  | Re.Lit _ | Re.Ahead _ => false
  end.

(** What the text captured by an atom looks like. *)
Definition group_ok (a : Re.atom) (w : string) : Prop :=
  match a with
  | Re.Plus _ p => w <> EmptyString /\ string_all p w = true
  | Re.Star _ p => string_all p w = true
  | Re.One _ p => exists c, w = String c EmptyString /\ p c = true
  | Re.Lit _ | Re.Lazy _ | Re.Ahead _ => True
  end.

(** The groups of a match of [r]: one text per capture group, in order,
    each of the shape its atom allows. *)
Fixpoint groups_ok (r : list Re.atom) (groups : list string) : Prop :=
  match r with
  | [] => groups = []
  | a :: r' =>
      if captures a then
        match groups with
        | w :: rest => group_ok a w /\ groups_ok r' rest
        | [] => False
        end
      else groups_ok r' groups
  end.

(** No group is longer than the text that was searched. *)
Definition groups_within (s : string) (groups : list string) : Prop :=
  Forall (fun w => (String.length w <= String.length s)%nat) groups.

(** The example of a quiz text in the format of the quiz agent. *)
Definition example_quiz : string :=
  "[QUIZ]" +:+ nl +:+ "Q1: What is 2+2?" +:+ nl +:+ "A)3" +:+ nl +:+
  "B)4" +:+ nl +:+ "C)5" +:+ nl +:+ "D)6" +:+ nl +:+
  "Correct answer: B" +:+ nl +:+ "[EXERCISES]" +:+ nl +:+ "E1: Solve 3+3.".

(** ** Statements about texts without markers *)

(** The character that opens an entry marker. *)
Definition not_bracket (c : ascii) : bool := negb (Ascii.eqb c "[").

(** ** Statements about the order of the agent calls *)

(** The calls of a complete run, in order. *)
Definition planned_calls {File : Type} (uploaded_file : option File)
    (help_types : list string) : list string :=
  ["get_llm"] ++
  match uploaded_file with
  | Some _ => ["a3_adapter"]
  | None => ["a1_everything"; "a2_cleaner"]
  end ++
  ["a4_summarizer"] ++
  (if selected "Videos" help_types then ["a5_collector_videos"] else []) ++
  (if selected "Related Projects" help_types
   then ["a6_relations_projects"] else []) ++
  (if selected "Quizzes/Exercises" help_types
   then ["a7_ai_companion_quiz"] else []) ++
  (if selected "Exams" help_types then ["a8_examiner"] else []).


(** The four help types that gate an agent. *)
Definition gating_help_types : list string :=
  ["Videos"; "Related Projects"; "Quizzes/Exercises"; "Exams"].

(** ** More of the Quizzes tab: choosing an option, and retaking *)

Global Instance question_eq_dec : EqDecision Question.t.
Proof. solve_decision. Defined.

(** The run in which the button of option [option_key] of question [q] is
    pressed: the handler of the first button drawn with that key stores the
    answer and ends the run. *)
Definition select_answer (q : Question.t) (option_key : string)
    (state : Session.t) : page Session.t :=
  let+ tab := quizzes_tab (Some (button_key q option_key)) state in
  match tab with
  | Some (_, Pressed question option_key) =>
      drawn_ok
        {| Session.mas_output := Session.mas_output state;
           Session.summary := Session.summary state;
           Session.videos := Session.videos state;
           Session.projects := Session.projects state;
           Session.quizzes := Session.quizzes state;
           Session.exams := Session.exams state;
           Session.roadmap := Session.roadmap state;
           Session.engine_code := Session.engine_code state;
           Session.help_types := Session.help_types state;
           Session.study_history := Session.study_history state;
           Session.quiz_score := Session.quiz_score state;
           Session.quiz_answers :=
             <[question_key question := option_key]>
               (Session.quiz_answers state);
           Session.quiz_submitted := Session.quiz_submitted state;
           Session.selected_subject := Session.selected_subject state;
           Session.selected_chapter := Session.selected_chapter state |}
  | _ => drawn_ok state
  end.

(** The run in which "Retake Quiz" is pressed: the button is offered only
    once the quiz is submitted. *)
Definition retake_quiz (state : Session.t) : page Session.t :=
  let+ tab := quizzes_tab None state in
  match tab with
  | None => drawn_ok state
  | Some _ =>
      if Session.quiz_submitted state then
        drawn_ok
          {| Session.mas_output := Session.mas_output state;
             Session.summary := Session.summary state;
             Session.videos := Session.videos state;
             Session.projects := Session.projects state;
             Session.quizzes := Session.quizzes state;
             Session.exams := Session.exams state;
             Session.roadmap := Session.roadmap state;
             Session.engine_code := Session.engine_code state;
             Session.help_types := Session.help_types state;
             Session.study_history := Session.study_history state;
             Session.quiz_score := PyNum.Int 0;
             Session.quiz_answers := ∅;
             Session.quiz_submitted := false;
             Session.selected_subject := Session.selected_subject state;
             Session.selected_chapter := Session.selected_chapter state |}
      else drawn_ok state
  end.

(** The keys of the option buttons of a list of questions, in the order
    in which the buttons are drawn. *)
Definition button_keys (qs : list Question.t) : list string :=
  flat_map (fun q => map (button_key q) (Question.options q).*1) qs.

(** The score a run leaves in the session, or what stopped the run. *)
Definition score_after (run : page Session.t) : page PyNum.t :=
  match run with
  | inl e => inl e
  | inr state => inr (Session.quiz_score state)
  end.

(** The session with other answers. *)
Definition with_answers (answers : gmap string string) (state : Session.t)
  : Session.t :=
  {| Session.mas_output := Session.mas_output state;
     Session.summary := Session.summary state;
     Session.videos := Session.videos state;
     Session.projects := Session.projects state;
     Session.quizzes := Session.quizzes state;
     Session.exams := Session.exams state;
     Session.roadmap := Session.roadmap state;
     Session.engine_code := Session.engine_code state;
     Session.help_types := Session.help_types state;
     Session.study_history := Session.study_history state;
     Session.quiz_score := Session.quiz_score state;
     Session.quiz_answers := answers;
     Session.quiz_submitted := Session.quiz_submitted state;
     Session.selected_subject := Session.selected_subject state;
     Session.selected_chapter := Session.selected_chapter state |}.

(** Pressing, for each question of the list in turn, the button of its
    correct option. *)
Fixpoint select_correct (qs : list Question.t) (state : Session.t)
  : page Session.t :=
  match qs with
  | [] => drawn_ok state
  | q :: rest =>
      let+ state' := select_answer q (Question.correct q) state in
      select_correct rest state'
  end.

(** A perfect score for every quiz of at most [bound] questions: the sum
    of [t] weights rounds to 20. *)
Definition perfect_up_to (bound : nat) : bool :=
  forallb
    (fun t =>
       PyNum.eqb (PyNum.round1 (summed (points_per_question t) t))
         (PyNum.Int max_score))
    (seq 1 bound).

(** The score is between 0 and 20 for every quiz of at most [bound]
    questions. *)
Definition score_in_range (score : PyNum.t) : bool :=
  PrimFloat.leb (PyNum.to_float (PyNum.Int 0)) (PyNum.to_float score)
  && PrimFloat.leb (PyNum.to_float score) (PyNum.to_float (PyNum.Int max_score)).

Definition in_range_up_to (bound : nat) : bool :=
  forallb
    (fun t =>
       forallb
         (fun n =>
            score_in_range (PyNum.round1 (summed (points_per_question t) n)))
         (seq 0 (S t)))
    (seq 0 (S bound)).

(** ** More of the Quizzes tab: the roadmap *)

(** [round(f)] of a float: the nearest integer, ties to even; [None] when
    [f] is infinite or not a number, where [round] raises. *)
Definition round_float (f : float) : option Z :=
  match Prim2SF f with
  | S754_zero _ => Some 0
  | S754_finite sign m e =>
      let magnitude :=
        if 0 <=? e then Z.pos m * 2 ^ e
        else PyNum.nearest_even (Z.pos m) (2 ^ (- e)) in
      Some (if sign then - magnitude else magnitude)
  | S754_infinity _ | S754_nan => None
  end.

(** [round(quiz_score / max_score * 3)], the self score given to the
    roadmap agent. *)
Definition self_score (quiz_score : PyNum.t) : option Z :=
  let score_ratio :=
    PrimFloat.div (PyNum.to_float quiz_score) (PyNum.float_of_Z max_score) in
  round_float (PrimFloat.mul score_ratio (PyNum.float_of_Z 3)).

(** What the roadmap handler shows. *)
Inductive roadmap_notice : Type :=
| RoadmapFailed
| RoadmapGenerated.

(** The run in which "Generate Roadmap" is pressed; [a9_guide] takes the
    model handle, the summary, the self score and the total 3. The button
    is drawn at the end of the Quizzes tab; the handler catches what its
    calls raise. Without the button, nothing is shown. *)
Definition generate_roadmap {LLM File : Type} (ag : agents LLM File)
    (a9_guide : LLM -> string -> Z -> Z -> result string)
    (state : Session.t) : page (Session.t * option roadmap_notice) :=
  let+ tab := quizzes_tab None state in
  match tab with
  | None => drawn_ok (state, None)
  | Some _ =>
      match get_llm ag (Session.engine_code state) with
      | inl _ => drawn_ok (state, Some RoadmapFailed)
      | inr llm_for_roadmap =>
          match self_score (Session.quiz_score state) with
          | None => drawn_ok (state, Some RoadmapFailed)
          | Some correct_answers =>
              match a9_guide llm_for_roadmap (Session.summary state)
                      correct_answers 3 with
              | inl _ => drawn_ok (state, Some RoadmapFailed)
              | inr roadmap =>
                  drawn_ok
                    ({| Session.mas_output := Session.mas_output state;
                        Session.summary := Session.summary state;
                        Session.videos := Session.videos state;
                        Session.projects := Session.projects state;
                        Session.quizzes := Session.quizzes state;
                        Session.exams := Session.exams state;
                        Session.roadmap := roadmap;
                        Session.engine_code := Session.engine_code state;
                        Session.help_types := Session.help_types state;
                        Session.study_history := Session.study_history state;
                        Session.quiz_score := Session.quiz_score state;
                        Session.quiz_answers := Session.quiz_answers state;
                        Session.quiz_submitted :=
                          Session.quiz_submitted state;
                        Session.selected_subject :=
                          Session.selected_subject state;
                        Session.selected_chapter :=
                          Session.selected_chapter state |},
                     Some RoadmapGenerated)
              end
          end
      end
  end.

(** The self score is 0, 1, 2 or 3 for every quiz of at most [bound]
    questions. *)
Definition self_score_in_range (score : PyNum.t) : bool :=
  match self_score score with
  | Some k => (0 <=? k) && (k <=? 3)
  | None => false
  end.

Definition graded_up_to (bound : nat) : bool :=
  forallb
    (fun t =>
       forallb
         (fun n =>
            let score := PyNum.round1 (summed (points_per_question t) n) in
            score_in_range score && self_score_in_range score)
         (seq 0 (S t)))
    (seq 0 (S bound)).

(** ** The help types read from the five checkboxes *)

Definition help_types_of (summarize videos projects quizzes exams : bool)
  : list string :=
  (if summarize then ["Summarize (Default)"] else []) ++
  (if videos then ["Videos"] else []) ++
  (if projects then ["Related Projects"] else []) ++
  (if quizzes then ["Quizzes/Exercises"] else []) ++
  (if exams then ["Exams"] else []).

(** ** Links shown as "Click Here" *)

(** [[^\s\)]], a character of a URL. *)
Definition url_char (c : ascii) : bool :=
  negb (is_space c) && negb (Ascii.eqb c ")").

(** A match of [r'(https?://[^\s\)]+)'] at the head of [s]: the URL and
    its length. The optional [s] is tried first. *)
Definition url_at (s : string) : option (string * nat) :=
  match Re.match_atoms [Re.Lit "https://"; Re.Plus true url_char] s with
  | Some ([rest], n) => Some ("https://" +:+ rest, n)
  | Some _ => None
  | None =>
      match Re.match_atoms [Re.Lit "http://"; Re.Plus true url_char] s with
      | Some ([rest], n) => Some ("http://" +:+ rest, n)
      | _ => None
      end
  end.

(** [re.sub(url_pattern, replace_url, text)]: every match, left to right,
    becomes [f"[Click Here]({url})"]. *)
Fixpoint sub_links (skip : nat) (s : string) : string :=
  match s with
  | EmptyString => EmptyString
  | String c s' =>
      match skip with
      | S k => sub_links k s'
      | O =>
          match url_at s with
          | Some (url, n) =>
              "[Click Here](" +:+ url +:+ ")" +:+ sub_links (Nat.pred n) s'
          | None => String c (sub_links 0 s')
          end
      end
  end.

Definition format_links_as_clickable (text : string) : string :=
  sub_links 0 text.

(** What may follow a URL: the end of the text, or a character that is
    not one of a URL. *)
Definition ends_url (rest : string) : bool :=
  match rest with
  | EmptyString => true
  | String c _ => negb (url_char c)
  end.

(** ** The defaults of the session *)

(** A value of [st.session_state]. *)
Inductive value : Type :=
| VNone
| VStr (s : string)
| VInt (z : Z)
| VBool (b : bool)
| VList (items : list string)
| VHistory (entries : list history_entry)
| VDict (answers : gmap string string)
| VOutput (output : Output.t).

Definition DEFAULT_ENGINE : string := "deepseek".

Definition defaults : list (string * value) :=
  [("mas_output", VNone);
   ("summary", VStr "");
   ("videos", VStr "");
   ("projects", VStr "");
   ("quizzes", VStr "");
   ("exams", VStr "");
   ("roadmap", VStr "");
   ("engine_code", VStr DEFAULT_ENGINE);
   ("help_types", VList ["Summarize (Default)"; "Quizzes/Exercises"]);
   ("study_history", VHistory []);
   ("quiz_score", VInt 0);
   ("quiz_answers", VDict ∅);
   ("quiz_submitted", VBool false);
   ("selected_subject", VStr "Mathematics");
   ("selected_chapter", VStr "")].

(** The body of [for key, value in defaults.items()]. *)
Definition set_default (session_state : gmap string value)
    (item : string * value) : gmap string value :=
  match session_state !! item.1 with
  | Some _ => session_state
  | None => <[item.1 := item.2]> session_state
  end.

Definition init_session_state (session_state : gmap string value)
  : gmap string value :=
  foldl set_default session_state defaults.

(** ** Facts about the Python primitives *)

Section PrimitiveFacts.

Lemma bind_ok {A B : Type} (m : result A) (k : A -> result B) (b : B) :
  Py.bind m k = inr b -> exists a, m = inr a /\ k a = inr b.
Proof.
  destruct m as [e | a]; simpl; intros H; [discriminate | eauto].
Qed.

Lemma index_lt {A : Type} (l : list A) (i : nat) :
  (i < length l)%nat -> exists a, index l i = inr a /\ l !! i = Some a.
Proof.
  intros Hi. unfold index.
  destruct (lookup_lt_is_Some_2 l i Hi) as [a Ha].
  rewrite Ha. eauto.
Qed.

Lemma split_on_length (sep : string -> option nat) (skip : nat) (s : string) :
  (1 <= length (split_on sep skip s))%nat.
Proof.
  revert skip. induction s as [| c s IH]; intros skip; simpl; [lia |].
  destruct skip as [| k]; [| apply IH].
  destruct (sep (String c s)); simpl; [lia |].
  specialize (IH 0%nat). destruct (split_on sep 0 s); simpl in *; lia.
Qed.

Lemma split_length (s sep : string) : (1 <= length (split s sep))%nat.
Proof. apply split_on_length. Qed.

Lemma startswith_append (s p q : string) :
  startswith s (p +:+ q) = true ->
  startswith (drop_chars (String.length p) s) q = true.
Proof.
  revert s. induction p as [| a p IH]; intros s; simpl.
  - destruct s; auto.
  - destruct s as [| b s]; [discriminate |].
    intros H. apply andb_true_iff in H as [_ H]. auto.
Qed.

Lemma str_in_cons (sub : string) (c : ascii) (s : string) :
  str_in sub (String c s) = startswith (String c s) sub || str_in sub s.
Proof. reflexivity. Qed.

Lemma str_in_empty (sub : string) :
  str_in sub EmptyString = startswith EmptyString sub || false.
Proof. reflexivity. Qed.

Lemma str_in_here (sub s : string) :
  startswith s sub = true -> str_in sub s = true.
Proof.
  intros H. destruct s; [rewrite str_in_empty | rewrite str_in_cons];
    rewrite H; reflexivity.
Qed.

Lemma str_in_drop_chars (sub : string) (n : nat) (s : string) :
  str_in sub (drop_chars n s) = true -> str_in sub s = true.
Proof.
  revert s. induction n as [| n IH]; intros s; [destruct s; auto |].
  destruct s as [| c s]; [auto |].
  intros H. rewrite str_in_cons, (IH _ H). apply orb_true_r.
Qed.

(** A text that contains [p + q] contains [q]. *)
Lemma str_in_append_r (p q s : string) :
  str_in (p +:+ q) s = true -> str_in q s = true.
Proof.
  induction s as [| c s IH]; intros H.
  - rewrite str_in_empty, orb_false_r in H.
    apply startswith_append, str_in_here, str_in_drop_chars in H. exact H.
  - rewrite str_in_cons in H. apply orb_true_iff in H as [H | H].
    + apply startswith_append, str_in_here, str_in_drop_chars in H. exact H.
    + rewrite str_in_cons, (IH H). apply orb_true_r.
Qed.

Lemma split_cons (sep c : string) (a : ascii) (s : string) :
  split (String a s) sep =
  match literal sep (String a s) with
  | Some n => EmptyString :: split_on (literal sep) (Nat.pred n) s
  | None =>
      match split s sep with
      | piece :: rest => String a piece :: rest
      | [] => [String a EmptyString]
      end
  end.
Proof. reflexivity. Qed.

(** [s.split(sep)] has at least two pieces when [sep] occurs in [s]. *)
Lemma split_found (s sep : string) :
  sep <> EmptyString -> str_in sep s = true -> (2 <= length (split s sep))%nat.
Proof.
  intros Hsep.
  induction s as [| c s IH]; intros H.
  - rewrite str_in_empty, orb_false_r in H.
    destruct sep; [congruence | discriminate].
  - rewrite (split_cons sep EmptyString).
    rewrite str_in_cons in H.
    destruct (literal sep (String c s)) as [n |] eqn:Hl.
    + pose proof (split_on_length (literal sep) (Nat.pred n) s).
      simpl. lia.
    + unfold literal in Hl.
      destruct (startswith (String c s) sep); [discriminate |].
      simpl in H. specialize (IH H).
      destruct (split s sep); simpl in *; lia.
Qed.

Lemma digits_value_nonneg (s : string) (acc z : Z) :
  0 <= acc -> digits_value acc s = Some z -> 0 <= z.
Proof.
  revert acc. induction s as [| c s IH]; simpl; intros acc Hacc H.
  - congruence.
  - destruct (is_digit c); [| discriminate].
    eapply IH; [| exact H]. lia.
Qed.

(** [int(s)] of a string of digits is never negative. *)
Lemma int_nonneg (s : string) (z : Z) : Py.int s = inr z -> 0 <= z.
Proof.
  unfold Py.int. destruct (Nat.ltb _ _); [discriminate |].
  destruct s as [| c s]; [discriminate |].
  destruct (digits_value 0 (String c s)) as [v |] eqn:Hv; [| discriminate].
  intros [= <-]. eapply digits_value_nonneg; [| exact Hv]. lia.
Qed.

End PrimitiveFacts.

(** ** The parsers of videos and projects never raise *)

Section ParserFacts.

Lemma video_id_of_total (url : string) : exists v, video_id_of url = inr v.
Proof.
  unfold video_id_of.
  destruct (str_in "youtube.com/watch?v=" url) eqn:Hlong.
  - assert (Hin : str_in "watch?v=" url = true)
      by exact (str_in_append_r "youtube.com/" "watch?v=" url Hlong).
    destruct (index_lt (split url "watch?v=") 1) as (after & Hafter & _).
    { apply split_found; [discriminate | exact Hin]. }
    rewrite Hafter. simpl.
    destruct (index_lt (split after "&") 0) as (v & Hv & _).
    { apply split_length. }
    eauto.
  - destruct (str_in "youtu.be/" url) eqn:Hshort; [| eexists; reflexivity].
    destruct (index_lt (split url "youtu.be/") 1) as (after & Hafter & _).
    { apply split_found; [discriminate | exact Hshort]. }
    rewrite Hafter. simpl.
    destruct (index_lt (split after "?") 0) as (v & Hv & _).
    { apply split_length. }
    eauto.
Qed.

Lemma index_nth (l : list string) (i : nat) :
  (i < length l)%nat -> index l i = inr (nth i l EmptyString).
Proof.
  intros Hi. destruct (index_lt l i Hi) as (a & Ha & Hl).
  rewrite Ha. f_equal. symmetry. apply nth_lookup_Some with (d := EmptyString).
  exact Hl.
Qed.

Lemma video_of_entry_spec (entry : string) :
  exists found,
    video_of_entry entry = inr found /\
    option_map shown found = title_and_url entry.
Proof.
  unfold video_of_entry, title_and_url.
  destruct (Nat.leb 2 (length (split (strip entry) nl))) eqn:Hlen;
    [| eexists; split; reflexivity].
  apply Nat.leb_le in Hlen.
  rewrite (index_nth (split (strip entry) nl) 0) by lia. cbn [Py.bind].
  assert (Hlt : Nat.ltb 1 (length (split (strip entry) nl)) = true)
    by (apply Nat.ltb_lt; lia).
  rewrite Hlt, (index_nth (split (strip entry) nl) 1) by lia.
  cbn [Py.bind ok].
  destruct (video_id_of_total
              (strip (nth 1 (split (strip entry) nl) EmptyString)))
    as [v Hv].
  rewrite Hv. simpl. eexists; split; reflexivity.
Qed.

Lemma videos_loop_spec (entries : list string) :
  exists videos,
    videos_loop entries = inr videos /\
    map shown videos = omap title_and_url entries.
Proof.
  induction entries as [| entry rest (videos & Hrest & Hshown)].
  - exists []. split; reflexivity.
  - destruct (video_of_entry_spec entry) as (found & Hfound & Hspec).
    change (omap title_and_url (entry :: rest))
      with (match title_and_url entry with
            | Some y => y :: omap title_and_url rest
            | None => omap title_and_url rest
            end).
    rewrite <- Hspec, <- Hshown.
    cbn [videos_loop]. rewrite Hfound, Hrest.
    eexists; split; [reflexivity |].
    destruct found; reflexivity.
Qed.

Lemma parse_videos_total (videos_text : string) :
  exists videos, parse_videos videos_text = inr videos.
Proof.
  unfold parse_videos.
  destruct (videos_loop_spec (tail (Re.split index_marker videos_text)))
    as (videos & H & _).
  eauto.
Qed.

Lemma repo_and_creator_total (title url : string) :
  exists names, repo_and_creator title url = inr names.
Proof.
  unfold repo_and_creator.
  destruct (str_in "github.com" url); [| eexists; reflexivity].
  destruct (Nat.ltb 1 (length (split url "github.com/"))) eqn:Hparts;
    [| eexists; reflexivity].
  apply Nat.ltb_lt in Hparts.
  rewrite (index_nth (split url "github.com/") 1) by lia.
  cbn [Py.bind].
  set (path_parts := split (nth 1 (split url "github.com/") EmptyString) "/").
  destruct (Nat.leb 2 (length path_parts)) eqn:Hpath;
    [| eexists; reflexivity].
  apply Nat.leb_le in Hpath.
  rewrite (index_nth path_parts 0), (index_nth path_parts 1) by lia.
  eexists; reflexivity.
Qed.

Lemma project_of_entry_total (entry : string) :
  exists found, project_of_entry entry = inr found.
Proof.
  unfold project_of_entry.
  destruct (Nat.leb 2 (length (split (strip entry) nl))) eqn:Hlen;
    [| eexists; reflexivity].
  apply Nat.leb_le in Hlen.
  rewrite (index_nth (split (strip entry) nl) 0) by lia. cbn [Py.bind].
  destruct (url_and_note _ _ _) as [url description].
  destruct (repo_and_creator_total
              (strip (nth 0 (split (strip entry) nl) EmptyString)) url)
    as [[repo_name creator] Hnames].
  rewrite Hnames. simpl. eexists; reflexivity.
Qed.

Lemma filed_mono (g d : bool) (p : Project.t) (gh dk gh' dk' : list Project.t) :
  gh ⊆ gh' -> dk ⊆ dk' -> filed g d p gh dk -> filed g d p gh' dk'.
Proof.
  unfold filed. intros Hgh Hdk.
  destruct (g || _); [apply Hgh |].
  destruct (d || _); [apply Hdk | auto].
Qed.

Lemma entries_loop_spec (g d : bool) (entries : list string) :
  exists gh dk,
    entries_loop g d entries = inr (gh, dk) /\
    (forall entry p,
        entry ∈ entries -> project_of_entry entry = inr (Some p) ->
        filed g d p gh dk) /\
    (forall p, p ∈ dk -> str_in "github.com" (Project.url p) = false).
Proof.
  induction entries as [| entry rest (gh & dk & Hrest & Hfiled & Hdk)].
  - exists [], []. split; [reflexivity |].
    split; [intros entry p Hin; inversion Hin | intros p Hin; inversion Hin].
  - destruct (project_of_entry_total entry) as [found Hfound].
    cbn [entries_loop]. rewrite Hfound, Hrest. simpl.
    destruct found as [q |].
    + destruct (g || str_in "github.com" (Project.url q)) eqn:Hg.
      * exists (q :: gh), dk. split; [reflexivity |]. split; [| exact Hdk].
        intros e p [-> | Hin]%elem_of_cons He.
        -- rewrite Hfound in He. injection He as <-.
           unfold filed. rewrite Hg. apply elem_of_cons; left; reflexivity.
        -- eapply filed_mono; [| | exact (Hfiled e p Hin He)];
             [apply list_subseteq_cons |]; reflexivity.
      * destruct (d || str_in "hub.docker.com" (Project.url q)) eqn:Hd.
        -- exists gh, (q :: dk). split; [reflexivity |]. split.
           ++ intros e p [-> | Hin]%elem_of_cons He.
              ** rewrite Hfound in He. injection He as <-.
                 unfold filed. rewrite Hg, Hd. apply elem_of_cons; left; reflexivity.
              ** eapply filed_mono; [| | exact (Hfiled e p Hin He)];
                   [| apply list_subseteq_cons]; reflexivity.
           ++ intros p [-> | Hin]%elem_of_cons; [| auto].
              apply orb_false_iff in Hg as [_ Hg]. exact Hg.
        -- exists gh, dk. split; [reflexivity |]. split; [| exact Hdk].
           intros e p [-> | Hin]%elem_of_cons He; [| eauto].
           rewrite Hfound in He. injection He as <-.
           unfold filed. rewrite Hg, Hd. exact I.
    + exists gh, dk. split; [reflexivity |]. split; [| exact Hdk].
      intros e p [-> | Hin]%elem_of_cons He; [congruence | eauto].
Qed.

Lemma sections_loop_spec (sections : list string) :
  exists gh dk,
    sections_loop sections = inr (gh, dk) /\
    (forall section entry p,
        section ∈ sections -> entry ∈ section_entries section ->
        project_of_entry entry = inr (Some p) ->
        filed (section_is_github section) (section_is_docker section)
          p gh dk) /\
    (forall p, p ∈ dk -> str_in "github.com" (Project.url p) = false).
Proof.
  induction sections as [| section rest (gh' & dk' & Hrest & Hfiled & Hdk)].
  - exists [], []. split; [reflexivity |].
    split; [intros s e p Hin; inversion Hin | intros p Hin; inversion Hin].
  - destruct (entries_loop_spec (section_is_github section)
                (section_is_docker section) (section_entries section))
      as (gh & dk & Hloop & Hhere & Hdk_here).
    cbn [sections_loop]. rewrite Hloop, Hrest. simpl.
    exists (gh ++ gh'), (dk ++ dk'). split; [reflexivity |]. split.
    + intros s e p [-> | Hin]%elem_of_cons He Hp.
      * eapply filed_mono; [| | exact (Hhere e p He Hp)];
          apply list_subseteq_app_l; reflexivity.
      * eapply filed_mono; [| | exact (Hfiled s e p Hin He Hp)];
          apply list_subseteq_app_r; reflexivity.
    + intros p [Hin | Hin]%elem_of_app; auto.
Qed.

Lemma parse_projects_total (projects_text : string) :
  exists found, parse_projects projects_text = inr found.
Proof.
  unfold parse_projects.
  destruct (sections_loop_spec (split projects_text separator))
    as (gh & dk & H & _).
  rewrite H. simpl. eauto.
Qed.

End ParserFacts.

(** ** Videos *)

Section VideoClaims.

Lemma video_of_entry_id (entry : string) (v : Video.t) :
  video_of_entry entry = inr (Some v) ->
  video_id_of (Video.url v) = inr (Video.video_id v).
Proof.
  unfold video_of_entry.
  destruct (Nat.leb 2 (length (split (strip entry) nl))); [| discriminate].
  intros H.
  apply bind_ok in H as (line0 & _ & H).
  apply bind_ok in H as (url & _ & H).
  apply bind_ok in H as (video_id & Hid & H).
  injection H as <-. exact Hid.
Qed.

Lemma videos_loop_id (entries : list string) (videos : list Video.t) :
  videos_loop entries = inr videos ->
  Forall (fun v => video_id_of (Video.url v) = inr (Video.video_id v)) videos.
Proof.
  revert videos. induction entries as [| entry rest IH]; intros videos H.
  - injection H as <-. constructor.
  - cbn [videos_loop] in H.
    apply bind_ok in H as (found & Hfound & H).
    apply bind_ok in H as (others & Hothers & H).
    injection H as <-. specialize (IH others Hothers).
    destruct found as [v |]; [| exact IH].
    constructor; [| exact IH]. exact (video_of_entry_id entry v Hfound).
Qed.

(** The two indexings of [video_id_of] are within range, so that it returns
    what the specification words. *)
Lemma video_id_of_spec (url : string) : video_id_of url = inr (id_in_url url).
Proof.
  unfold video_id_of, id_in_url.
  destruct (str_in "youtube.com/watch?v=" url) eqn:Hlong.
  - assert (Hin : str_in "watch?v=" url = true)
      by exact (str_in_append_r "youtube.com/" "watch?v=" url Hlong).
    rewrite (index_nth (split url "watch?v=") 1)
      by (apply split_found; [discriminate | exact Hin]).
    cbn [Py.bind]. apply index_nth. apply split_length.
  - destruct (str_in "youtu.be/" url) eqn:Hshort; [| reflexivity].
    rewrite (index_nth (split url "youtu.be/") 1)
      by (apply split_found; [discriminate | exact Hshort]).
    cbn [Py.bind]. apply index_nth. apply split_length.
Qed.

Lemma video_of_entry_record (entry : string) :
  video_of_entry entry = inr (video_record entry).
Proof.
  unfold video_of_entry, video_record, title_and_url.
  destruct (Nat.leb 2 (length (split (strip entry) nl))) eqn:Hlen;
    [| reflexivity].
  apply Nat.leb_le in Hlen.
  rewrite (index_nth (split (strip entry) nl) 0) by lia. cbn [Py.bind].
  assert (Hlt : Nat.ltb 1 (length (split (strip entry) nl)) = true)
    by (apply Nat.ltb_lt; lia).
  rewrite Hlt, (index_nth (split (strip entry) nl) 1) by lia.
  cbn [Py.bind ok]. rewrite video_id_of_spec. reflexivity.
Qed.

Lemma videos_loop_records (entries : list string) :
  videos_loop entries = inr (omap video_record entries).
Proof.
  induction entries as [| entry rest IH]; [reflexivity |].
  cbn [videos_loop]. rewrite video_of_entry_record, IH. cbn [Py.bind ok].
  change (omap video_record (entry :: rest))
    with (match video_record entry with
          | Some v => v :: omap video_record rest
          | None => omap video_record rest
          end).
  reflexivity.
Qed.

(** C9. [parse_videos] never raises and returns, in order, the record of
    every entry that has two lines, whose [video_id] is the id in its URL
    as the specification words it, which is what [video_id_of] computes:
    ["https://youtube.com/watch?v=ABC123&t=5"] gives ["ABC123"],
    ["https://youtu.be/XYZ789?foo=1"] gives ["XYZ789"], and a URL that has
    neither ["youtube.com/watch?v="] nor ["youtu.be/"] gives [""]. On the
    text [two_videos] the two records carry the ids ["ABC123"] and
    ["XYZ789"]. *)
Theorem video_id_extraction :
  (forall videos_text,
      parse_videos videos_text =
      inr (omap video_record (tail (Re.split index_marker videos_text)))) /\
  (forall url, video_id_of url = inr (id_in_url url)) /\
  video_id_of "https://youtube.com/watch?v=ABC123&t=5" = inr "ABC123" /\
  video_id_of "https://youtu.be/XYZ789?foo=1" = inr "XYZ789" /\
  (forall url,
      str_in "youtube.com/watch?v=" url = false ->
      str_in "youtu.be/" url = false ->
      video_id_of url = inr "" /\ id_in_url url = "") /\
  parse_videos two_videos =
    inr [Video.mk "Limits, part one"
           "https://youtube.com/watch?v=ABC123&t=5" "ABC123";
         Video.mk "Limits, part two"
           "https://youtu.be/XYZ789?foo=1" "XYZ789"].
Proof.
  split; [intros videos_text; apply videos_loop_records |].
  split; [exact video_id_of_spec |].
  split; [vm_compute; reflexivity |].
  split; [vm_compute; reflexivity |].
  split; [| vm_compute; reflexivity].
  intros url Hlong Hshort. unfold video_id_of, id_in_url.
  rewrite Hlong, Hshort. split; reflexivity.
Qed.

Lemma video_id_extraction_witness :
  video_id_of "https://vimeo.com/12345" = inr "" /\
  parse_videos two_videos =
    inr [Video.mk "Limits, part one"
           "https://youtube.com/watch?v=ABC123&t=5" "ABC123";
         Video.mk "Limits, part two"
           "https://youtu.be/XYZ789?foo=1" "XYZ789"].
Proof.
  split.
  - apply (proj1 (proj2 (proj2 (proj2 (proj2 video_id_extraction))))
             "https://vimeo.com/12345"); reflexivity.
  - rewrite (proj1 video_id_extraction two_videos).
    vm_compute. reflexivity.
Defined.

(** C8, as amended. [parse_videos] never raises, and its records are, in
    order, those of the entries whose trimmed text has at least two lines:
    the title is the first line and the URL is the second line, each
    trimmed, blank or not; an entry with fewer than two lines gives no
    record. *)
Theorem parse_videos_title_and_url (videos_text : string) :
  exists videos,
    parse_videos videos_text = inr videos /\
    map shown videos =
    omap title_and_url (tail (Re.split index_marker videos_text)).
Proof.
  unfold parse_videos. apply videos_loop_spec.
Qed.

(** C8 as stated fails: the entry of [blank_second_line] has a blank second
    line, and its record has the URL [""], not the second non-empty line. *)
Lemma parse_videos_blank_second_line :
  parse_videos blank_second_line =
    inr [Video.mk "Limits in ten minutes" "" ""] /\
  omap title_and_second_non_empty
    (tail (Re.split index_marker blank_second_line)) =
    [("Limits in ten minutes", "https://youtu.be/XYZ789")] /\
  ~ (exists videos,
        parse_videos blank_second_line = inr videos /\
        map shown videos =
        omap title_and_second_non_empty
          (tail (Re.split index_marker blank_second_line))).
Proof.
  split; [vm_compute; reflexivity |].
  split; [vm_compute; reflexivity |].
  intros (videos & Hparse & Hshown).
  vm_compute in Hparse. injection Hparse as <-.
  vm_compute in Hshown. discriminate Hshown.
Qed.

End VideoClaims.

(** ** Projects *)

Section ProjectClaims.

Lemma url_line_is_no_note (line : string) :
  startswith line "URL:" = true -> startswith line "Note:" = false.
Proof.
  destruct line as [| c line]; [discriminate |].
  cbn [startswith]. intros H. apply andb_true_iff in H as [Hc _].
  apply Ascii.eqb_eq in Hc. subst c. reflexivity.
Qed.

(** The loop over the lines of an entry keeps, for the URL and for the
    note, the last line that starts with the prefix. *)
Lemma url_and_note_fields (lines : list string) (url description : string) :
  url_and_note lines url description =
  (match last (List.filter (fun line => startswith line "URL:") lines) with
   | Some line => strip (replace line "URL:" "")
   | None => url
   end,
   match last (List.filter (fun line => startswith line "Note:") lines) with
   | Some line => strip (replace line "Note:" "")
   | None => description
   end).
Proof.
  revert url description.
  induction lines as [| line rest IH]; intros url description; [reflexivity |].
  cbn [url_and_note List.filter].
  destruct (startswith line "URL:") eqn:Hurl.
  - rewrite (url_line_is_no_note line Hurl), IH, last_cons.
    destruct (last (List.filter _ rest)); reflexivity.
  - destruct (startswith line "Note:") eqn:Hnote; rewrite IH;
      [rewrite last_cons |]; try reflexivity.
    destruct (last (List.filter (fun l => startswith l "Note:") rest));
      reflexivity.
Qed.

Lemma repo_and_creator_names (title url : string) :
  repo_and_creator title url = inr (names_of title url).
Proof.
  unfold repo_and_creator, names_of.
  destruct (str_in "github.com" url); [| reflexivity].
  destruct (Nat.ltb 1 (length (split url "github.com/"))) eqn:Hparts;
    [| reflexivity].
  apply Nat.ltb_lt in Hparts.
  rewrite (index_nth (split url "github.com/") 1) by lia.
  cbn [Py.bind andb].
  set (path_parts := split (nth 1 (split url "github.com/") EmptyString) "/").
  destruct (Nat.leb 2 (length path_parts)) eqn:Hpath; [| reflexivity].
  apply Nat.leb_le in Hpath.
  rewrite (index_nth path_parts 0), (index_nth path_parts 1) by lia.
  reflexivity.
Qed.

Lemma project_of_entry_record (entry : string) :
  project_of_entry entry = inr (project_record entry).
Proof.
  unfold project_of_entry, project_record.
  destruct (Nat.leb 2 (length (split (strip entry) nl))) eqn:Hlen;
    [| reflexivity].
  apply Nat.leb_le in Hlen.
  rewrite (index_nth (split (strip entry) nl) 0) by lia. cbn [Py.bind].
  rewrite url_and_note_fields. fold (field_of "URL:" (tail (split (strip entry) nl))).
  fold (field_of "Note:" (tail (split (strip entry) nl))).
  rewrite repo_and_creator_names.
  destruct (names_of _ _) as [repo_name creator]. reflexivity.
Qed.

(** The loop over the entries of a section files every record in one list
    at most, and keeps the order of the entries in both. *)
Lemma entries_loop_records (section : string) (entries : list string) :
  entries_loop (section_is_github section) (section_is_docker section) entries
  = inr (List.filter (fun p => is_category Github (category_of section p))
           (omap project_record entries),
         List.filter (fun p => is_category Docker (category_of section p))
           (omap project_record entries)).
Proof.
  induction entries as [| entry rest IH]; [reflexivity |].
  cbn [entries_loop]. rewrite project_of_entry_record, IH. cbn [Py.bind].
  change (omap project_record (entry :: rest))
    with (match project_record entry with
          | Some p => p :: omap project_record rest
          | None => omap project_record rest
          end).
  destruct (project_record entry) as [p |]; [| reflexivity].
  cbn [List.filter].
  assert (Hcategory :
            category_of section p =
            if section_is_github section
               || str_in "github.com" (Project.url p)
            then Some Github
            else if section_is_docker section
                    || str_in "hub.docker.com" (Project.url p)
            then Some Docker
            else None) by reflexivity.
  rewrite Hcategory.
  destruct (section_is_github section || str_in "github.com" (Project.url p));
    [reflexivity |].
  destruct (section_is_docker section
            || str_in "hub.docker.com" (Project.url p)); reflexivity.
Qed.

Lemma sections_loop_records (sections : list string) :
  sections_loop sections =
  inr (records_of Github sections, records_of Docker sections).
Proof.
  induction sections as [| section rest IH]; [reflexivity |].
  cbn [sections_loop]. unfold section_entries at 1.
  fold (section_entries section).
  rewrite entries_loop_records, IH. reflexivity.
Qed.

(** C6, as amended. [parse_projects] never raises, and its two lists are
    exactly these: every entry whose trimmed text has at least two lines
    gives one record; the record goes to [github] when its section contains
    ["GitHub"] or ["github.com"] or its URL contains ["github.com"];
    otherwise it goes to [docker] when its section contains ["DockerHub"],
    ["hub.docker.com"] or ["Docker"] or its URL contains
    ["hub.docker.com"]; otherwise it is in neither. No record is in both,
    and each list keeps the order of the text. *)
Theorem parse_projects_classification (projects_text : string) :
  parse_projects projects_text =
  inr {| github := records_of Github (split projects_text separator);
         docker := records_of Docker (split projects_text separator) |}.
Proof.
  unfold parse_projects. rewrite sections_loop_records. reflexivity.
Qed.

(** C6 as stated fails: in a section labelled GitHub, the entry with a
    hub.docker.com URL is filed under [github], and [docker] stays empty. *)
Lemma parse_projects_github_label_wins :
  section_is_github docker_url_under_github = true /\
  str_in "hub.docker.com" (Project.url docker_url_project) = true /\
  parse_projects docker_url_under_github =
    inr {| github := [docker_url_project]; docker := [] |}.
Proof.
  split; [vm_compute; reflexivity |].
  split; vm_compute; reflexivity.
Qed.

End ProjectClaims.

(** ** Quiz parsing *)

Section QuizClaims.

Lemma for_each_Forall {A B : Type} (f : A -> result B) (P : B -> Prop)
    (l : list A) (ys : list B) :
  (forall x y, f x = inr y -> P y) ->
  for_each f l = inr ys -> Forall P ys.
Proof.
  intros Hf. revert ys. induction l as [| x rest IH]; intros ys H.
  - injection H as <-. constructor.
  - cbn [for_each] in H.
    apply bind_ok in H as (y & Hy & H).
    apply bind_ok in H as (others & Hothers & H).
    injection H as <-. constructor; eauto.
Qed.

Lemma question_of_match_nonneg (groups : list string) (q : Question.t) :
  question_of_match groups = inr q -> 0 <= Question.number q.
Proof.
  unfold question_of_match.
  destruct groups as [| q_num [| question [| a [| b [| c [| d [| correct
    [| extra rest]]]]]]]]; try discriminate.
  intros H. apply bind_ok in H as (number & Hnumber & H).
  injection H as <-. simpl. exact (int_nonneg _ _ Hnumber).
Qed.

(** The matches of a scan start at increasing offsets, none before the
    offset the scan starts at. *)
Lemma scan_offsets (r : list Re.atom) (s : string) (pos skip : nat) :
  StronglySorted lt (Re.scan r pos skip s).*1 /\
  Forall (fun start => (pos <= start)%nat) (Re.scan r pos skip s).*1.
Proof.
  revert pos skip. induction s as [| c s IH]; intros pos skip.
  - destruct skip as [| k]; cbn [Re.scan].
    + destruct (Re.match_atoms r EmptyString) as [[groups n] |]; simpl;
        repeat constructor.
    + simpl. repeat constructor.
  - destruct skip as [| k]; cbn [Re.scan].
    + destruct (Re.match_atoms r (String c s)) as [[groups n] |].
      * destruct (IH (S pos) (Nat.pred n)) as [Hsorted Hfrom].
        cbn [fmap list_fmap fst]. split.
        -- constructor; [exact Hsorted |].
           eapply Forall_impl; [exact Hfrom | simpl; lia].
        -- constructor; [lia |].
           eapply Forall_impl; [exact Hfrom | simpl; lia].
      * destruct (IH (S pos) 0%nat) as [Hsorted Hfrom].
        split; [exact Hsorted |].
        eapply Forall_impl; [exact Hfrom | simpl; lia].
    + destruct (IH (S pos) k) as [Hsorted Hfrom].
      split; [exact Hsorted |].
      eapply Forall_impl; [exact Hfrom | simpl; lia].
Qed.

Lemma for_each_Forall2 {A B : Type} (f : A -> result B) (l : list A)
    (ys : list B) :
  for_each f l = inr ys -> Forall2 (fun y x => f x = inr y) ys l.
Proof.
  revert ys. induction l as [| x rest IH]; intros ys H.
  - injection H as <-. constructor.
  - cbn [for_each] in H.
    apply bind_ok in H as (y & Hy & H).
    apply bind_ok in H as (others & Hothers & H).
    injection H as <-. constructor; [exact Hy | exact (IH _ Hothers)].
Qed.

Lemma question_of_match_number (groups : list string) (q : Question.t) :
  question_of_match groups = inr q ->
  Py.int (number_of_match groups) = inr (Question.number q).
Proof.
  unfold question_of_match, number_of_match.
  destruct groups as [| q_num [| question [| a [| b [| c [| d [| correct
    [| extra rest]]]]]]]]; try discriminate.
  intros H. apply bind_ok in H as (number & Hnumber & H).
  injection H as <-. exact Hnumber.
Qed.

(** C7, as amended. The questions [parse_quiz] returns are those of the
    matches of the question pattern in the quiz section, one for each match,
    in the order in which the matches start in the text, each with the
    number written after the Q of its match: the list is not sorted by
    number. *)
Theorem parse_quiz_numbers_in_text_order (quiz_text : string)
    (quiz : quiz_data) :
  parse_quiz quiz_text = inr quiz ->
  exists quiz_section,
    quiz_section_of quiz_text = inr quiz_section /\
    for_each question_of_match
      (Re.scan question_pattern 0 0 quiz_section).*2
      = inr (questions quiz) /\
    Forall2
      (fun q groups =>
         Py.int (number_of_match groups) = inr (Question.number q))
      (questions quiz) (Re.scan question_pattern 0 0 quiz_section).*2 /\
    StronglySorted lt (Re.scan question_pattern 0 0 quiz_section).*1.
Proof.
  unfold parse_quiz. intros H.
  apply bind_ok in H as (quiz_section & Hsection & H).
  apply bind_ok in H as (exercises_section & _ & H).
  apply bind_ok in H as (qs & Hqs & H).
  apply bind_ok in H as (es & _ & H).
  injection H as <-. simpl.
  exists quiz_section. split; [exact Hsection |].
  split; [exact Hqs |]. split; [| apply scan_offsets].
  eapply Forall2_impl; [exact (for_each_Forall2 _ _ _ Hqs) |].
  intros q groups. apply question_of_match_number.
Qed.

Lemma parse_quiz_numbers_in_text_order_witness :
  exists quiz quiz_section,
    parse_quiz misnumbered_quiz = inr quiz /\
    map Question.number (questions quiz) = [2; 1] /\
    quiz_section_of misnumbered_quiz = inr quiz_section /\
    for_each question_of_match
      (Re.scan question_pattern 0 0 quiz_section).*2
      = inr (questions quiz).
Proof.
  destruct (parse_quiz misnumbered_quiz) as [e | quiz] eqn:Hparse;
    [vm_compute in Hparse; discriminate Hparse |].
  destruct (parse_quiz_numbers_in_text_order misnumbered_quiz quiz Hparse)
    as (quiz_section & Hsection & Hquestions & _).
  exists quiz, quiz_section. split; [reflexivity |].
  split; [| split; [exact Hsection | exact Hquestions]].
  vm_compute in Hparse. injection Hparse as <-. reflexivity.
Defined.

(** C7 as stated fails on the order alone: the questions of
    [misnumbered_quiz] come back numbered 2 and 1, as the text has them.
    The numbers are positive and distinct, and not ascending. *)
Lemma parse_quiz_keeps_misnumbering :
  exists quiz,
    parse_quiz misnumbered_quiz = inr quiz /\
    map Question.number (questions quiz) = [2; 1] /\
    Forall (fun n => 0 < n) (map Question.number (questions quiz)) /\
    NoDup (map Question.number (questions quiz)) /\
    ~ valid_numbering (map Question.number (questions quiz)).
Proof.
  eexists. split; [vm_compute; reflexivity |].
  split; [reflexivity |]. simpl.
  split; [repeat constructor |].
  split; [apply (bool_decide_unpack _); vm_compute; exact I |].
  intros (_ & _ & Hsorted).
  apply Sorted_inv in Hsorted as [_ Hhead].
  apply HdRel_inv in Hhead. lia.
Qed.

(** C2, at the input where the code departs from it. [parse_videos] and
    [parse_projects] never raise; [parse_quiz] raises [ValueError] on
    [long_number_quiz], whose question number has 4301 digits. *)
Theorem parse_quiz_raises_on_long_number :
  (forall videos_text, exists videos, parse_videos videos_text = inr videos) /\
  (forall projects_text,
      exists found, parse_projects projects_text = inr found) /\
  parse_quiz long_number_quiz = inl ValueError.
Proof.
  split; [exact parse_videos_total |].
  split; [exact parse_projects_total |].
  vm_compute. reflexivity.
Qed.

End QuizClaims.

(** ** The pipeline *)

Section PipelineClaims.

Context {LLM File : Type}.
Variable ag : agents LLM File.

(** Membership in the list of calls of a finished run is decided by
    evaluation. *)
Ltac in_log :=
  match goal with
  | |- _ ∈ _ => apply (bool_decide_unpack _); vm_compute; exact I
  | |- _ ∉ _ => apply (bool_decide_unpack _); vm_compute; exact I
  end.

(** One call of a run that returns: the agent did not raise. *)
Ltac on_call H call x :=
  destruct call as [? | x] eqn:?; cbv beta iota zeta in H; [discriminate H |].

(** One gated call of a run that returns: not selected, or selected and
    the agent did not raise. *)
Ltac on_selected H name call :=
  let x := fresh "text" in
  destruct (selected name _); cbv beta iota zeta in H;
  [on_call H call x |].

(** What a run that returns has done: the calls it made, in order, and the
    text each field holds. *)
Lemma run_pipeline_returns (subject chapter : string)
    (help_types : list string) (guide_mode : bool)
    (uploaded_file : option File) (engine_code : string)
    (log : list string) (output : Output.t) :
  run_pipeline ag subject chapter help_types guide_mode uploaded_file
    engine_code [] = (log, inr output) ->
  exists llm context_text,
    get_llm ag engine_code = inr llm /\
    match uploaded_file with
    | Some file =>
        a3_adapter ag file = inr (Output.a3_output output) /\
        Output.a1_output output = "" /\ Output.a2_output output = "" /\
        context_text = Output.a3_output output
    | None =>
        a1_everything ag subject chapter = inr (Output.a1_output output) /\
        a2_cleaner ag llm subject (Output.a1_output output)
          = inr (Output.a2_output output) /\
        Output.a3_output output = "" /\
        context_text = Output.a2_output output
    end /\
    a4_summarizer ag llm context_text guide_mode
      = inr (Output.summary output) /\
    (if selected "Videos" help_types
     then a5_collector_videos ag subject chapter = inr (Output.videos output)
     else Output.videos output = "") /\
    (if selected "Related Projects" help_types
     then a6_relations_projects ag subject chapter
          = inr (Output.projects output)
     else Output.projects output = "") /\
    (if selected "Quizzes/Exercises" help_types
     then a7_ai_companion_quiz ag llm (Output.summary output)
          = inr (Output.quizzes output)
     else Output.quizzes output = "") /\
    (if selected "Exams" help_types
     then a8_examiner ag subject chapter = inr (Output.exams output)
     else Output.exams output = "") /\
    log =
      ["get_llm"] ++
      match uploaded_file with
      | Some _ => ["a3_adapter"]
      | None => ["a1_everything"; "a2_cleaner"]
      end ++
      ["a4_summarizer"] ++
      (if selected "Videos" help_types
       then ["a5_collector_videos"] else []) ++
      (if selected "Related Projects" help_types
       then ["a6_relations_projects"] else []) ++
      (if selected "Quizzes/Exercises" help_types
       then ["a7_ai_companion_quiz"] else []) ++
      (if selected "Exams" help_types then ["a8_examiner"] else []).
Proof.
  unfold run_pipeline, ingest, when_selected, Run.bind, call, ret, ok.
  intros H.
  on_call H (get_llm ag engine_code) llm.
  exists llm.
  destruct uploaded_file as [file |].
  - on_call H (a3_adapter ag file) a3. exists a3.
    on_call H (a4_summarizer ag llm a3 guide_mode) summary.
    on_selected H "Videos" (a5_collector_videos ag subject chapter);
    on_selected H "Related Projects" (a6_relations_projects ag subject chapter);
    on_selected H "Quizzes/Exercises" (a7_ai_companion_quiz ag llm summary);
    on_selected H "Exams" (a8_examiner ag subject chapter);
    injection H as <- <-; cbn; repeat split; auto.
  - on_call H (a1_everything ag subject chapter) a1.
    on_call H (a2_cleaner ag llm subject a1) a2. exists a2.
    on_call H (a4_summarizer ag llm a2 guide_mode) summary.
    on_selected H "Videos" (a5_collector_videos ag subject chapter);
    on_selected H "Related Projects" (a6_relations_projects ag subject chapter);
    on_selected H "Quizzes/Exercises" (a7_ai_companion_quiz ag llm summary);
    on_selected H "Exams" (a8_examiner ag subject chapter);
    injection H as <- <-; cbn; repeat split; auto.
Qed.

(** C3, as amended. A run that returns has taken exactly one branch. With
    an uploaded file the two search fields are empty, the extracted text is
    what the ingestion agent returned, and neither the search nor the
    cleaning agent was called. Without one the extracted text is empty, the
    two search fields are what the search and the cleaning agent returned,
    and the ingestion agent was not called. A field is non-empty exactly
    when its agent returned a non-empty text. *)
Theorem run_pipeline_one_branch (subject chapter : string)
    (help_types : list string) (guide_mode : bool)
    (uploaded_file : option File) (engine_code : string)
    (log : list string) (output : Output.t) :
  run_pipeline ag subject chapter help_types guide_mode uploaded_file
    engine_code [] = (log, inr output) ->
  match uploaded_file with
  | Some file =>
      Output.a1_output output = "" /\ Output.a2_output output = "" /\
      a3_adapter ag file = inr (Output.a3_output output) /\
      ("a3_adapter" ∈ log) /\ ("a1_everything" ∉ log) /\ ("a2_cleaner" ∉ log)
  | None =>
      Output.a3_output output = "" /\
      a1_everything ag subject chapter = inr (Output.a1_output output) /\
      (exists llm,
          get_llm ag engine_code = inr llm /\
          a2_cleaner ag llm subject (Output.a1_output output)
            = inr (Output.a2_output output)) /\
      ("a1_everything" ∈ log) /\ ("a2_cleaner" ∈ log) /\ ("a3_adapter" ∉ log)
  end.
Proof.
  intros H.
  apply run_pipeline_returns in H
    as (llm & context_text & Hllm & Hbranch & _ & _ & _ & _ & _ & ->).
  destruct uploaded_file as [file |].
  - destruct Hbranch as (Ha3 & Ha1 & Ha2 & _).
    repeat split; auto;
      destruct (selected "Videos" help_types),
        (selected "Related Projects" help_types),
        (selected "Quizzes/Exercises" help_types),
        (selected "Exams" help_types); in_log.
  - destruct Hbranch as (Ha1 & Ha2 & Ha3 & _).
    split; [exact Ha3 |]. split; [exact Ha1 |].
    split; [exists llm; auto |].
    repeat split;
      destruct (selected "Videos" help_types),
        (selected "Related Projects" help_types),
        (selected "Quizzes/Exercises" help_types),
        (selected "Exams" help_types); in_log.
Qed.

(** C4, as amended. In a run that returns, the field of a help type that
    was not selected is the empty string, and the field of a selected help
    type is the text its agent returned, which is empty when the agent
    returned nothing. *)
Theorem run_pipeline_gating (subject chapter : string)
    (help_types : list string) (guide_mode : bool)
    (uploaded_file : option File) (engine_code : string)
    (log : list string) (output : Output.t) :
  run_pipeline ag subject chapter help_types guide_mode uploaded_file
    engine_code [] = (log, inr output) ->
  ("Videos" ∉ help_types -> Output.videos output = "") /\
  ("Related Projects" ∉ help_types -> Output.projects output = "") /\
  ("Quizzes/Exercises" ∉ help_types -> Output.quizzes output = "") /\
  ("Exams" ∉ help_types -> Output.exams output = "") /\
  ("Videos" ∈ help_types ->
   a5_collector_videos ag subject chapter = inr (Output.videos output)) /\
  ("Related Projects" ∈ help_types ->
   a6_relations_projects ag subject chapter
     = inr (Output.projects output)) /\
  ("Quizzes/Exercises" ∈ help_types ->
   exists llm,
     get_llm ag engine_code = inr llm /\
     a7_ai_companion_quiz ag llm (Output.summary output)
       = inr (Output.quizzes output)) /\
  ("Exams" ∈ help_types ->
   a8_examiner ag subject chapter = inr (Output.exams output)).
Proof.
  intros H.
  apply run_pipeline_returns in H
    as (llm & context_text & Hllm & _ & _ & Hv & Hp & Hq & He & _).
  unfold selected in Hv, Hp, Hq, He.
  repeat split; intros Hin.
  - rewrite bool_decide_eq_false_2 in Hv by exact Hin. exact Hv.
  - rewrite bool_decide_eq_false_2 in Hp by exact Hin. exact Hp.
  - rewrite bool_decide_eq_false_2 in Hq by exact Hin. exact Hq.
  - rewrite bool_decide_eq_false_2 in He by exact Hin. exact He.
  - rewrite bool_decide_eq_true_2 in Hv by exact Hin. exact Hv.
  - rewrite bool_decide_eq_true_2 in Hp by exact Hin. exact Hp.
  - rewrite bool_decide_eq_true_2 in Hq by exact Hin. eauto.
  - rewrite bool_decide_eq_true_2 in He by exact Hin. exact He.
Qed.

Variable getenv : string -> option string.
Variable now : string.

(** C5. When the pipeline raises, whichever call raised, the handler
    leaves the session as it was: no output field, no quiz field and no
    history entry changes. *)
Theorem failed_run_keeps_session (subject chapter : string)
    (help_types : list string) (guide_mode : bool)
    (uploaded_file : option File)
    (engine_label engine_code engine_env_var : string)
    (state : Session.t) (e : exn) :
  (run_pipeline ag subject chapter help_types guide_mode uploaded_file
     engine_code []).2 = inl e ->
  (generate_study_pack ag getenv now subject chapter help_types guide_mode
     uploaded_file engine_label engine_code engine_env_var state).1 = state.
Proof.
  intros H. unfold generate_study_pack.
  destruct (_ || _); [reflexivity |].
  destruct (negb _); [reflexivity |].
  rewrite H. reflexivity.
Qed.

End PipelineClaims.

Section PipelineExamples.

Lemma run_pipeline_one_branch_witness :
  exists log output,
    run_pipeline (fixed_agents "results" "videos") "Mathematics" "Limits"
      ["Videos"] true (Some tt) "deepseek" [] = (log, inr output) /\
    Output.a1_output output = "" /\ ("a1_everything" ∉ log).
Proof.
  eexists _, _. split; [vm_compute; reflexivity |].
  destruct (run_pipeline_one_branch (fixed_agents "results" "videos")
              "Mathematics" "Limits" ["Videos"] true (Some tt) "deepseek"
              _ _ eq_refl) as (Ha1 & _ & _ & _ & Hlog & _).
  split; [exact Ha1 | exact Hlog].
Defined.

(** C3 as stated fails: without a document, a search agent that returns
    nothing leaves both search fields empty. *)
Lemma run_pipeline_empty_search :
  exists log output,
    run_pipeline (fixed_agents "" "videos") "Mathematics" "Limits"
      ["Videos"] true None "deepseek" [] = (log, inr output) /\
    ~ branch_exclusive (@None unit) output.
Proof.
  eexists _, _. split; [vm_compute; reflexivity |].
  intros (_ & Ha1 & _). apply Ha1. reflexivity.
Qed.

Lemma run_pipeline_gating_witness :
  exists log output,
    run_pipeline (fixed_agents "results" "videos") "Mathematics" "Limits"
      ["Videos"] true None "deepseek" [] = (log, inr output) /\
    Output.exams output = "" /\ Output.videos output = "videos".
Proof.
  eexists _, _. split; [vm_compute; reflexivity |].
  destruct (run_pipeline_gating (fixed_agents "results" "videos")
              "Mathematics" "Limits" ["Videos"] true None "deepseek"
              _ _ eq_refl) as (_ & _ & _ & Hexams & Hvideos & _).
  split.
  - apply Hexams. apply (bool_decide_unpack _). vm_compute. exact I.
  - reflexivity.
Defined.

(** C4 as stated fails: with Videos selected, a video collector that
    returns nothing leaves the field empty. *)
Lemma run_pipeline_empty_videos :
  exists log output,
    run_pipeline (fixed_agents "results" "") "Mathematics" "Limits"
      ["Videos"] true None "deepseek" [] = (log, inr output) /\
    ~ gated ["Videos"] output.
Proof.
  eexists _, _. split; [vm_compute; reflexivity |].
  intros ((Hvideos & _) & _).
  apply Hvideos; [reflexivity |].
  apply (bool_decide_unpack _). vm_compute. exact I.
Qed.

Lemma failed_run_keeps_session_witness :
  (generate_study_pack failing_summarizer key_present "2025-02-02 09:00:00"
     "Mathematics" "Limits" ["Videos"] true None
     "Deepseek 3.1" "deepseek" "DEEPSEEK_API_KEY" used_session).1
  = used_session.
Proof.
  apply (failed_run_keeps_session failing_summarizer key_present
           "2025-02-02 09:00:00" "Mathematics" "Limits" ["Videos"] true None
           "Deepseek 3.1" "deepseek" "DEEPSEEK_API_KEY" used_session
           (AgentError "a4_summarizer")).
  vm_compute. reflexivity.
Defined.

End PipelineExamples.

(** ** Quiz grading *)

Section GradingFacts.

Lemma iter_add_shift (points score : PyNum.t) (n : nat) :
  Nat.iter n (fun s => PyNum.add s points) (PyNum.add score points) =
  PyNum.add (Nat.iter n (fun s => PyNum.add s points) score) points.
Proof.
  induction n as [| n IH]; [reflexivity |].
  rewrite 2!Nat.iter_succ, IH. reflexivity.
Qed.

(** The loop adds the weight once for every question answered
    correctly. *)
Lemma score_loop_sum (answers : gmap string string) (points : PyNum.t)
    (qs : list Question.t) (score : PyNum.t) :
  score_loop answers points qs score =
  Nat.iter (length (List.filter (answered_correctly answers) qs))
    (fun s => PyNum.add s points) score.
Proof.
  revert score. induction qs as [| q rest IH]; intros score; [reflexivity |].
  cbn [score_loop List.filter]. rewrite IH.
  destruct (answered_correctly answers q); [| reflexivity].
  cbn [length]. rewrite Nat.iter_succ, iter_add_shift. reflexivity.
Qed.

Lemma agree_up_to_47 : agree_up_to 47 = true.
Proof. vm_compute. reflexivity. Qed.

Lemma small_quiz_closed_form (n t : nat) :
  (0 < t < 48)%nat -> (n <= t)%nat ->
  PyNum.eqb (PyNum.round1 (summed (points_per_question t) n))
    (closed_form n t) = true.
Proof.
  intros Ht Hn. pose proof agree_up_to_47 as H.
  unfold agree_up_to in H.
  rewrite forallb_forall in H.
  assert (Hin : In t (seq 1 47)) by (apply in_seq; lia).
  specialize (H t Hin). rewrite forallb_forall in H.
  apply H. apply in_seq. lia.
Qed.

Lemma correct_answers_le (quiz : quiz_data) (answers : gmap string string) :
  (correct_answers quiz answers <= length (questions quiz))%nat.
Proof. apply List.filter_length_le. Qed.

Lemma score_loop_agree (answers1 answers2 : gmap string string)
    (points : PyNum.t) (qs : list Question.t) (score : PyNum.t) :
  (forall q, q ∈ qs -> answers1 !! question_key q = answers2 !! question_key q) ->
  score_loop answers1 points qs score = score_loop answers2 points qs score.
Proof.
  revert score. induction qs as [| q rest IH]; intros score Hagree;
    [reflexivity |].
  cbn [score_loop].
  rewrite IH
    by (intros q' Hq'; apply Hagree; apply elem_of_cons; right; exact Hq').
  unfold answered_correctly.
  rewrite (Hagree q) by (apply elem_of_cons; left; reflexivity).
  reflexivity.
Qed.

End GradingFacts.

(** ** The capture groups of a match *)

Section MatchFacts.

Lemma drop_chars_length (n : nat) (s : string) :
  (String.length (drop_chars n s) <= String.length s)%nat.
Proof.
  revert s. induction n as [| n IH]; intros s; [destruct s; simpl; lia |].
  destruct s as [| c s]; simpl; [lia |]. specialize (IH s). lia.
Qed.

Lemma groups_within_longer (s t : string) (groups : list string) :
  (String.length s <= String.length t)%nat ->
  groups_within s groups -> groups_within t groups.
Proof.
  intros Hlen H. eapply Forall_impl; [exact H |]. simpl. intros w Hw. lia.
Qed.

(** What a greedy repetition returns: characters of the class, then a
    match of the rest of the pattern on what follows them. *)
Lemma greedy_inv (p : ascii -> bool) (k : string -> option Re.matched)
    (s w : string) (m : Re.matched) :
  Re.greedy p k s = Some (w, m) ->
  string_all p w = true /\
  (String.length w <= String.length s)%nat /\
  exists rest,
    k rest = Some m /\ (String.length rest <= String.length s)%nat.
Proof.
  revert w. induction s as [| c s IH]; intros w H.
  - cbn [Re.greedy] in H.
    destruct (k EmptyString) as [m' |] eqn:Hk; [| discriminate H].
    injection H as <- <-. repeat split; [simpl; lia |].
    exists EmptyString. split; [exact Hk | lia].
  - cbn [Re.greedy] in H.
    destruct (p c) eqn:Hp.
    + destruct (Re.greedy p k s) as [[w' m'] |] eqn:Hg.
      * injection H as <- <-.
        destruct (IH w' eq_refl) as (Hall & Hlen & rest & Hk & Hrest).
        cbn [string_all]. rewrite Hp, Hall.
        repeat split; [simpl; lia |].
        exists rest. split; [exact Hk | simpl; lia].
      * destruct (k (String c s)) as [m' |] eqn:Hk; [| discriminate H].
        injection H as <- <-. repeat split; [simpl; lia |].
        exists (String c s). split; [exact Hk | lia].
    + destruct (k (String c s)) as [m' |] eqn:Hk; [| discriminate H].
      injection H as <- <-. repeat split; [simpl; lia |].
      exists (String c s). split; [exact Hk | lia].
Qed.

Lemma lazy_any_inv (k : string -> option Re.matched) (s w : string)
    (m : Re.matched) :
  Re.lazy_any k s = Some (w, m) ->
  (String.length w <= String.length s)%nat /\
  exists rest,
    k rest = Some m /\ (String.length rest <= String.length s)%nat.
Proof.
  revert w. induction s as [| c s IH]; intros w H.
  - cbn [Re.lazy_any] in H.
    destruct (k EmptyString) as [m' |] eqn:Hk; [| discriminate H].
    injection H as <- <-. split; [simpl; lia |].
    exists EmptyString. split; [exact Hk | lia].
  - cbn [Re.lazy_any] in H.
    destruct (k (String c s)) as [m' |] eqn:Hk.
    + injection H as <- <-. split; [simpl; lia |].
      exists (String c s). split; [exact Hk | lia].
    + destruct (Re.lazy_any k s) as [[w' m'] |] eqn:Hl; [| discriminate H].
      injection H as <- <-.
      destruct (IH w' eq_refl) as (Hlen & rest & Hrest & Hbound).
      split; [simpl; lia |].
      exists rest. split; [exact Hrest | simpl; lia].
Qed.

(** The groups of a match have the shape of the pattern and fit in the
    text. *)
Lemma match_atoms_groups (r : list Re.atom) (s : string)
    (groups : list string) (n : nat) :
  Re.match_atoms r s = Some (groups, n) ->
  groups_ok r groups /\ groups_within s groups.
Proof.
  revert s groups n.
  induction r as [| a r IH]; intros s groups n H.
  - injection H as <- <-. split; [reflexivity | constructor].
  - destruct a as [l | cap p | cap p | cap | cap p | q];
      cbn [Re.match_atoms] in H; cbn [groups_ok captures].
    + destruct (startswith s l); [| discriminate H].
      destruct (Re.match_atoms r (drop_chars (String.length l) s))
        as [[g' n'] |] eqn:Hrest; [| discriminate H].
      injection H as <- <-. cbn [fst].
      destruct (IH _ _ _ Hrest) as [Hok Hin].
      split; [exact Hok |].
      eapply groups_within_longer; [apply drop_chars_length | exact Hin].
    + destruct (Re.greedy p (Re.match_atoms r) s) as [[w m] |] eqn:Hg;
        [| discriminate H].
      injection H as <- <-.
      destruct (greedy_inv _ _ _ _ _ Hg) as (Hall & Hlen & rest & Hk & Hrest).
      destruct m as [g' n']. destruct (IH _ _ _ Hk) as [Hok Hin].
      pose proof (groups_within_longer _ _ _ Hrest Hin) as Hin'.
      cbn [fst]. destruct cap.
      * split; [split; [exact Hall | exact Hok] |].
        constructor; [exact Hlen | exact Hin'].
      * split; [exact Hok | exact Hin'].
    + destruct s as [| c s]; [discriminate H |].
      destruct (p c) eqn:Hp; [| discriminate H].
      destruct (Re.greedy p (Re.match_atoms r) s) as [[w m] |] eqn:Hg;
        [| discriminate H].
      injection H as <- <-.
      destruct (greedy_inv _ _ _ _ _ Hg) as (Hall & Hlen & rest & Hk & Hrest).
      destruct m as [g' n']. destruct (IH _ _ _ Hk) as [Hok Hin].
      assert (Hin' : groups_within (String c s) g').
      { eapply groups_within_longer; [| exact Hin]. simpl. lia. }
      cbn [fst]. destruct cap.
      * split.
        -- split; [| exact Hok]. split; [discriminate |].
           cbn [string_all]. rewrite Hp, Hall. reflexivity.
        -- constructor; [simpl; lia | exact Hin'].
      * split; [exact Hok | exact Hin'].
    + destruct (Re.lazy_any (Re.match_atoms r) s) as [[w m] |] eqn:Hl;
        [| discriminate H].
      injection H as <- <-.
      destruct (lazy_any_inv _ _ _ _ Hl) as (Hlen & rest & Hk & Hrest).
      destruct m as [g' n']. destruct (IH _ _ _ Hk) as [Hok Hin].
      pose proof (groups_within_longer _ _ _ Hrest Hin) as Hin'.
      cbn [fst]. destruct cap.
      * split; [split; [exact I | exact Hok] |].
        constructor; [exact Hlen | exact Hin'].
      * split; [exact Hok | exact Hin'].
    + destruct s as [| c s]; [discriminate H |].
      destruct (p c) eqn:Hp; [| discriminate H].
      destruct (Re.match_atoms r s) as [[g' n'] |] eqn:Hrest;
        [| discriminate H].
      injection H as <- <-.
      destruct (IH _ _ _ Hrest) as [Hok Hin].
      assert (Hin' : groups_within (String c s) g').
      { eapply groups_within_longer; [| exact Hin]. simpl. lia. }
      cbn [fst]. destruct cap.
      * split; [split; [exists c; auto | exact Hok] |].
        constructor; [simpl; lia | exact Hin'].
      * split; [exact Hok | exact Hin'].
    + destruct (q s); [| discriminate H].
      exact (IH _ _ _ H).
Qed.

(** The same for every match of a scan. *)
Lemma scan_groups (r : list Re.atom) (s : string) (pos skip : nat) :
  Forall (fun groups => groups_ok r groups /\ groups_within s groups)
    (Re.scan r pos skip s).*2.
Proof.
  revert pos skip. induction s as [| c s IH]; intros pos skip.
  - destruct skip as [| k]; cbn [Re.scan]; [| constructor].
    destruct (Re.match_atoms r EmptyString) as [[groups n] |] eqn:Hm;
      [| constructor].
    constructor; [| constructor]. exact (match_atoms_groups _ _ _ _ Hm).
  - assert (Hlonger : forall pos' skip',
               Forall (fun groups =>
                         groups_ok r groups /\
                         groups_within (String c s) groups)
                 (Re.scan r pos' skip' s).*2).
    { intros pos' skip'. eapply Forall_impl; [apply IH |].
      simpl. intros groups [Hok Hin]. split; [exact Hok |].
      eapply groups_within_longer; [| exact Hin]. simpl. lia. }
    destruct skip as [| k]; cbn [Re.scan]; [| apply Hlonger].
    destruct (Re.match_atoms r (String c s)) as [[groups n] |] eqn:Hm;
      [| apply Hlonger].
    cbn [fmap list_fmap snd]. constructor; [| apply Hlonger].
    exact (match_atoms_groups _ _ _ _ Hm).
Qed.

End MatchFacts.

(** ** When the quiz parser returns, and what it returns *)

Section QuizFacts.

Lemma digits_value_total (w : string) (acc : Z) :
  string_all is_digit w = true -> exists z, digits_value acc w = Some z.
Proof.
  revert acc. induction w as [| c w IH]; intros acc H; [eexists; reflexivity |].
  cbn [string_all] in H. apply andb_true_iff in H as [Hc Hw].
  cbn [digits_value]. rewrite Hc. apply IH. exact Hw.
Qed.

(** [int] returns on a non-empty string of at most 4300 digits. *)
Lemma int_total (w : string) :
  w <> EmptyString -> string_all is_digit w = true ->
  (String.length w <= int_max_str_digits)%nat ->
  exists z, Py.int w = inr z.
Proof.
  intros Hne Hall Hlen. unfold Py.int.
  destruct (Nat.ltb int_max_str_digits (String.length w)) eqn:Hlt.
  { apply Nat.ltb_lt in Hlt. lia. }
  destruct w as [| c w]; [congruence |].
  destruct (digits_value_total (String c w) 0 Hall) as [z Hz].
  rewrite Hz. eexists; reflexivity.
Qed.

Lemma for_each_total {A B : Type} (f : A -> result B) (l : list A) :
  Forall (fun x => exists y, f x = inr y) l ->
  exists ys, for_each f l = inr ys.
Proof.
  induction 1 as [| x rest [y Hy] _ [ys Hys]]; [eexists; reflexivity |].
  cbn [for_each]. rewrite Hy, Hys. eexists; reflexivity.
Qed.

Lemma for_each_Forall_from {A B : Type} (f : A -> result B)
    (P : A -> Prop) (Q : B -> Prop) (l : list A) (ys : list B) :
  (forall x y, P x -> f x = inr y -> Q y) ->
  Forall P l -> for_each f l = inr ys -> Forall Q ys.
Proof.
  intros Hf Hl. revert ys. induction Hl as [| x rest Hx _ IH]; intros ys H.
  - injection H as <-. constructor.
  - cbn [for_each] in H.
    apply bind_ok in H as (y & Hy & H).
    apply bind_ok in H as (others & Hothers & H).
    injection H as <-. constructor; eauto.
Qed.

(** The seven groups of a match of the question pattern. *)
Lemma question_groups (groups : list string) :
  groups_ok question_pattern groups ->
  exists q_num question opt_a opt_b opt_c opt_d letter,
    groups = [q_num; question; opt_a; opt_b; opt_c; opt_d;
              String letter EmptyString] /\
    q_num <> EmptyString /\ string_all is_digit q_num = true /\
    is_A_to_D letter = true.
Proof.
  unfold question_pattern. cbn [groups_ok captures group_ok].
  destruct groups as [| q_num [| question [| a [| b [| c [| d [| k rest]]]]]]];
    try tauto.
  intros ((Hne & Hdigits) & _ & _ & _ & _ & _ & (letter & -> & Hletter) & ->).
  exists q_num, question, a, b, c, d, letter. auto.
Qed.

(** The two groups of a match of the exercise pattern. *)
Lemma exercise_groups (groups : list string) :
  groups_ok exercise_pattern groups ->
  exists e_num exercise,
    groups = [e_num; exercise] /\
    e_num <> EmptyString /\ string_all is_digit e_num = true.
Proof.
  unfold exercise_pattern. cbn [groups_ok captures group_ok].
  destruct groups as [| e_num [| exercise rest]]; try tauto.
  intros ((Hne & Hdigits) & _ & ->).
  exists e_num, exercise. auto.
Qed.

Lemma letter_A_to_D (letter : ascii) :
  is_A_to_D letter = true ->
  strip (String letter EmptyString) = String letter EmptyString /\
  String letter EmptyString ∈ ["A"; "B"; "C"; "D"].
Proof.
  destruct letter as [[] [] [] [] [] [] [] []]; intros H;
    try discriminate H; (split; [reflexivity |]);
    apply (bool_decide_unpack _); vm_compute; exact I.
Qed.

Lemma split_on_pieces (sep : string -> option nat) (s : string) (skip : nat) :
  Forall (fun piece => (String.length piece <= String.length s)%nat)
    (split_on sep skip s).
Proof.
  revert skip. induction s as [| c s IH]; intros skip.
  - constructor; [simpl; lia | constructor].
  - assert (Hlonger : forall skip',
               Forall (fun piece =>
                         (String.length piece <= String.length (String c s))%nat)
                 (split_on sep skip' s)).
    { intros skip'. eapply Forall_impl; [apply IH |]. simpl. intros; lia. }
    cbn [split_on]. destruct skip as [| k]; [| apply Hlonger].
    destruct (sep (String c s)).
    + constructor; [simpl; lia | apply Hlonger].
    + specialize (IH 0%nat). destruct (split_on sep 0 s) as [| piece rest].
      * constructor; [simpl; lia | constructor].
      * apply Forall_cons in IH as [Hpiece Hrest].
        constructor; [simpl; lia |].
        eapply Forall_impl; [exact Hrest |]. simpl. intros; lia.
Qed.

Lemma replace_go_shorter (old : string) (s : string) (skip : nat) :
  (String.length (replace_go old EmptyString skip s) <= String.length s)%nat.
Proof.
  revert skip. induction s as [| c s IH]; intros skip; [simpl; lia |].
  cbn [replace_go]. destruct skip as [| k].
  - destruct (startswith (String c s) old).
    + change (EmptyString +:+ ?x) with x.
      specialize (IH (Nat.pred (String.length old))).
      cbn [String.length]. lia.
    + specialize (IH 0%nat). cbn [String.length]. lia.
  - specialize (IH k). cbn [String.length]. lia.
Qed.

Lemma lstrip_shorter (s : string) :
  (String.length (lstrip s) <= String.length s)%nat.
Proof.
  induction s as [| c s IH]; [simpl; lia |].
  cbn [lstrip]. destruct (is_space c); simpl in *; lia.
Qed.

Lemma rstrip_shorter (s : string) :
  (String.length (rstrip s) <= String.length s)%nat.
Proof.
  induction s as [| c s IH]; [simpl; lia |].
  cbn [rstrip]. destruct (rstrip s); [destruct (is_space c) |];
    simpl in *; lia.
Qed.

Lemma strip_shorter (s : string) :
  (String.length (strip s) <= String.length s)%nat.
Proof.
  unfold strip. pose proof (rstrip_shorter (lstrip s)).
  pose proof (lstrip_shorter s). lia.
Qed.

Lemma nth_piece_shorter (sep : string -> option nat) (s : string) (i : nat) :
  (String.length (nth i (split_on sep 0 s) EmptyString)
   <= String.length s)%nat.
Proof.
  pose proof (split_on_pieces sep s 0) as Hall.
  destruct (nth_in_or_default i (split_on sep 0 s) EmptyString) as [Hin | ->];
    [| simpl; lia].
  rewrite Forall_forall in Hall. apply Hall. apply list_elem_of_In. exact Hin.
Qed.

(** The quiz section is cut out of the text, and is no longer than it. *)
Lemma quiz_section_of_total (quiz_text : string) :
  exists section,
    quiz_section_of quiz_text = inr section /\
    (String.length section <= String.length quiz_text)%nat.
Proof.
  unfold quiz_section_of.
  rewrite (index_nth (split quiz_text "[EXERCISES]") 0)
    by (pose proof (split_length quiz_text "[EXERCISES]"); lia).
  eexists. split; [reflexivity |].
  pose proof (strip_shorter
                (replace (nth 0 (split quiz_text "[EXERCISES]") EmptyString)
                   "[QUIZ]" "")) as H1.
  pose proof (replace_go_shorter "[QUIZ]"
                (nth 0 (split quiz_text "[EXERCISES]") EmptyString) 0) as H2.
  pose proof (nth_piece_shorter (literal "[EXERCISES]") quiz_text 0) as H3.
  unfold replace, split in *. lia.
Qed.

Lemma exercises_section_of_total (quiz_text : string) :
  exists section,
    exercises_section_of quiz_text = inr section /\
    (String.length section <= String.length quiz_text)%nat.
Proof.
  unfold exercises_section_of.
  destruct (Nat.ltb 1 (length (split quiz_text "[EXERCISES]"))) eqn:Hparts.
  - apply Nat.ltb_lt in Hparts.
    rewrite (index_nth (split quiz_text "[EXERCISES]") 1) by lia.
    eexists. split; [reflexivity |].
    pose proof (strip_shorter
                  (nth 1 (split quiz_text "[EXERCISES]") EmptyString)) as H1.
    pose proof (nth_piece_shorter (literal "[EXERCISES]") quiz_text 1) as H2.
    unfold split in *. lia.
  - eexists. split; [reflexivity |]. simpl. lia.
Qed.

Lemma question_of_match_total (section : string) (groups : list string) :
  (String.length section <= int_max_str_digits)%nat ->
  groups_ok question_pattern groups -> groups_within section groups ->
  exists q, question_of_match groups = inr q.
Proof.
  intros Hlen Hok Hin.
  apply question_groups in Hok
    as (q_num & question & a & b & c & d & letter & -> & Hne & Hdigits & _).
  apply Forall_cons in Hin as [Hnum _].
  destruct (int_total q_num Hne Hdigits) as [z Hz]; [lia |].
  unfold question_of_match. rewrite Hz. eexists; reflexivity.
Qed.

Lemma exercise_of_match_total (section : string) (groups : list string) :
  (String.length section <= int_max_str_digits)%nat ->
  groups_ok exercise_pattern groups -> groups_within section groups ->
  exists e, exercise_of_match groups = inr e.
Proof.
  intros Hlen Hok Hin.
  apply exercise_groups in Hok as (e_num & exercise & -> & Hne & Hdigits).
  apply Forall_cons in Hin as [Hnum _].
  destruct (int_total e_num Hne Hdigits) as [z Hz]; [lia |].
  unfold exercise_of_match. rewrite Hz. eexists; reflexivity.
Qed.

Lemma parse_quiz_short_text (quiz_text : string) :
  (String.length quiz_text <= 4300)%nat ->
  exists quiz, parse_quiz quiz_text = inr quiz.
Proof.
  intros Hlen. unfold parse_quiz.
  destruct (quiz_section_of_total quiz_text) as (qs & Hqs & Hqs_len).
  destruct (exercises_section_of_total quiz_text) as (es & Hes & Hes_len).
  rewrite Hqs, Hes. cbn [Py.bind].
  destruct (for_each_total question_of_match
              (Re.findall question_pattern qs)) as [questions Hquestions].
  { eapply Forall_impl; [apply scan_groups |].
    simpl. intros groups [Hok Hin].
    apply (question_of_match_total qs); auto. unfold int_max_str_digits. lia. }
  destruct (for_each_total exercise_of_match
              (Re.findall exercise_pattern es)) as [exercises Hexercises].
  { eapply Forall_impl; [apply scan_groups |].
    simpl. intros groups [Hok Hin].
    apply (exercise_of_match_total es); auto. unfold int_max_str_digits. lia. }
  rewrite Hquestions, Hexercises. eexists; reflexivity.
Qed.

(** [int] on a non-empty string of digits raises only [ValueError], and
    only when the string has more than 4300 digits. *)
Lemma int_raises (w : string) (e : exn) :
  w <> EmptyString -> string_all is_digit w = true ->
  Py.int w = inl e ->
  e = ValueError /\ (int_max_str_digits < String.length w)%nat.
Proof.
  intros Hne Hall H.
  destruct (Nat.ltb int_max_str_digits (String.length w)) eqn:Hlong.
  - unfold Py.int in H. rewrite Hlong in H. injection H as <-.
    apply Nat.ltb_lt in Hlong. split; [reflexivity | exact Hlong].
  - apply Nat.ltb_ge in Hlong.
    destruct (int_total w Hne Hall Hlong) as [z Hz]. congruence.
Qed.

Lemma int_long (w : string) :
  (int_max_str_digits < String.length w)%nat -> Py.int w = inl ValueError.
Proof.
  intros Hlong. apply Nat.ltb_lt in Hlong. unfold Py.int.
  rewrite Hlong. reflexivity.
Qed.

(** A loop that raises does so on one of its elements; and it raises
    [ValueError] when it has an element on which the body raises it and the
    body raises nothing else. *)
Lemma for_each_raises {A B : Type} (f : A -> result B) (l : list A)
    (e : exn) :
  for_each f l = inl e -> exists x, x ∈ l /\ f x = inl e.
Proof.
  induction l as [| x rest IH]; [discriminate |].
  cbn [for_each]. destruct (f x) as [e' | y] eqn:Hx.
  - intros [= <-]. exists x. split; [apply elem_of_cons; left; reflexivity |].
    exact Hx.
  - cbn [Py.bind]. destruct (for_each f rest) as [e' | ys]; [| discriminate].
    intros [= <-]. destruct (IH eq_refl) as (x' & Hin & Hx').
    exists x'. split; [apply elem_of_cons; right; exact Hin | exact Hx'].
Qed.

Lemma for_each_raises_at {A B : Type} (f : A -> result B) (l : list A)
    (x : A) (e : exn) :
  x ∈ l -> f x = inl e ->
  (forall x' e', x' ∈ l -> f x' = inl e' -> e' = e) ->
  for_each f l = inl e.
Proof.
  induction l as [| x1 rest IH]; intros Hin Hx Honly; [inversion Hin |].
  cbn [for_each]. destruct (f x1) as [e' | y] eqn:Hx1.
  - rewrite (Honly x1 e'); [reflexivity | | exact Hx1].
    apply elem_of_cons. left. reflexivity.
  - cbn [Py.bind]. rewrite IH; [reflexivity | | exact Hx |].
    + apply elem_of_cons in Hin as [-> | Hin]; [congruence | exact Hin].
    + intros x' e' Hin'. apply Honly. apply elem_of_cons. right. exact Hin'.
Qed.

(** What the body of the question loop does on a match of the pattern:
    it raises exactly when the number has more than 4300 digits. *)
Lemma question_of_match_raises (groups : list string) :
  groups_ok question_pattern groups ->
  string_all is_digit (number_of_match groups) = true /\
  (forall e, question_of_match groups = inl e ->
     e = ValueError /\
     (int_max_str_digits < String.length (number_of_match groups))%nat) /\
  ((int_max_str_digits < String.length (number_of_match groups))%nat ->
   question_of_match groups = inl ValueError).
Proof.
  intros Hok.
  apply question_groups in Hok
    as (q_num & question & a & b & c & d & letter & -> & Hne & Hdigits & _).
  unfold question_of_match, number_of_match. cbn [nth].
  split; [exact Hdigits |]. split.
  - intros e H. destruct (Py.int q_num) as [e' | z] eqn:Hint;
      [| discriminate]. injection H as <-.
    exact (int_raises q_num e' Hne Hdigits Hint).
  - intros Hlong. rewrite (int_long q_num Hlong). reflexivity.
Qed.

Lemma exercise_of_match_raises (groups : list string) :
  groups_ok exercise_pattern groups ->
  string_all is_digit (number_of_match groups) = true /\
  (forall e, exercise_of_match groups = inl e ->
     e = ValueError /\
     (int_max_str_digits < String.length (number_of_match groups))%nat) /\
  ((int_max_str_digits < String.length (number_of_match groups))%nat ->
   exercise_of_match groups = inl ValueError).
Proof.
  intros Hok.
  apply exercise_groups in Hok as (e_num & exercise & -> & Hne & Hdigits).
  unfold exercise_of_match, number_of_match. cbn [nth].
  split; [exact Hdigits |]. split.
  - intros e H. destruct (Py.int e_num) as [e' | z] eqn:Hint;
      [| discriminate]. injection H as <-.
    exact (int_raises e_num e' Hne Hdigits Hint).
  - intros Hlong. rewrite (int_long e_num Hlong). reflexivity.
Qed.

Lemma matches_ok (r : list Re.atom) (s : string) (groups : list string) :
  groups ∈ Re.findall r s -> groups_ok r groups.
Proof.
  intros Hin. pose proof (scan_groups r s 0 0) as Hall.
  rewrite Forall_forall in Hall. exact (proj1 (Hall groups Hin)).
Qed.

(** X1. [parse_quiz] raises exactly on the texts in which a number matched
    after Q in the quiz section, or after E in the exercises section, has
    more than 4300 digits, and what it raises is the [ValueError] of [int]:
    no other step of it raises. So it returns on every text of at most 4300
    characters. *)
Theorem parse_quiz_raises_only_on_long_numbers (quiz_text : string) :
  exists quiz_section exercises_section,
    quiz_section_of quiz_text = inr quiz_section /\
    exercises_section_of quiz_text = inr exercises_section /\
    let long_number groups :=
      (groups ∈ Re.findall question_pattern quiz_section \/
       groups ∈ Re.findall exercise_pattern exercises_section) /\
      string_all is_digit (number_of_match groups) = true /\
      (4300 < String.length (number_of_match groups))%nat in
    (forall e, parse_quiz quiz_text = inl e ->
       e = ValueError /\ exists groups, long_number groups) /\
    (forall groups, long_number groups ->
       parse_quiz quiz_text = inl ValueError) /\
    ((String.length quiz_text <= 4300)%nat ->
     exists quiz, parse_quiz quiz_text = inr quiz).
Proof.
  destruct (quiz_section_of_total quiz_text) as (qs & Hqs & _).
  destruct (exercises_section_of_total quiz_text) as (es & Hes & _).
  exists qs, es. split; [exact Hqs |]. split; [exact Hes |].
  cbv zeta. unfold parse_quiz. rewrite Hqs, Hes. cbn [Py.bind].
  split; [| split].
  - intros e H.
    destruct (for_each question_of_match (Re.findall question_pattern qs))
      as [e' | questions] eqn:Hquestions.
    + injection H as <-.
      apply for_each_raises in Hquestions as (groups & Hin & Hraise).
      destruct (question_of_match_raises groups (matches_ok _ _ _ Hin))
        as (Hdigits & Honly & _).
      destruct (Honly e' Hraise) as [-> Hlong].
      split; [reflexivity |]. exists groups. auto.
    + cbn [Py.bind] in H.
      destruct (for_each exercise_of_match (Re.findall exercise_pattern es))
        as [e' | exercises] eqn:Hexercises; [| discriminate].
      injection H as <-.
      apply for_each_raises in Hexercises as (groups & Hin & Hraise).
      destruct (exercise_of_match_raises groups (matches_ok _ _ _ Hin))
        as (Hdigits & Honly & _).
      destruct (Honly e' Hraise) as [-> Hlong].
      split; [reflexivity |]. exists groups. auto.
  - intros groups ([Hin | Hin] & _ & Hlong).
    + rewrite (for_each_raises_at question_of_match _ groups ValueError);
        [reflexivity | exact Hin | |].
      * apply (question_of_match_raises groups (matches_ok _ _ _ Hin)).
        exact Hlong.
      * intros groups' e' Hin' Hraise.
        apply (question_of_match_raises groups' (matches_ok _ _ _ Hin')).
        exact Hraise.
    + destruct (for_each question_of_match (Re.findall question_pattern qs))
        as [e' | questions] eqn:Hquestions.
      * apply for_each_raises in Hquestions as (groups' & Hin' & Hraise).
        destruct (question_of_match_raises groups' (matches_ok _ _ _ Hin'))
          as (_ & Honly & _).
        destruct (Honly e' Hraise) as [-> _]. reflexivity.
      * cbn [Py.bind].
        rewrite (for_each_raises_at exercise_of_match _ groups ValueError);
          [reflexivity | exact Hin | |].
        -- apply (exercise_of_match_raises groups (matches_ok _ _ _ Hin)).
           exact Hlong.
        -- intros groups' e' Hin' Hraise.
           apply (exercise_of_match_raises groups' (matches_ok _ _ _ Hin')).
           exact Hraise.
  - intros Hlen. destruct (parse_quiz_short_text quiz_text Hlen) as [quiz H].
    unfold parse_quiz in H. rewrite Hqs, Hes in H. cbn [Py.bind] in H.
    exists quiz. exact H.
Qed.

Lemma parse_quiz_raises_only_on_long_numbers_witness :
  (exists quiz, parse_quiz example_quiz = inr quiz) /\
  parse_quiz long_number_quiz = inl ValueError.
Proof.
  split.
  - destruct (parse_quiz_raises_only_on_long_numbers example_quiz)
      as (qs & es & _ & _ & _ & _ & Hshort).
    apply Hshort. apply Nat.leb_le. vm_compute. reflexivity.
  - destruct (parse_quiz_raises_only_on_long_numbers long_number_quiz)
      as (qs & es & Hqs & Hes & _ & Hlong & _).
    vm_compute in Hqs. injection Hqs as <-.
    vm_compute in Hes. injection Hes as <-.
    apply (Hlong [repeat_char "1" 4301; "What is it?"; "one"; "two";
                  "three"; "four"; "A"]).
    split; [left; vm_compute; left |].
    split; [vm_compute; reflexivity |].
    apply Nat.ltb_lt. vm_compute. reflexivity.
Defined.

Lemma question_of_match_letters (groups : list string) (q : Question.t) :
  groups_ok question_pattern groups ->
  question_of_match groups = inr q ->
  Question.correct q ∈ ["A"; "B"; "C"; "D"] /\
  (Question.options q).*1 = ["A"; "B"; "C"; "D"].
Proof.
  intros Hok H.
  apply question_groups in Hok
    as (q_num & question & a & b & c & d & letter & -> & _ & _ & Hletter).
  unfold question_of_match in H.
  apply bind_ok in H as (number & _ & H). injection H as <-.
  destruct (letter_A_to_D letter Hletter) as [Hstrip Hin].
  cbn [Question.correct Question.options]. rewrite Hstrip.
  split; [exact Hin | reflexivity].
Qed.

Lemma parsed_questions_letters (quiz_text : string) (quiz : quiz_data) :
  parse_quiz quiz_text = inr quiz ->
  Forall (fun q =>
            Question.correct q ∈ ["A"; "B"; "C"; "D"] /\
            (Question.options q).*1 = ["A"; "B"; "C"; "D"])
    (questions quiz).
Proof.
  unfold parse_quiz. intros H.
  apply bind_ok in H as (qs & _ & H).
  apply bind_ok in H as (es & _ & H).
  apply bind_ok in H as (found & Hfound & H).
  apply bind_ok in H as (exercises & _ & H).
  injection H as <-. cbn [questions].
  eapply for_each_Forall_from; [| apply scan_groups | exact Hfound].
  simpl. intros groups q [Hok _] Hq.
  exact (question_of_match_letters groups q Hok Hq).
Qed.

(** X2. Every question [parse_quiz] returns has the four options A, B, C, D,
    in this order, and a correct letter that is one of them. *)
Theorem parse_quiz_correct_is_an_option (quiz_text : string)
    (quiz : quiz_data) :
  parse_quiz quiz_text = inr quiz ->
  Forall (fun q =>
            Question.correct q ∈ ["A"; "B"; "C"; "D"] /\
            (Question.options q).*1 = ["A"; "B"; "C"; "D"])
    (questions quiz).
Proof. exact (parsed_questions_letters quiz_text quiz). Qed.

Lemma parse_quiz_correct_is_an_option_witness :
  exists quiz,
    parse_quiz example_quiz = inr quiz /\
    Forall (fun q =>
              Question.correct q ∈ ["A"; "B"; "C"; "D"] /\
              (Question.options q).*1 = ["A"; "B"; "C"; "D"])
      (questions quiz).
Proof.
  eexists. split; [vm_compute; reflexivity |].
  eapply (parse_quiz_correct_is_an_option example_quiz).
  vm_compute. reflexivity.
Defined.

End QuizFacts.

(** ** Texts without markers, and what precedes the first marker *)

Section MarkerFacts.

Lemma startswith_empty (s : string) : startswith s EmptyString = true.
Proof. destruct s; reflexivity. Qed.

Lemma append_cons (c : ascii) (s t : string) :
  String c s +:+ t = String c (s +:+ t).
Proof. reflexivity. Qed.

Lemma no_bracket_cons (c : ascii) (s : string) :
  str_in "[" (String c s) = false ->
  Ascii.eqb c "[" = false /\ str_in "[" s = false.
Proof.
  rewrite str_in_cons. intros H. apply orb_false_iff in H as [Hc Hs].
  split; [| exact Hs].
  cbn [startswith] in Hc. rewrite startswith_empty, andb_true_r in Hc.
  rewrite Ascii.eqb_sym. exact Hc.
Qed.

Lemma marker_needs_bracket (c : ascii) (s : string) :
  Ascii.eqb c "[" = false ->
  option_map snd (Re.match_atoms index_marker (String c s)) = None.
Proof.
  intros Hc. unfold index_marker. cbn [Re.match_atoms startswith].
  rewrite Ascii.eqb_sym, Hc. reflexivity.
Qed.

(** A text without ["["] in front of another one only lengthens the first
    piece of the split at the entry markers. *)
Lemma marker_split_prefix (prefix s : string) :
  str_in "[" prefix = false ->
  Re.split index_marker (prefix +:+ s) =
  match Re.split index_marker s with
  | piece :: rest => (prefix +:+ piece) :: rest
  | [] => [prefix]
  end.
Proof.
  induction prefix as [| c prefix IH]; intros H.
  - change (EmptyString +:+ s) with s.
    destruct (Re.split index_marker s) as [| piece rest] eqn:Hs;
      [| reflexivity].
    + pose proof (split_on_length
                    (fun t => option_map snd (Re.match_atoms index_marker t))
                    0 s) as Hlen.
      unfold Re.split in Hs. rewrite Hs in Hlen. simpl in Hlen. lia.
  - apply no_bracket_cons in H as [Hc Hprefix].
    specialize (IH Hprefix).
    unfold Re.split in *. rewrite append_cons. cbn [split_on].
    rewrite (marker_needs_bracket c (prefix +:+ s) Hc), IH.
    destruct (split_on _ 0 s); reflexivity.
Qed.

Lemma append_empty (s : string) : s +:+ EmptyString = s.
Proof.
  induction s as [| c s IH]; [reflexivity |].
  rewrite append_cons, IH. reflexivity.
Qed.

Lemma marker_split_none (s : string) :
  str_in "[" s = false -> Re.split index_marker s = [s].
Proof.
  intros H. rewrite <- (append_empty s) at 1.
  rewrite (marker_split_prefix s EmptyString H).
  cbn. rewrite append_empty. reflexivity.
Qed.

(** X3. What precedes the first entry marker of a videos text is discarded. *)
Theorem parse_videos_ignores_preamble (preamble videos_text : string) :
  str_in "[" preamble = false ->
  parse_videos (preamble +:+ videos_text) = parse_videos videos_text.
Proof.
  intros H. unfold parse_videos.
  rewrite (marker_split_prefix preamble videos_text H).
  destruct (Re.split index_marker videos_text); reflexivity.
Qed.

Lemma parse_videos_ignores_preamble_witness :
  parse_videos ("Here are some videos:" +:+ blank_second_line)
  = parse_videos blank_second_line.
Proof.
  apply (parse_videos_ignores_preamble "Here are some videos:").
  vm_compute. reflexivity.
Defined.

Lemma string_all_not_bracket (s : string) :
  str_in "[" s = false <-> string_all not_bracket s = true.
Proof.
  induction s as [| c s IH].
  - split; reflexivity.
  - cbn [string_all]. unfold not_bracket at 1. split.
    + intros H. apply no_bracket_cons in H as [Hc Hs].
      rewrite Hc. apply IH. exact Hs.
    + intros H. apply andb_true_iff in H as [Hc Hs].
      apply negb_true_iff in Hc.
      rewrite str_in_cons. apply orb_false_iff. split.
      * cbn [startswith]. rewrite Ascii.eqb_sym, Hc. reflexivity.
      * apply IH. exact Hs.
Qed.

Lemma split_on_pieces_all (p : ascii -> bool) (sep : string -> option nat)
    (s : string) (skip : nat) :
  string_all p s = true -> Forall (fun piece => string_all p piece = true)
                             (split_on sep skip s).
Proof.
  revert skip. induction s as [| c s IH]; intros skip H.
  - constructor; [reflexivity | constructor].
  - cbn [string_all] in H. apply andb_true_iff in H as [Hc Hs].
    cbn [split_on]. destruct skip as [| k]; [| apply IH; exact Hs].
    destruct (sep (String c s)).
    + constructor; [reflexivity | apply IH; exact Hs].
    + specialize (IH 0%nat Hs). destruct (split_on sep 0 s) as [| piece rest].
      * constructor; [cbn [string_all]; rewrite Hc; reflexivity | constructor].
      * apply Forall_cons in IH as [Hpiece Hrest].
        constructor; [cbn [string_all]; rewrite Hc, Hpiece; reflexivity |].
        exact Hrest.
Qed.

Lemma sections_loop_no_entries (sections : list string) :
  Forall (fun section => section_entries section = []) sections ->
  sections_loop sections = inr ([], []).
Proof.
  induction 1 as [| section rest Hsection _ IH]; [reflexivity |].
  cbn [sections_loop]. rewrite Hsection, IH. reflexivity.
Qed.

(** X4. A text without ["["] has no entry: [parse_videos] returns no record
    and [parse_projects] returns two empty lists. *)
Theorem no_marker_no_record (text : string) :
  str_in "[" text = false ->
  parse_videos text = inr [] /\
  parse_projects text = inr {| github := []; docker := [] |}.
Proof.
  intros H. split.
  - unfold parse_videos. rewrite (marker_split_none text H). reflexivity.
  - unfold parse_projects.
    rewrite sections_loop_no_entries; [reflexivity |].
    eapply Forall_impl.
    + apply (split_on_pieces_all not_bracket).
      apply string_all_not_bracket. exact H.
    + simpl. intros section Hsection. unfold section_entries.
      rewrite marker_split_none; [reflexivity |].
      apply string_all_not_bracket. exact Hsection.
Qed.

Lemma no_marker_no_record_witness :
  parse_videos "No videos were found." = inr [] /\
  parse_projects "No videos were found."
  = inr {| github := []; docker := [] |}.
Proof.
  apply no_marker_no_record. vm_compute. reflexivity.
Defined.

End MarkerFacts.

(** ** Names of a project and the id of a video *)

Section RecordFacts.

Lemma project_of_entry_names (entry : string) (p : Project.t) :
  project_of_entry entry = inr (Some p) ->
  str_in "github.com" (Project.url p) = false ->
  Project.repo_name p = Project.title p /\ Project.creator p = "Unknown".
Proof.
  unfold project_of_entry.
  destruct (Nat.leb 2 (length (split (strip entry) nl))); [| discriminate].
  intros H. apply bind_ok in H as (line0 & _ & H).
  destruct (url_and_note _ _ _) as [url description].
  apply bind_ok in H as ([repo_name creator] & Hnames & H).
  injection H as <-. cbn [Project.url Project.repo_name Project.title
                            Project.creator].
  intros Hurl. unfold repo_and_creator in Hnames. rewrite Hurl in Hnames.
  injection Hnames as <- <-. split; reflexivity.
Qed.

(** Every record of the two lists comes from an entry. *)
Lemma entries_loop_Forall (P : Project.t -> Prop) (g d : bool)
    (entries : list string) (gh dk : list Project.t) :
  (forall entry p, project_of_entry entry = inr (Some p) -> P p) ->
  entries_loop g d entries = inr (gh, dk) ->
  Forall P gh /\ Forall P dk.
Proof.
  intros HP. revert gh dk.
  induction entries as [| entry rest IH]; intros gh dk H.
  - injection H as <- <-. split; constructor.
  - cbn [entries_loop] in H.
    apply bind_ok in H as (found & Hfound & H).
    apply bind_ok in H as ([gh' dk'] & Hrest & H).
    destruct (IH gh' dk' Hrest) as [Hgh Hdk].
    destruct found as [p |].
    + pose proof (HP entry p Hfound) as Hp.
      destruct (g || _).
      * injection H as <- <-. split; [constructor |]; assumption.
      * destruct (d || _); injection H as <- <-;
          split; try constructor; assumption.
    + injection H as <- <-. split; assumption.
Qed.

Lemma sections_loop_Forall (P : Project.t -> Prop) (sections : list string)
    (gh dk : list Project.t) :
  (forall entry p, project_of_entry entry = inr (Some p) -> P p) ->
  sections_loop sections = inr (gh, dk) ->
  Forall P gh /\ Forall P dk.
Proof.
  intros HP. revert gh dk.
  induction sections as [| section rest IH]; intros gh dk H.
  - injection H as <- <-. split; constructor.
  - cbn [sections_loop] in H.
    apply bind_ok in H as ([gh1 dk1] & Hhere & H).
    apply bind_ok in H as ([gh2 dk2] & Hrest & H).
    injection H as <- <-.
    destruct (entries_loop_Forall P _ _ _ _ _ HP Hhere) as [Hgh1 Hdk1].
    destruct (IH gh2 dk2 Hrest) as [Hgh2 Hdk2].
    split; apply Forall_app; auto.
Qed.

(** X5. The repository name and the creator are derived only from a github.com
    URL: every record filed under [docker] shows its title as the name and
    ["Unknown"] as the creator, and so does a record under [github] whose
    URL has no ["github.com"]. *)
Theorem docker_projects_have_no_creator (projects_text : string)
    (found : projects_dict) :
  parse_projects projects_text = inr found ->
  Forall (fun p =>
            Project.repo_name p = Project.title p /\
            Project.creator p = "Unknown")
    (docker found) /\
  Forall (fun p =>
            str_in "github.com" (Project.url p) = false ->
            Project.repo_name p = Project.title p /\
            Project.creator p = "Unknown")
    (github found).
Proof.
  unfold parse_projects. intros H.
  destruct (sections_loop_spec (split projects_text separator))
    as (gh & dk & Hloop & _ & Hdocker).
  rewrite Hloop in H. injection H as <-. cbn [github docker].
  destruct (sections_loop_Forall
              (fun p =>
                 str_in "github.com" (Project.url p) = false ->
                 Project.repo_name p = Project.title p /\
                 Project.creator p = "Unknown")
              _ _ _ project_of_entry_names Hloop) as [Hgh Hdk].
  split; [| exact Hgh].
  rewrite Forall_forall in Hdk. apply Forall_forall.
  intros p Hp. apply (Hdk p Hp). apply Hdocker. exact Hp.
Qed.

Lemma docker_projects_have_no_creator_witness :
  exists found,
    parse_projects docker_url_under_github = inr found /\
    Forall (fun p =>
              str_in "github.com" (Project.url p) = false ->
              Project.repo_name p = Project.title p /\
              Project.creator p = "Unknown")
      (github found).
Proof.
  eexists. split; [vm_compute; reflexivity |].
  eapply (proj2 (docker_projects_have_no_creator docker_url_under_github _ _)).
  Unshelve. vm_compute. reflexivity.
Defined.

Lemma index_head {A : Type} (l : list A) (a : A) :
  index l 0 = inr a -> exists rest, l = a :: rest.
Proof.
  unfold index. destruct l as [| b rest]; [discriminate |].
  simpl. intros [= ->]. eauto.
Qed.

(** The first piece of a split at one character does not contain it. *)
Lemma first_piece_free (sep : ascii) (s piece : string) (rest : list string) :
  split s (String sep EmptyString) = piece :: rest ->
  str_in (String sep EmptyString) piece = false.
Proof.
  revert piece rest. induction s as [| c s IH]; intros piece rest H.
  - injection H as <- <-. reflexivity.
  - rewrite (split_cons _ EmptyString) in H. unfold literal in H.
    destruct (startswith (String c s) (String sep EmptyString)) eqn:Hc.
    + injection H as <- <-. reflexivity.
    + destruct (split s (String sep EmptyString)) as [| piece' rest'] eqn:Hs.
      * pose proof (split_length s (String sep EmptyString)) as Hlen.
        rewrite Hs in Hlen. simpl in Hlen. lia.
      * injection H as <- <-. rewrite str_in_cons.
        rewrite (IH piece' rest' eq_refl), orb_false_r.
        cbn [startswith] in Hc |- *.
        destruct (Ascii.eqb sep c); [| reflexivity].
        destruct s; discriminate Hc.
Qed.

(** X6. The id of a video never carries the rest of the query: no ["&"] when
    it comes from a [watch?v=] URL, no ["?"] otherwise. *)
Theorem video_id_has_no_query (url video_id : string) :
  video_id_of url = inr video_id ->
  (str_in "youtube.com/watch?v=" url = true -> str_in "&" video_id = false) /\
  (str_in "youtube.com/watch?v=" url = false -> str_in "?" video_id = false).
Proof.
  unfold video_id_of. intros H.
  destruct (str_in "youtube.com/watch?v=" url).
  - split; [intros _ | discriminate].
    apply bind_ok in H as (after & _ & H).
    apply index_head in H as [rest H].
    exact (first_piece_free "&" after video_id rest H).
  - split; [discriminate | intros _].
    destruct (str_in "youtu.be/" url).
    + apply bind_ok in H as (after & _ & H).
      apply index_head in H as [rest H].
      exact (first_piece_free "?" after video_id rest H).
    + injection H as <-. reflexivity.
Qed.

Lemma video_id_has_no_query_witness :
  str_in "&" "ABC123" = false.
Proof.
  apply (proj1 (video_id_has_no_query
                  "https://youtube.com/watch?v=ABC123&t=5" "ABC123" eq_refl)).
  reflexivity.
Defined.

End RecordFacts.

(** ** Order of the calls, and what the help types contribute *)

Section CallFacts.

Context {LLM File : Type}.
Variable ag : agents LLM File.

(** The next call of a run: it raised or it returned. *)
Ltac next_call :=
  match goal with
  | |- context [match ?call with inl _ => _ | inr _ => _ end] =>
      destruct call; cbv beta iota zeta; cbn [fst snd]
  end.

Lemma run_pipeline_calls (subject chapter : string)
    (help_types : list string) (guide_mode : bool)
    (uploaded_file : option File) (engine_code : string) :
  let run := run_pipeline ag subject chapter help_types guide_mode
               uploaded_file engine_code [] in
  run.1 `prefix_of` planned_calls uploaded_file help_types /\
  (forall output, run.2 = inr output ->
                  run.1 = planned_calls uploaded_file help_types).
Proof.
  intros run.
  unfold run, run_pipeline, ingest, when_selected, planned_calls,
    Run.bind, call, ret, ok.
  destruct (selected "Videos" help_types),
    (selected "Related Projects" help_types),
    (selected "Quizzes/Exercises" help_types),
    (selected "Exams" help_types), uploaded_file as [file |];
    repeat next_call;
    (split;
     [apply (bool_decide_unpack _); vm_compute; exact I
     | intros output Hreturned; try discriminate Hreturned; reflexivity]).
Qed.





Lemma selected_ext (name : string) (help_types1 help_types2 : list string) :
  (name ∈ help_types1 <-> name ∈ help_types2) ->
  selected name help_types1 = selected name help_types2.
Proof. intros H. unfold selected. apply bool_decide_ext. exact H. Qed.

(** X8. A run depends on the selected help types only through the presence of
    the four names that gate an agent: their order, repetitions and any
    other entry, such as ["Summarize (Default)"], change nothing. *)
Theorem run_pipeline_help_types_as_set (subject chapter : string)
    (help_types1 help_types2 : list string) (guide_mode : bool)
    (uploaded_file : option File) (engine_code : string) :
  (forall name, name ∈ gating_help_types ->
                (name ∈ help_types1 <-> name ∈ help_types2)) ->
  run_pipeline ag subject chapter help_types1 guide_mode uploaded_file
    engine_code [] =
  run_pipeline ag subject chapter help_types2 guide_mode uploaded_file
    engine_code [].
Proof.
  intros H. unfold run_pipeline, when_selected.
  rewrite (selected_ext "Videos" help_types1 help_types2),
    (selected_ext "Related Projects" help_types1 help_types2),
    (selected_ext "Quizzes/Exercises" help_types1 help_types2),
    (selected_ext "Exams" help_types1 help_types2);
    [reflexivity | | | |];
    apply H; apply (bool_decide_unpack _); vm_compute; exact I.
Qed.

End CallFacts.

Section CallExamples.


Lemma run_pipeline_help_types_as_set_witness :
  run_pipeline (fixed_agents "results" "videos") "Mathematics" "Limits"
    ["Summarize (Default)"; "Exams"; "Videos"; "Exams"] true None
    "deepseek" [] =
  run_pipeline (fixed_agents "results" "videos") "Mathematics" "Limits"
    ["Videos"; "Exams"] true None "deepseek" [].
Proof.
  apply run_pipeline_help_types_as_set.
  intros name Hname.
  repeat (apply elem_of_cons in Hname as [-> | Hname];
          [apply (bool_decide_unpack _); vm_compute; exact I |]).
  inversion Hname.
Defined.

End CallExamples.

Section ScoreFacts.

Lemma score_loop_none (points : PyNum.t) (qs : list Question.t)
    (score : PyNum.t) :
  score_loop ∅ points qs score = score.
Proof.
  revert score. induction qs as [| q rest IH]; intros score; [reflexivity |].
  cbn [score_loop]. unfold answered_correctly.
  rewrite lookup_empty, bool_decide_eq_false_2 by discriminate. apply IH.
Qed.

Lemma graded_up_to_200 : graded_up_to 200 = true.
Proof. vm_compute. reflexivity. Qed.

Lemma graded_lookup (bound t n : nat) :
  graded_up_to bound = true -> (t <= bound)%nat -> (n <= t)%nat ->
  score_in_range (PyNum.round1 (summed (points_per_question t) n)) = true /\
  self_score_in_range (PyNum.round1 (summed (points_per_question t) n)) = true.
Proof.
  intros Htable Ht Hn. unfold graded_up_to in Htable.
  rewrite forallb_forall in Htable.
  assert (Hin : In t (seq 0 (S bound))) by (apply in_seq; lia).
  specialize (Htable t Hin). rewrite forallb_forall in Htable.
  assert (Hin' : In n (seq 0 (S t))) by (apply in_seq; lia).
  specialize (Htable n Hin'). cbv zeta in Htable.
  apply andb_true_iff in Htable. exact Htable.
Qed.

(** X12. For a quiz of at most 200 questions, whatever the answers, the
    submitted score is between 0 and 20 and the self score computed from it
    for the roadmap is between 0 and 3. *)
Theorem score_and_self_score_in_range (quiz : quiz_data)
    (answers : gmap string string) :
  (length (questions quiz) <= 200)%nat ->
  score_in_range (submitted_score quiz answers) = true /\
  exists k, self_score (submitted_score quiz answers) = Some k /\ 0 <= k <= 3.
Proof.
  intros Hsize. unfold submitted_score. rewrite score_loop_sum.
  destruct (graded_lookup 200 (length (questions quiz))
              (correct_answers quiz answers) graded_up_to_200 Hsize
              (correct_answers_le quiz answers)) as [Hscore Hself].
  split; [exact Hscore |].
  unfold self_score_in_range in Hself.
  unfold summed, correct_answers in Hself.
  destruct (self_score _) as [k |]; [| discriminate Hself].
  exists k. split; [reflexivity |].
  apply andb_true_iff in Hself as [H1 H2].
  apply Z.leb_le in H1. apply Z.leb_le in H2. split; assumption.
Qed.

Lemma score_and_self_score_in_range_witness :
  score_in_range (submitted_score two_questions_parsed nine_answers) = true.
Proof.
  apply (score_and_self_score_in_range two_questions_parsed nine_answers).
  apply Nat.leb_le. vm_compute. reflexivity.
Defined.

Lemma planned_calls_ticked {File : Type} (uploaded_file : option File)
    (summarize videos projects quizzes exams : bool) :
  planned_calls uploaded_file
    (help_types_of summarize videos projects quizzes exams) =
  ["get_llm"] ++
  match uploaded_file with
  | Some _ => ["a3_adapter"]
  | None => ["a1_everything"; "a2_cleaner"]
  end ++
  ["a4_summarizer"] ++
  (if videos then ["a5_collector_videos"] else []) ++
  (if projects then ["a6_relations_projects"] else []) ++
  (if quizzes then ["a7_ai_companion_quiz"] else []) ++
  (if exams then ["a8_examiner"] else []).
Proof.
  destruct uploaded_file, summarize, videos, projects, quizzes, exams;
    vm_compute; reflexivity.
Qed.

(** X9. With the help types read from the five checkboxes, a run that returns
    has called, after the model handle, the ingestion branch and the
    summarizer, exactly the agents of the ticked boxes, in the order
    videos, projects, quiz, exams; the Summarize box changes nothing. *)
Theorem checkboxes_decide_the_calls {LLM File : Type} (ag : agents LLM File)
    (subject chapter : string) (summarize videos projects quizzes exams : bool)
    (guide_mode : bool) (uploaded_file : option File) (engine_code : string)
    (log : list string) (output : Output.t) :
  run_pipeline ag subject chapter
    (help_types_of summarize videos projects quizzes exams) guide_mode
    uploaded_file engine_code [] = (log, inr output) ->
  log =
    ["get_llm"] ++
    match uploaded_file with
    | Some _ => ["a3_adapter"]
    | None => ["a1_everything"; "a2_cleaner"]
    end ++
    ["a4_summarizer"] ++
    (if videos then ["a5_collector_videos"] else []) ++
    (if projects then ["a6_relations_projects"] else []) ++
    (if quizzes then ["a7_ai_companion_quiz"] else []) ++
    (if exams then ["a8_examiner"] else []).
Proof.
  intros Hrun.
  pose proof (run_pipeline_calls ag subject chapter
                (help_types_of summarize videos projects quizzes exams)
                guide_mode uploaded_file engine_code) as [_ Hall].
  cbv zeta in Hall. rewrite Hrun in Hall. cbn [fst snd] in Hall.
  rewrite (Hall output eq_refl). apply planned_calls_ticked.
Qed.

Lemma checkboxes_decide_the_calls_witness :
  (run_pipeline (fixed_agents "results" "videos") "Mathematics" "Limits"
     (help_types_of true true false false true) true None "deepseek" []).1
  = ["get_llm"; "a1_everything"; "a2_cleaner"; "a4_summarizer";
     "a5_collector_videos"; "a8_examiner"].
Proof.
  apply (checkboxes_decide_the_calls (fixed_agents "results" "videos")
           "Mathematics" "Limits" true true false false true true None
           "deepseek" _
           (Output.mk "results" "results" "" "Study notes" "videos" "" ""
              "exam.pdf")).
  vm_compute. reflexivity.
Defined.

End ScoreFacts.

(** ** Links *)

Section LinkFacts.

Lemma startswith_append_l (s p q : string) :
  startswith s (p +:+ q) = true -> startswith s p = true.
Proof.
  revert s. induction p as [| a p IH]; intros s H; [apply startswith_empty |].
  destruct s as [| b s]; [discriminate H |].
  rewrite append_cons in H. cbn [startswith] in H |- *.
  apply andb_true_iff in H as [Hab H].
  rewrite Hab. exact (IH s H).
Qed.

Lemma url_at_needs_http (s : string) :
  startswith s "http" = false -> url_at s = None.
Proof.
  intros H. unfold url_at. cbn [Re.match_atoms].
  destruct (startswith s "https://") eqn:Hs.
  { apply (startswith_append_l s "http" "s://") in Hs. congruence. }
  destruct (startswith s "http://") eqn:Hp.
  { apply (startswith_append_l s "http" "://") in Hp. congruence. }
  reflexivity.
Qed.

(** X13. A text without ["http"] is shown as it is. *)
Theorem format_links_without_http (text : string) :
  str_in "http" text = false -> format_links_as_clickable text = text.
Proof.
  unfold format_links_as_clickable.
  induction text as [| c text IH]; intros H; [reflexivity |].
  rewrite str_in_cons in H. apply orb_false_iff in H as [Hhere Hrest].
  cbn [sub_links]. rewrite (url_at_needs_http _ Hhere), (IH Hrest).
  reflexivity.
Qed.

Lemma format_links_without_http_witness :
  format_links_as_clickable "No exams were found." = "No exams were found.".
Proof. apply format_links_without_http. vm_compute. reflexivity. Defined.

Lemma startswith_self (p s : string) : startswith (p +:+ s) p = true.
Proof.
  induction p as [| a p IH]; [apply startswith_empty |].
  rewrite append_cons. cbn [startswith]. rewrite Ascii.eqb_refl. exact IH.
Qed.

Lemma drop_chars_append (p s : string) :
  drop_chars (String.length p) (p +:+ s) = s.
Proof.
  induction p as [| a p IH]; [destruct s; reflexivity |].
  rewrite append_cons. cbn [String.length drop_chars]. exact IH.
Qed.

(** A greedy class takes a whole word of the class when what follows is
    not of the class and the rest of the pattern matches there. *)
Lemma greedy_word (k : string -> option Re.matched) (m : Re.matched)
    (body rest : string) :
  string_all url_char body = true -> ends_url rest = true ->
  k rest = Some m ->
  Re.greedy url_char k (body +:+ rest) = Some (body, m).
Proof.
  intros Hbody Hrest Hk. induction body as [| a body IH].
  - change (EmptyString +:+ rest) with rest.
    destruct rest as [| c rest]; cbn [Re.greedy].
    + rewrite Hk. reflexivity.
    + cbn [ends_url] in Hrest. apply negb_true_iff in Hrest.
      rewrite Hrest, Hk. reflexivity.
  - cbn [string_all] in Hbody. apply andb_true_iff in Hbody as [Ha Hbody].
    rewrite append_cons. cbn [Re.greedy]. rewrite Ha, (IH Hbody). reflexivity.
Qed.

Lemma append_length (s t : string) :
  String.length (s +:+ t) = (String.length s + String.length t)%nat.
Proof.
  induction s as [| a s IH]; [reflexivity |].
  rewrite append_cons. cbn [String.length]. rewrite IH. reflexivity.
Qed.

Lemma append_assoc (s t u : string) : (s +:+ t) +:+ u = s +:+ (t +:+ u).
Proof.
  induction s as [| a s IH]; [reflexivity |].
  rewrite !append_cons, IH. reflexivity.
Qed.

Lemma plain_is_not_secure (s : string) :
  startswith ("http://" +:+ s) "https://" = false.
Proof. reflexivity. Qed.

Lemma url_at_url (secure : bool) (body rest : string) :
  body <> EmptyString ->
  string_all url_char body = true -> ends_url rest = true ->
  let url := (if secure then "https://" else "http://") +:+ body in
  url_at (url +:+ rest) = Some (url, String.length url).
Proof.
  intros Hne Hbody Hrest.
  destruct body as [| a body]; [congruence |].
  cbn [string_all] in Hbody. apply andb_true_iff in Hbody as [Ha Hbody].
  destruct secure; cbv zeta; unfold url_at; rewrite append_assoc.
  - cbn [Re.match_atoms].
    rewrite startswith_self, drop_chars_append, append_cons, Ha.
    erewrite greedy_word; [| exact Hbody | exact Hrest | reflexivity].
    cbn [Re.with_group option_map fst snd]. rewrite append_length.
    cbn [String.length]. do 2 f_equal. lia.
  - cbn [Re.match_atoms].
    rewrite plain_is_not_secure.
    rewrite startswith_self, drop_chars_append, append_cons, Ha.
    erewrite greedy_word; [| exact Hbody | exact Hrest | reflexivity].
    cbn [Re.with_group option_map fst snd]. rewrite append_length.
    cbn [String.length]. do 2 f_equal. lia.
Qed.

Lemma sub_links_skip (w rest : string) :
  sub_links (String.length w) (w +:+ rest) = sub_links 0 rest.
Proof.
  induction w as [| a w IH]; [reflexivity |].
  rewrite append_cons. cbn [String.length sub_links]. exact IH.
Qed.

(** X14. A URL, followed by the end of the text or by a character that cannot
    be part of it, is replaced by its "Click Here" link, and the rest of
    the text is treated in the same way. *)
Theorem format_links_wraps_url (secure : bool) (body rest : string) :
  body <> EmptyString ->
  string_all url_char body = true -> ends_url rest = true ->
  let url := (if secure then "https://" else "http://") +:+ body in
  format_links_as_clickable (url +:+ rest) =
  "[Click Here](" +:+ url +:+ ")" +:+ format_links_as_clickable rest.
Proof.
  intros Hne Hbody Hrest url.
  pose proof (url_at_url secure body rest Hne Hbody Hrest) as Hat.
  cbv zeta in Hat. fold url in Hat.
  unfold format_links_as_clickable.
  assert (Hurl : exists c url', url = String c url')
    by (unfold url; destruct secure; eexists _, _; reflexivity).
  destruct Hurl as (c & url' & Hurl).
  rewrite Hurl in Hat |- *. rewrite append_cons. cbn [sub_links].
  rewrite <- append_cons, Hat. cbn [String.length Nat.pred].
  rewrite sub_links_skip. reflexivity.
Qed.

Lemma format_links_wraps_url_witness :
  format_links_as_clickable "https://example.org/exam.pdf (2019)" =
  "[Click Here](https://example.org/exam.pdf) (2019)".
Proof.
  refine (eq_trans
            (format_links_wraps_url true "example.org/exam.pdf" " (2019)"
               _ _ _) _).
  - discriminate.
  - vm_compute. reflexivity.
  - vm_compute. reflexivity.
  - vm_compute. reflexivity.
Defined.

End LinkFacts.

(** ** Session defaults *)

Section DefaultsFacts.

Lemma foldl_set_default (items : list (string * value))
    (session_state : gmap string value) :
  foldl set_default session_state items =
  session_state ∪ list_to_map items.
Proof.
  revert session_state.
  induction items as [| [key v] items IH]; intros session_state.
  - cbn. rewrite (right_id_L ∅ (∪)). reflexivity.
  - cbn [foldl]. rewrite IH, list_to_map_cons. unfold set_default. cbn [fst snd].
    destruct (session_state !! key) as [old |] eqn:Hkey.
    + apply map_eq. intros k. rewrite !lookup_union.
      destruct (decide (k = key)) as [-> |].
      * rewrite Hkey, lookup_insert_eq.
        destruct (list_to_map items !! key); reflexivity.
      * rewrite lookup_insert_ne by congruence. reflexivity.
    + rewrite <- insert_union_l. apply insert_union_r. exact Hkey.
Qed.

(** X15. [init_session_state] keeps every entry the session already has, adds
    the default of every key that is missing, touches no other key, and
    changes nothing when it is run again. *)
Theorem init_session_state_fills_missing (session_state : gmap string value) :
  (forall key,
      init_session_state session_state !! key =
      match session_state !! key with
      | Some v => Some v
      | None => (list_to_map defaults : gmap string value) !! key
      end) /\
  init_session_state (init_session_state session_state)
  = init_session_state session_state.
Proof.
  unfold init_session_state. rewrite !foldl_set_default. split.
  - intros key. rewrite lookup_union.
    destruct (session_state !! key), (list_to_map defaults !! key);
      reflexivity.
  - rewrite <- (assoc_L (∪)), (idemp_L (∪)). reflexivity.
Qed.

End DefaultsFacts.

(** ** Choosing options, submitting and retaking *)

Section QuizSessionFacts.

Lemma question_key_inj (q1 q2 : Question.t) :
  question_key q1 = question_key q2 ->
  Question.number q1 = Question.number q2.
Proof.
  unfold question_key. intros H. injection H as H.
  exact (pretty_Z_inj _ _ H).
Qed.

Lemma append_inj_suffix (s1 s2 t1 t2 : string) :
  String.length t1 = String.length t2 ->
  s1 +:+ t1 = s2 +:+ t2 -> s1 = s2 /\ t1 = t2.
Proof.
  revert s2. induction s1 as [| c s1 IH]; intros s2 Hlen H.
  - destruct s2 as [| c2 s2]; [split; [reflexivity | exact H] |].
    change (EmptyString +:+ t1) with t1 in H. subst t1.
    rewrite append_cons in Hlen. cbn [String.length] in Hlen.
    rewrite append_length in Hlen. lia.
  - destruct s2 as [| c2 s2].
    + change (EmptyString +:+ t2) with t2 in H. subst t2.
      rewrite append_cons in Hlen. cbn [String.length] in Hlen.
      rewrite append_length in Hlen. lia.
    + rewrite 2!append_cons in H. injection H as -> H.
      destruct (IH s2 Hlen H) as [-> ->]. split; reflexivity.
Qed.

(** Two option buttons with option keys of the same length have the same
    key only for the same question number and the same option. *)
Lemma button_key_inj (q1 q2 : Question.t) (o1 o2 : string) :
  String.length o1 = String.length o2 ->
  button_key q1 o1 = button_key q2 o2 ->
  Question.number q1 = Question.number q2 /\ o1 = o2.
Proof.
  unfold button_key. intros Hlen H.
  rewrite !append_cons in H. change (EmptyString +:+ ?x) with x in H.
  injection H as H.
  apply append_inj_suffix in H as [Hkey Hoption].
  - change (EmptyString +:+ ?x) with x in Hkey, Hoption.
    split; [exact (pretty_Z_inj _ _ Hkey) |].
    injection Hoption as Hoption. exact Hoption.
  - cbn [String.length]. change (EmptyString +:+ ?x) with x. congruence.
Qed.

(** The option buttons of one question, drawn with keys that are free. *)
Lemma option_buttons_free (pressed : option string) (q : Question.t)
    (options : list (string * string)) (taken : list string) :
  NoDup (map (button_key q) options.*1 ++ taken) ->
  (forall o, o ∈ options.*1 -> pressed <> Some (button_key q o)) ->
  option_buttons pressed q options taken =
  inr (NotPressed (reverse (map (button_key q) options.*1) ++ taken)).
Proof.
  revert taken. induction options as [| [o text] rest IH];
    intros taken Hnodup Hpressed; [reflexivity |].
  cbn [option_buttons]. cbn [fmap list_fmap fst map app] in Hnodup.
  apply NoDup_cons in Hnodup as [Hfresh Hnodup].
  rewrite bool_decide_eq_false_2
    by (intros Hin; apply Hfresh; apply elem_of_app; right; exact Hin).
  rewrite bool_decide_eq_false_2
    by (apply Hpressed; apply elem_of_cons; left; reflexivity).
  rewrite IH.
  - cbn [fmap list_fmap fst map]. rewrite reverse_cons, <- app_assoc.
    reflexivity.
  - eapply NoDup_Permutation_proper;
      [symmetry; apply Permutation_middle |].
    apply NoDup_cons. split; [exact Hfresh | exact Hnodup].
  - intros o' Ho'. apply Hpressed. apply elem_of_cons. right. exact Ho'.
Qed.

(** The option buttons of one question when one of them was pressed. *)
Lemma option_buttons_pressed (pressed : string) (q : Question.t)
    (options : list (string * string)) (taken : list string) :
  NoDup (map (button_key q) options.*1 ++ taken) ->
  pressed ∈ map (button_key q) options.*1 ->
  exists o,
    option_buttons (Some pressed) q options taken = inr (Pressed q o) /\
    o ∈ options.*1 /\ pressed = button_key q o.
Proof.
  revert taken. induction options as [| [o1 text] rest IH];
    intros taken Hnodup Hin; [inversion Hin |].
  cbn [option_buttons]. cbn [fmap list_fmap fst map app] in Hnodup, Hin.
  apply NoDup_cons in Hnodup as [Hfresh Hnodup].
  rewrite bool_decide_eq_false_2
    by (intros Htaken; apply Hfresh; apply elem_of_app; right; exact Htaken).
  destruct (bool_decide (Some pressed = Some (button_key q o1))) eqn:Hhere.
  - apply bool_decide_eq_true_1 in Hhere. injection Hhere as Hhere.
    exists o1. split; [reflexivity |].
    split; [apply elem_of_cons; left; reflexivity | exact Hhere].
  - apply bool_decide_eq_false_1 in Hhere.
    destruct (IH (button_key q o1 :: taken)) as (o2 & Hrun & Ho2 & Hkey2).
    + eapply NoDup_Permutation_proper;
        [symmetry; apply Permutation_middle |].
      apply NoDup_cons. split; [exact Hfresh | exact Hnodup].
    + apply elem_of_cons in Hin as [-> | Hin]; [| exact Hin].
      exfalso. apply Hhere. reflexivity.
    + exists o2. split; [exact Hrun |].
      split; [apply elem_of_cons; right; exact Ho2 | exact Hkey2].
Qed.

Lemma button_keys_cons (q : Question.t) (qs : list Question.t) :
  button_keys (q :: qs) =
  map (button_key q) (Question.options q).*1 ++ button_keys qs.
Proof. reflexivity. Qed.

Lemma elem_of_button_keys (key : string) (qs : list Question.t) :
  key ∈ button_keys qs ->
  exists q o, q ∈ qs /\ o ∈ (Question.options q).*1 /\ key = button_key q o.
Proof.
  unfold button_keys. intros H. apply list_elem_of_In, in_flat_map in H.
  destruct H as (q & Hq & Hkey). apply in_map_iff in Hkey as (o & <- & Ho).
  exists q, o. split; [apply list_elem_of_In; exact Hq |].
  split; [apply list_elem_of_In; exact Ho | reflexivity].
Qed.

(** No option button is pressed: the loop draws every button when no two
    keys are the same. *)
Lemma question_buttons_free (qs : list Question.t) (taken : list string) :
  NoDup (button_keys qs ++ taken) ->
  question_buttons None qs taken =
  inr (NotPressed (reverse (button_keys qs) ++ taken)).
Proof.
  revert taken. induction qs as [| q rest IH]; intros taken Hnodup;
    [reflexivity |].
  cbn [question_buttons]. rewrite button_keys_cons in Hnodup.
  rewrite <- app_assoc in Hnodup.
  rewrite option_buttons_free.
  - cbn [page_bind]. rewrite IH.
    + rewrite button_keys_cons, reverse_app, <- app_assoc. reflexivity.
    + apply NoDup_app in Hnodup as (Hq & Hdisjoint & Hrest).
      apply NoDup_app in Hrest as (Hrest & Hdisjoint' & Htaken).
      apply NoDup_app. split; [exact Hrest |]. split.
      * intros key Hkey [Hin | Hin]%elem_of_app.
        -- rewrite elem_of_reverse in Hin.
           apply (Hdisjoint key Hin). apply elem_of_app. left. exact Hkey.
        -- exact (Hdisjoint' key Hkey Hin).
      * apply NoDup_app. split; [rewrite reverse_Permutation; exact Hq |].
        split; [| exact Htaken].
        intros key Hin Hkey. rewrite elem_of_reverse in Hin.
        apply (Hdisjoint key Hin). apply elem_of_app. right. exact Hkey.
  - apply NoDup_app in Hnodup as (Hq & Hdisjoint & Hrest).
    apply NoDup_app in Hrest as (Hrest & Hdisjoint' & Htaken).
    apply NoDup_app. split; [exact Hq |]. split; [| exact Htaken].
    intros key Hin Hkey. apply (Hdisjoint key Hin).
    apply elem_of_app. right. exact Hkey.
  - intros o _. discriminate.
Qed.

(** An option button is pressed: the loop stops at the first button drawn
    with the key. *)
Lemma question_buttons_pressed (pressed : string) (qs : list Question.t)
    (taken : list string) :
  NoDup (button_keys qs ++ taken) ->
  pressed ∈ button_keys qs ->
  exists q o,
    question_buttons (Some pressed) qs taken = inr (Pressed q o) /\
    q ∈ qs /\ o ∈ (Question.options q).*1 /\ pressed = button_key q o.
Proof.
  revert taken. induction qs as [| q1 rest IH]; intros taken Hnodup Hin;
    [inversion Hin |].
  cbn [question_buttons]. rewrite button_keys_cons in Hnodup, Hin.
  rewrite <- app_assoc in Hnodup.
  apply NoDup_app in Hnodup as (Hq1 & Hdisjoint & Hrest).
  apply NoDup_app in Hrest as (Hrest & Hdisjoint' & Htaken).
  assert (Hhere : NoDup (map (button_key q1) (Question.options q1).*1 ++ taken)).
  { apply NoDup_app. split; [exact Hq1 |]. split; [| exact Htaken].
    intros key Hkey Hkey'. apply (Hdisjoint key Hkey).
    apply elem_of_app. right. exact Hkey'. }
  destruct (decide (pressed ∈ map (button_key q1) (Question.options q1).*1))
    as [Hfound | Hnone].
  - destruct (option_buttons_pressed pressed q1 (Question.options q1) taken
                Hhere Hfound) as (o & Hrun & Ho & Hkey).
    rewrite Hrun. cbn [page_bind]. exists q1, o.
    split; [reflexivity |].
    split; [apply elem_of_cons; left; reflexivity |]. split; assumption.
  - rewrite option_buttons_free; [| exact Hhere |].
    + cbn [page_bind].
      destruct (IH (reverse (map (button_key q1) (Question.options q1).*1)
                      ++ taken))
        as (q & o & Hrun & Hq & Ho & Hkey).
      * apply NoDup_app. split; [exact Hrest |]. split.
        -- intros key Hkey [Hkey' | Hkey']%elem_of_app.
           ++ rewrite elem_of_reverse in Hkey'.
              apply (Hdisjoint key Hkey'). apply elem_of_app. left. exact Hkey.
           ++ exact (Hdisjoint' key Hkey Hkey').
        -- apply NoDup_app. split; [rewrite reverse_Permutation; exact Hq1 |].
           split; [| exact Htaken].
           intros key Hkey Hkey'. rewrite elem_of_reverse in Hkey.
           apply (Hdisjoint key Hkey). apply elem_of_app. right. exact Hkey'.
      * apply elem_of_app in Hin as [Hin | Hin]; [contradiction | exact Hin].
      * exists q, o. split; [exact Hrun |].
        split; [apply elem_of_cons; right; exact Hq |]. split; assumption.
    + intros o Ho Hpressed. apply Hnone. injection Hpressed as ->.
      apply list_elem_of_In, in_map, list_elem_of_In. exact Ho.
Qed.

Lemma letter_length (o : string) :
  o ∈ ["A"; "B"; "C"; "D"] -> String.length o = 1%nat.
Proof.
  intros H. repeat (apply elem_of_cons in H as [-> | H]; [reflexivity |]).
  inversion H.
Qed.

(** The questions of a parsed quiz have the option keys A to D, so that
    distinct numbers give distinct button keys. *)
Lemma button_keys_nodup (qs : list Question.t) :
  Forall (fun q => (Question.options q).*1 = ["A"; "B"; "C"; "D"]) qs ->
  NoDup (map Question.number qs) ->
  NoDup (button_keys qs).
Proof.
  induction 1 as [| q rest Hletters Hrest IH]; intros Hnodup; [constructor |].
  cbn [map] in Hnodup. apply NoDup_cons in Hnodup as [Hfresh Hnodup].
  rewrite button_keys_cons, Hletters. apply NoDup_app.
  split; [| split; [| exact (IH Hnodup)]].
  - cbn [map].
    repeat (apply NoDup_cons; split;
            [intros Hin;
             repeat (apply elem_of_cons in Hin as [Hin | Hin];
                     [apply button_key_inj in Hin as [_ Hin];
                      [discriminate Hin | reflexivity] |]);
             inversion Hin |]).
    constructor.
  - intros key Hkey Hkey'.
    apply list_elem_of_In, in_map_iff in Hkey as (o & <- & Ho).
    apply list_elem_of_In in Ho.
    apply elem_of_button_keys in Hkey' as (q' & o' & Hq' & Ho' & Hsame).
    rewrite Forall_forall in Hrest. rewrite (Hrest q' Hq') in Ho'.
    apply button_key_inj in Hsame as [Hnumber _].
    + apply Hfresh. rewrite Hnumber.
      apply list_elem_of_In, in_map, list_elem_of_In. exact Hq'.
    + rewrite (letter_length o Ho), (letter_length o' Ho'). reflexivity.
Qed.

(** The run down to the option buttons, for a session that holds a study
    pack and a quiz that parses, with a score the progress bar accepts. *)
Lemma quizzes_tab_quiz (pressed : option string) (state : Session.t)
    (quiz : quiz_data) :
  Session.mas_output state <> None ->
  Session.quizzes state <> "" ->
  parse_quiz (Session.quizzes state) = inr quiz ->
  progress (progress_value (Session.quiz_score state)) = inr tt ->
  quizzes_tab pressed state =
  if Session.quiz_submitted state
  then inr (Some (quiz, NotPressed []))
  else
    match question_buttons pressed (questions quiz) [] with
    | inl e => inl e
    | inr buttons => inr (Some (quiz, buttons))
    end.
Proof.
  intros Hpack Htext Hquiz Hbar. unfold quizzes_tab.
  destruct (Session.mas_output state) as [output |]; [| contradiction].
  assert (Hvideos : exists videos,
             (if String.eqb (Session.videos state) "" then ok []
              else parse_videos (Session.videos state)) = inr videos).
  { destruct (String.eqb _ _); [eexists; reflexivity |].
    apply parse_videos_total. }
  destruct Hvideos as [videos ->].
  assert (Hprojects : exists found,
             (if String.eqb (Session.projects state) ""
              then ok {| github := []; docker := [] |}
              else parse_projects (Session.projects state)) = inr found).
  { destruct (String.eqb _ _); [eexists; reflexivity |].
    apply parse_projects_total. }
  destruct Hprojects as [found ->]. cbn [python page_bind].
  destruct (String.eqb (Session.quizzes state) "") eqn:Hempty.
  { apply String.eqb_eq in Hempty. contradiction. }
  rewrite Hquiz, Hbar. cbn [python page_bind].
  destruct (Session.quiz_submitted state); reflexivity.
Qed.

(** In an open quiz with distinct numbers, no option button pressed, every
    button is drawn and the run reaches the buttons below them. *)
Lemma quizzes_tab_open (state : Session.t) (quiz : quiz_data) :
  Session.mas_output state <> None ->
  Session.quizzes state <> "" ->
  parse_quiz (Session.quizzes state) = inr quiz ->
  NoDup (map Question.number (questions quiz)) ->
  progress (progress_value (Session.quiz_score state)) = inr tt ->
  Session.quiz_submitted state = false ->
  exists taken, quizzes_tab None state = inr (Some (quiz, NotPressed taken)).
Proof.
  intros Hpack Htext Hquiz Hnodup Hbar Hopen.
  rewrite (quizzes_tab_quiz None state quiz Hpack Htext Hquiz Hbar), Hopen.
  rewrite question_buttons_free; [eexists; reflexivity |].
  rewrite app_nil_r. apply button_keys_nodup; [| exact Hnodup].
  eapply Forall_impl; [exact (parsed_questions_letters _ _ Hquiz) |].
  simpl. intros q [_ Hkeys]. exact Hkeys.
Qed.

Lemma submit_answers_open (state : Session.t) (quiz : quiz_data) :
  Session.mas_output state <> None ->
  Session.quizzes state <> "" ->
  parse_quiz (Session.quizzes state) = inr quiz ->
  NoDup (map Question.number (questions quiz)) ->
  progress (progress_value (Session.quiz_score state)) = inr tt ->
  Session.quiz_submitted state = false ->
  exists state',
    submit_answers state = inr state' /\
    Session.quiz_submitted state' = true /\
    Session.quiz_score state' =
      submitted_score quiz (Session.quiz_answers state).
Proof.
  intros Hpack Htext Hquiz Hnodup Hbar Hopen. unfold submit_answers.
  destruct (quizzes_tab_open state quiz) as [taken ->]; try assumption.
  cbn [page_bind]. rewrite Hopen. eexists. split; [reflexivity |].
  split; reflexivity.
Qed.

(** C1, as amended. In a session that holds a study pack whose quiz is
    not submitted, has questions with distinct numbers, and whose score is
    one the progress bar accepts, submitting a quiz of [T] questions of
    which [N] are answered with their correct letter sets the score to the
    sum of [N] float additions of [20 / T] to 0, rounded to one decimal. For
    [T = 0] the score is 0. For fewer than 48 questions the score equals
    [round(N * 20 / T, 1)]. *)
Theorem submit_answers_score (state : Session.t) (quiz : quiz_data) :
  Session.mas_output state <> None ->
  Session.quizzes state <> "" ->
  parse_quiz (Session.quizzes state) = inr quiz ->
  NoDup (map Question.number (questions quiz)) ->
  progress (progress_value (Session.quiz_score state)) = inr tt ->
  Session.quiz_submitted state = false ->
  exists state',
    submit_answers state = inr state' /\
    Session.quiz_submitted state' = true /\
    let t := length (questions quiz) in
    let n := correct_answers quiz (Session.quiz_answers state) in
    Session.quiz_score state'
      = PyNum.round1 (summed (points_per_question t) n) /\
    (t = 0%nat -> Session.quiz_score state' = PyNum.Int 0) /\
    ((0 < t < 48)%nat ->
     PyNum.eqb (Session.quiz_score state') (closed_form n t) = true).
Proof.
  intros Hpack Htext Hquiz Hnodup Hbar Hopen.
  destruct (submit_answers_open state quiz)
    as (state' & Hsubmit & Hdone & Hscore); try assumption.
  exists state'. split; [exact Hsubmit |]. split; [exact Hdone |].
  rewrite Hscore. unfold submitted_score.
  rewrite score_loop_sum.
  fold (correct_answers quiz (Session.quiz_answers state)).
  split; [reflexivity |]. split.
  - intros Hzero.
    pose proof (correct_answers_le quiz (Session.quiz_answers state)) as Hle.
    rewrite Hzero in Hle.
    assert (Hn : correct_answers quiz (Session.quiz_answers state) = 0%nat)
      by lia.
    rewrite Hn. reflexivity.
  - intros Ht. apply small_quiz_closed_form; [exact Ht |].
    apply correct_answers_le.
Qed.

(** C10. The score a run of "Submit Answers" leaves, or what stops the
    run, is the same for two answer maps that agree on the keys of the
    quiz's questions: an answer stored under any other key has no effect.
    In a session that holds a study pack whose quiz is not submitted, has
    questions with distinct numbers, and whose score is one the progress
    bar accepts, the run does compute a score, from the answers of the
    quiz's questions. *)
Theorem submit_answers_ignores_other_keys (state : Session.t)
    (answers : gmap string string) (quiz : quiz_data) :
  parse_quiz (Session.quizzes state) = inr quiz ->
  (forall q, q ∈ questions quiz ->
     Session.quiz_answers state !! question_key q
     = answers !! question_key q) ->
  score_after (submit_answers state)
  = score_after (submit_answers (with_answers answers state)) /\
  (Session.mas_output state <> None ->
   Session.quizzes state <> "" ->
   NoDup (map Question.number (questions quiz)) ->
   progress (progress_value (Session.quiz_score state)) = inr tt ->
   Session.quiz_submitted state = false ->
   score_after (submit_answers state)
   = inr (submitted_score quiz (Session.quiz_answers state)) /\
   score_after (submit_answers (with_answers answers state))
   = inr (submitted_score quiz (Session.quiz_answers state))).
Proof.
  intros Hquiz Hagree.
  assert (Hscore : submitted_score quiz (Session.quiz_answers state)
                   = submitted_score quiz answers).
  { unfold submitted_score. f_equal. apply score_loop_agree. exact Hagree. }
  split.
  - unfold submit_answers, quizzes_tab.
    cbn [with_answers Session.mas_output Session.videos Session.projects
         Session.quizzes Session.quiz_score Session.quiz_submitted
         Session.quiz_answers].
    destruct (Session.mas_output state); [| reflexivity].
    destruct (python (if String.eqb (Session.videos state) "" then _ else _));
      [reflexivity |].
    destruct (python (if String.eqb (Session.projects state) ""
                      then _ else _)); [reflexivity |].
    cbn [page_bind].
    destruct (String.eqb (Session.quizzes state) ""); [reflexivity |].
    rewrite Hquiz. cbn [python page_bind].
    destruct (progress _); [reflexivity |]. cbn [page_bind].
    destruct (Session.quiz_submitted state) eqn:Hdone.
    + reflexivity.
    + destruct (question_buttons None (questions quiz) []);
        [reflexivity |].
      unfold drawn_ok.
      cbn [page_bind score_after Session.quiz_score with_answers
           Session.quiz_answers].
      rewrite Hscore. reflexivity.
  - intros Hpack Htext Hnodup Hbar Hopen.
    destruct (submit_answers_open state quiz)
      as (state1 & -> & _ & Hscore1); try assumption.
    destruct (submit_answers_open (with_answers answers state) quiz)
      as (state2 & -> & _ & Hscore2); try assumption.
    cbn [score_after]. rewrite Hscore1, Hscore2.
    cbn [with_answers Session.quiz_answers]. rewrite Hscore.
    split; reflexivity.
Qed.

Lemma select_answer_open (q : Question.t) (quiz : quiz_data)
    (state : Session.t) :
  Session.mas_output state <> None ->
  Session.quizzes state <> "" ->
  parse_quiz (Session.quizzes state) = inr quiz ->
  NoDup (map Question.number (questions quiz)) ->
  progress (progress_value (Session.quiz_score state)) = inr tt ->
  Session.quiz_submitted state = false ->
  q ∈ questions quiz ->
  exists state',
    select_answer q (Question.correct q) state = inr state' /\
    Session.mas_output state' = Session.mas_output state /\
    Session.quizzes state' = Session.quizzes state /\
    Session.quiz_score state' = Session.quiz_score state /\
    Session.quiz_submitted state' = false /\
    Session.quiz_answers state' =
      <[question_key q := Question.correct q]> (Session.quiz_answers state).
Proof.
  intros Hpack Htext Hquiz Hnodup Hbar Hopen Hq. unfold select_answer.
  rewrite (quizzes_tab_quiz _ state quiz Hpack Htext Hquiz Hbar), Hopen.
  pose proof (parsed_questions_letters _ _ Hquiz) as Hletters.
  rewrite Forall_forall in Hletters.
  destruct (Hletters q Hq) as [Hcorrect Hkeys].
  destruct (question_buttons_pressed
              (button_key q (Question.correct q)) (questions quiz) [])
    as (q' & o' & Hrun & Hq' & Ho' & Hsame).
  { rewrite app_nil_r. apply button_keys_nodup; [| exact Hnodup].
    apply Forall_forall. intros x Hx. exact (proj2 (Hletters x Hx)). }
  { unfold button_keys.
    apply list_elem_of_In, in_flat_map. exists q.
    split; [apply list_elem_of_In; exact Hq |].
    apply in_map, list_elem_of_In. rewrite Hkeys. exact Hcorrect. }
  rewrite Hrun. cbn [page_bind].
  rewrite (proj2 (Hletters q' Hq')) in Ho'.
  apply button_key_inj in Hsame as [Hnumber Hoption];
    [| rewrite (letter_length _ Hcorrect), (letter_length _ Ho');
       reflexivity].
  subst o'.
  assert (Hkey : question_key q' = question_key q)
    by (unfold question_key; rewrite Hnumber; reflexivity).
  rewrite Hkey. eexists. split; [reflexivity |].
  repeat split; assumption.
Qed.

(** After the correct option of each listed question was chosen, the
    answers hold the correct letter of each of them. *)
Lemma select_correct_answers (quiz : quiz_data) (qs : list Question.t)
    (state : Session.t) :
  Session.mas_output state <> None ->
  Session.quizzes state <> "" ->
  parse_quiz (Session.quizzes state) = inr quiz ->
  NoDup (map Question.number (questions quiz)) ->
  progress (progress_value (Session.quiz_score state)) = inr tt ->
  Session.quiz_submitted state = false ->
  qs ⊆ questions quiz ->
  NoDup (map Question.number qs) ->
  exists state',
    select_correct qs state = inr state' /\
    Session.mas_output state' = Session.mas_output state /\
    Session.quizzes state' = Session.quizzes state /\
    Session.quiz_score state' = Session.quiz_score state /\
    Session.quiz_submitted state' = false /\
    (forall q, q ∈ qs ->
       Session.quiz_answers state' !! question_key q
       = Some (Question.correct q)) /\
    (forall key, (forall q, q ∈ qs -> question_key q <> key) ->
       Session.quiz_answers state' !! key = Session.quiz_answers state !! key).
Proof.
  revert state.
  induction qs as [| q rest IH];
    intros state Hpack Htext Hquiz Hdistinct Hbar Hopen Hsub Hnodup.
  - exists state. split; [reflexivity |]. repeat split; auto.
    intros q Hq. inversion Hq.
  - cbn [map] in Hnodup. apply NoDup_cons in Hnodup as [Hfresh Hnodup].
    assert (Hq : q ∈ questions quiz)
      by (apply Hsub; apply elem_of_cons; left; reflexivity).
    assert (Hrest : rest ⊆ questions quiz)
      by (intros x Hx; apply Hsub; apply elem_of_cons; right; exact Hx).
    destruct (select_answer_open q quiz state)
      as (state1 & Hselect & Hpack1 & Htext1 & Hscore1 & Hopen1 & Hanswers1);
      try assumption.
    destruct (IH state1)
      as (state' & Hall & Hpack' & Htext' & Hscore' & Hopen' & Hset & Hkept);
      try assumption; try (rewrite ?Hpack1, ?Htext1, ?Hscore1; assumption).
    exists state'. cbn [select_correct]. rewrite Hselect. cbn [page_bind].
    split; [exact Hall |]. split; [congruence |]. split; [congruence |].
    split; [congruence |]. split; [exact Hopen' |].
    split.
    + intros q' [-> | Hq']%elem_of_cons; [| apply Hset; exact Hq'].
      rewrite Hkept, Hanswers1; [apply lookup_insert_eq |].
      intros q' Hq' Hkey. apply question_key_inj in Hkey.
      apply Hfresh. rewrite <- Hkey.
      apply list_elem_of_In, in_map, list_elem_of_In. exact Hq'.
    + intros key Hkey. rewrite Hkept, Hanswers1.
      * apply lookup_insert_ne. apply Hkey. apply elem_of_cons. left. reflexivity.
      * intros q' Hq'. apply Hkey. apply elem_of_cons. right. exact Hq'.
Qed.

Lemma perfect_up_to_47 : perfect_up_to 47 = true.
Proof. vm_compute. reflexivity. Qed.

Lemma all_correct (answers : gmap string string) (qs : list Question.t) :
  (forall q, q ∈ qs -> answers !! question_key q = Some (Question.correct q)) ->
  length (List.filter (answered_correctly answers) qs) = length qs.
Proof.
  induction qs as [| q rest IH]; intros H; [reflexivity |].
  cbn [List.filter]. unfold answered_correctly at 1.
  rewrite bool_decide_eq_true_2
    by (apply H; apply elem_of_cons; left; reflexivity).
  cbn [length]. f_equal. apply IH.
  intros q' Hq'. apply H. apply elem_of_cons. right. exact Hq'.
Qed.

(** X10. In a session that holds a study pack whose quiz is not submitted,
    has between 1 and 47 questions with distinct numbers, and whose score
    is one the progress bar accepts, choosing the correct option of every
    question and submitting gives the full score 20. *)
Theorem perfect_answers_score_20 (state : Session.t) (quiz : quiz_data) :
  Session.mas_output state <> None ->
  Session.quizzes state <> "" ->
  parse_quiz (Session.quizzes state) = inr quiz ->
  NoDup (map Question.number (questions quiz)) ->
  progress (progress_value (Session.quiz_score state)) = inr tt ->
  Session.quiz_submitted state = false ->
  (0 < length (questions quiz) < 48)%nat ->
  exists answered submitted,
    select_correct (questions quiz) state = inr answered /\
    submit_answers answered = inr submitted /\
    Session.quiz_submitted submitted = true /\
    PyNum.eqb (Session.quiz_score submitted) (PyNum.Int 20) = true.
Proof.
  intros Hpack Htext Hquiz Hnodup Hbar Hopen Hsize.
  destruct (select_correct_answers quiz (questions quiz) state)
    as (answered & Hselect & Hpack' & Htext' & Hscore' & Hopen' & Hset & _);
    auto.
  destruct (submit_answers_open answered quiz)
    as (submitted & Hsubmit & Hdone & Hscore);
    try assumption; try (rewrite ?Hpack', ?Htext', ?Hscore'; assumption).
  exists answered, submitted.
  split; [exact Hselect |]. split; [exact Hsubmit |]. split; [exact Hdone |].
  rewrite Hscore. unfold submitted_score.
  rewrite score_loop_sum, (all_correct _ _ Hset).
  pose proof perfect_up_to_47 as Htable. unfold perfect_up_to in Htable.
  rewrite forallb_forall in Htable.
  apply (Htable (length (questions quiz))). apply in_seq. lia.
Qed.

(** X11. In a session that holds a study pack whose quiz is submitted, has
    questions with distinct numbers, and whose score is one the progress
    bar accepts, retaking empties the answers and sets the score to 0
    whatever they were, leaving the quiz open and the rest of the session
    as it was; submitting right after scores 0 again. *)
Theorem retake_then_submit (state : Session.t) (quiz : quiz_data) :
  Session.mas_output state <> None ->
  Session.quizzes state <> "" ->
  parse_quiz (Session.quizzes state) = inr quiz ->
  NoDup (map Question.number (questions quiz)) ->
  progress (progress_value (Session.quiz_score state)) = inr tt ->
  Session.quiz_submitted state = true ->
  exists retaken submitted,
    retake_quiz state = inr retaken /\
    Session.quiz_answers retaken = ∅ /\
    Session.quiz_score retaken = PyNum.Int 0 /\
    Session.quiz_submitted retaken = false /\
    Session.quizzes retaken = Session.quizzes state /\
    Session.study_history retaken = Session.study_history state /\
    submit_answers retaken = inr submitted /\
    Session.quiz_score submitted = PyNum.Int 0 /\
    Session.quiz_submitted submitted = true.
Proof.
  intros Hpack Htext Hquiz Hnodup Hbar Hdone.
  destruct (retake_quiz state) as [e | retaken] eqn:Hretake.
  { unfold retake_quiz in Hretake.
    rewrite (quizzes_tab_quiz None state quiz Hpack Htext Hquiz Hbar), Hdone
      in Hretake.
    discriminate Hretake. }
  unfold retake_quiz in Hretake.
  rewrite (quizzes_tab_quiz None state quiz Hpack Htext Hquiz Hbar), Hdone
    in Hretake.
  injection Hretake as <-.
  match goal with
  | |- exists r s, inr ?x = inr r /\ _ => set (retaken := x)
  end.
  destruct (submit_answers_open retaken quiz)
    as (submitted & Hsubmit & Hsubmitted & Hscore);
    try assumption; try reflexivity.
  exists retaken, submitted. repeat (split; [reflexivity |]).
  split; [exact Hsubmit |]. split; [| exact Hsubmitted].
  rewrite Hscore. unfold submitted_score.
  cbn [retaken Session.quiz_answers]. rewrite score_loop_none. reflexivity.
Qed.

End QuizSessionFacts.

Section QuizSessionExamples.

Lemma submit_answers_score_witness :
  exists state',
    submit_answers (session_with two_questions nine_answers) = inr state' /\
    Session.quiz_score state' = PyNum.Float 20%float.
Proof.
  destruct (submit_answers_score (session_with two_questions nine_answers)
              two_questions_parsed)
    as (state' & Hsubmit & _ & Hscore & _).
  - discriminate.
  - vm_compute. discriminate.
  - vm_compute. reflexivity.
  - apply (bool_decide_unpack _). vm_compute. exact I.
  - vm_compute. reflexivity.
  - reflexivity.
  - exists state'. split; [exact Hsubmit |].
    rewrite Hscore. vm_compute. reflexivity.
Defined.

(** C1 as stated fails: with 48 questions, numbered 1 to 48, of which 9 are
    answered correctly, the submitted score is the float 3.7 and
    [round(9 * 20 / 48, 1)] is the float 3.8. *)
Lemma submit_answers_48_questions :
  exists quiz state',
    parse_quiz quiz_of_48 = inr quiz /\
    length (questions quiz) = 48%nat /\
    map Question.number (questions quiz) = map Z.of_nat (seq 1 48) /\
    correct_answers quiz nine_answers = 9%nat /\
    submit_answers (session_with quiz_of_48 nine_answers) = inr state' /\
    Session.quiz_score state' = PyNum.Float 0x1.d99999999999ap+1%float /\
    closed_form 9 48 = PyNum.Float 0x1.e666666666666p+1%float /\
    PyNum.eqb (Session.quiz_score state') (closed_form 9 48) = false.
Proof.
  eexists _, _.
  split; [vm_compute; reflexivity |].
  split; [vm_compute; reflexivity |].
  split; [vm_compute; reflexivity |].
  split; [vm_compute; reflexivity |].
  split; [vm_compute; reflexivity |].
  split; [vm_compute; reflexivity |].
  split; vm_compute; reflexivity.
Qed.

Lemma submit_answers_ignores_other_keys_witness :
  score_after (submit_answers (session_with two_questions nine_answers))
  = inr (PyNum.Float 20%float) /\
  score_after (submit_answers (session_with two_questions two_answers))
  = inr (PyNum.Float 20%float).
Proof.
  destruct (submit_answers_ignores_other_keys
              (session_with two_questions nine_answers) two_answers
              two_questions_parsed) as [_ Hscore].
  - vm_compute. reflexivity.
  - intros q Hq.
    apply elem_of_cons in Hq as [-> | Hq]; [vm_compute; reflexivity |].
    apply elem_of_cons in Hq as [-> | Hq]; [vm_compute; reflexivity |].
    inversion Hq.
  - destruct Hscore as [Hnine Htwo].
    + discriminate.
    + vm_compute. discriminate.
    + apply (bool_decide_unpack _). vm_compute. exact I.
    + vm_compute. reflexivity.
    + reflexivity.
    + split; [rewrite Hnine | exact Htwo]; vm_compute; reflexivity.
Defined.

Lemma perfect_answers_score_20_witness :
  exists answered submitted,
    select_correct (questions two_questions_parsed)
      (session_with two_questions ∅) = inr answered /\
    Session.quiz_answers answered = two_answers /\
    submit_answers answered = inr submitted /\
    PyNum.eqb (Session.quiz_score submitted) (PyNum.Int 20) = true.
Proof.
  destruct (perfect_answers_score_20 (session_with two_questions ∅)
              two_questions_parsed)
    as (answered & submitted & Hselect & Hsubmit & _ & Hscore).
  - discriminate.
  - vm_compute. discriminate.
  - vm_compute. reflexivity.
  - apply (bool_decide_unpack _). vm_compute. exact I.
  - vm_compute. reflexivity.
  - reflexivity.
  - simpl. lia.
  - exists answered, submitted. split; [exact Hselect |].
    split; [| split; [exact Hsubmit | exact Hscore]].
    vm_compute in Hselect. injection Hselect as <-.
    vm_compute. reflexivity.
Defined.

Lemma retake_then_submit_witness :
  exists retaken submitted,
    Session.quiz_score graded_session = PyNum.Float 20%float /\
    retake_quiz graded_session = inr retaken /\
    Session.quiz_answers retaken = ∅ /\
    Session.quiz_score retaken = PyNum.Int 0 /\
    submit_answers retaken = inr submitted /\
    Session.quiz_score submitted = PyNum.Int 0.
Proof.
  destruct (retake_then_submit graded_session two_questions_parsed)
    as (retaken & submitted & Hretake & Hanswers & Hzero & _ & _ & _ &
        Hsubmit & Hscore & _).
  - discriminate.
  - vm_compute. discriminate.
  - vm_compute. reflexivity.
  - apply (bool_decide_unpack _). vm_compute. exact I.
  - vm_compute. reflexivity.
  - reflexivity.
  - exists retaken, submitted. split; [reflexivity |]. auto.
Defined.

(** A question number used twice stops the run at the first button of the
    second question that has it, so that the quiz cannot be submitted; a
    button drawn before that one still stores its answer. *)
Lemma repeated_number_stops_the_run :
  submit_answers (session_with repeated_number_quiz ∅)
  = inl (DuplicateElementKey "btn_q_2_A") /\
  exists state',
    select_answer
      (Question.mk 2 "What is it?"
         [("A", "one"); ("B", "two"); ("C", "three"); ("D", "four")] "A")
      "B" (session_with repeated_number_quiz ∅) = inr state' /\
    Session.quiz_answers state' !! "q_2" = Some "B".
Proof.
  split; [vm_compute; reflexivity |].
  eexists. split; vm_compute; reflexivity.
Qed.

End QuizSessionExamples.

(** ** What the handlers keep *)

Section HandlerFacts.

Context {LLM File : Type}.
Variable ag : agents LLM File.

(** While the quiz is submitted the run draws no option button. *)
Lemma quizzes_tab_submitted (pressed : option string) (state : Session.t)
    (quiz : quiz_data) (buttons : drawn) :
  Session.quiz_submitted state = true ->
  quizzes_tab pressed state = inr (Some (quiz, buttons)) ->
  buttons = NotPressed [].
Proof.
  intros Hdone. unfold quizzes_tab.
  destruct (Session.mas_output state); [| discriminate].
  destruct (python (if String.eqb (Session.videos state) "" then _ else _));
    [discriminate |].
  destruct (python (if String.eqb (Session.projects state) "" then _ else _));
    [discriminate |].
  cbn [page_bind].
  destruct (String.eqb (Session.quizzes state) ""); [discriminate |].
  destruct (python (parse_quiz (Session.quizzes state))); [discriminate |].
  cbn [page_bind]. destruct (progress _); [discriminate |].
  cbn [page_bind]. rewrite Hdone. intros [= _ <-]. reflexivity.
Qed.

(** X16. A submitted score is final: while the quiz is submitted, neither
    choosing an option nor pressing submit again changes the session. *)
Theorem submitted_quiz_is_final (state : Session.t) :
  Session.quiz_submitted state = true ->
  (forall q option_key state',
      select_answer q option_key state = inr state' -> state' = state) /\
  (forall state', submit_answers state = inr state' -> state' = state).
Proof.
  intros Hdone. split.
  - intros q option_key state'. unfold select_answer.
    destruct (quizzes_tab _ state) as [e | [[quiz buttons] |]] eqn:Htab;
      [discriminate | | intros [= <-]; reflexivity].
    rewrite (quizzes_tab_submitted _ _ _ _ Hdone Htab).
    intros [= <-]. reflexivity.
  - intros state'. unfold submit_answers.
    destruct (quizzes_tab None state) as [e | [[quiz buttons] |]];
      [discriminate | | intros [= <-]; reflexivity].
    cbn [page_bind]. rewrite Hdone. intros [= <-]. reflexivity.
Qed.

(** X17. No handler of the page removes or rewrites an entry of the study
    history: generating a pack keeps the entries and adds at most one at
    the end, and the handlers of the Quizzes tab leave the history as it
    is. *)
Theorem history_is_append_only (state : Session.t) :
  (forall getenv now subject chapter help_types guide_mode uploaded_file
          engine_label engine_code engine_env_var,
      let state' :=
        (generate_study_pack ag getenv now subject chapter help_types
           guide_mode uploaded_file engine_label engine_code engine_env_var
           state).1 in
      Session.study_history state `prefix_of` Session.study_history state' /\
      (length (Session.study_history state')
       <= S (length (Session.study_history state)))%nat) /\
  (forall q option_key state',
      select_answer q option_key state = inr state' ->
      Session.study_history state' = Session.study_history state) /\
  (forall state',
      submit_answers state = inr state' ->
      Session.study_history state' = Session.study_history state) /\
  (forall state',
      retake_quiz state = inr state' ->
      Session.study_history state' = Session.study_history state) /\
  (forall a9_guide state' notice,
      generate_roadmap ag a9_guide state = inr (state', notice) ->
      Session.study_history state' = Session.study_history state).
Proof.
  split; [| split; [| split; [| split]]].
  - intros. unfold state', generate_study_pack.
    destruct (_ || _); [cbn [fst]; split; [reflexivity | lia] |].
    destruct (negb _); [cbn [fst]; split; [reflexivity | lia] |].
    destruct (run_pipeline _ _ _ _ _ _ _ _).2 as [e | output];
      cbn [fst Session.study_history]; [split; [reflexivity | lia] |].
    split; [apply prefix_app_r; reflexivity |].
    rewrite length_app. cbn [length]. lia.
  - intros q option_key state'. unfold select_answer.
    destruct (quizzes_tab _ state) as [e | [[quiz [pressed o | taken]] |]];
      [discriminate | | |]; intros [= <-]; reflexivity.
  - intros state'. unfold submit_answers.
    destruct (quizzes_tab None state) as [e | [[quiz buttons] |]];
      [discriminate | | intros [= <-]; reflexivity].
    cbn [page_bind]. destruct (Session.quiz_submitted state);
      intros [= <-]; reflexivity.
  - intros state'. unfold retake_quiz.
    destruct (quizzes_tab None state) as [e | [[quiz buttons] |]];
      [discriminate | | intros [= <-]; reflexivity].
    cbn [page_bind]. destruct (Session.quiz_submitted state);
      intros [= <-]; reflexivity.
  - intros a9_guide state' notice. unfold generate_roadmap.
    destruct (quizzes_tab None state) as [e | [[quiz buttons] |]];
      [discriminate | | intros [= <- <-]; reflexivity].
    cbn [page_bind]. destruct (get_llm ag _) as [e | llm];
      [intros [= <- <-]; reflexivity |].
    destruct (self_score _) as [k |]; [| intros [= <- <-]; reflexivity].
    destruct (a9_guide llm _ k 3) as [e | roadmap];
      intros [= <- <-]; reflexivity.
Qed.

Lemma strip_blank (s : string) :
  string_all is_space s = true -> strip s = EmptyString.
Proof.
  intros H. unfold strip.
  assert (Hl : lstrip s = EmptyString).
  { induction s as [| c s IH]; [reflexivity |].
    cbn [string_all] in H. apply andb_true_iff in H as [Hc Hs].
    cbn [lstrip]. rewrite Hc. exact (IH Hs). }
  rewrite Hl. reflexivity.
Qed.

(** X18. A subject or a chapter made of white space only is refused: the
    handler shows the missing-fields error and leaves the session as it
    is, whatever the agents would have answered. *)
Theorem blank_subject_is_refused (getenv : string -> option string)
    (now subject chapter : string) (help_types : list string)
    (guide_mode : bool) (uploaded_file : option File)
    (engine_label engine_code engine_env_var : string) (state : Session.t) :
  string_all is_space subject = true \/ string_all is_space chapter = true ->
  generate_study_pack ag getenv now subject chapter help_types guide_mode
    uploaded_file engine_label engine_code engine_env_var state
  = (state, MissingFields).
Proof.
  intros [H | H]; unfold generate_study_pack; rewrite (strip_blank _ H).
  - reflexivity.
  - rewrite orb_true_r. reflexivity.
Qed.

End HandlerFacts.

Section HandlerExamples.

Lemma submitted_quiz_is_final_witness :
  exists state',
    submit_answers used_session = inr state' /\ state' = used_session.
Proof.
  eexists. split; [vm_compute; reflexivity |].
  apply (proj2 (submitted_quiz_is_final used_session eq_refl)).
  vm_compute. reflexivity.
Defined.

Lemma history_is_append_only_witness :
  exists state',
    retake_quiz used_session = inr state' /\
    Session.study_history state' = Session.study_history used_session.
Proof.
  eexists. split; [vm_compute; reflexivity |].
  apply (proj1 (proj2 (proj2 (proj2
           (history_is_append_only (fixed_agents "results" "videos")
              used_session))))).
  vm_compute. reflexivity.
Defined.

Lemma blank_subject_is_refused_witness :
  generate_study_pack (fixed_agents "results" "videos") key_present
    "2025-02-02 09:00:00" "   " "Limits" ["Videos"] true None
    "Deepseek 3.1" "deepseek" "DEEPSEEK_API_KEY" used_session
  = (used_session, MissingFields).
Proof.
  apply blank_subject_is_refused. left. vm_compute. reflexivity.
Defined.

End HandlerExamples.
